(** * gateway: the routing core of the chat bridge (gateway/gateway.go)

  A shallow embedding of the gateway package: the channel map built from
  the configuration, destination resolution, the message-identity cache
  lookups, the per-destination rewrites and [SendMessage].

  Go strings are byte strings: [string] over [ascii].  Go maps are [gmap]s;
  where the source ranges over a map the order of the visit is an explicit
  argument, any permutation of the map's values.  Pointers to a message
  are modelled by passing the message in and out again, so that a write
  through the pointer is visible to the caller. *)

From stdpp Require Import gmap strings list fin_maps.
From Stdlib Require Import Ascii String ZArith.

(** ** The Go standard library: package strings *)

Module strings.

(** [strings.HasPrefix(s, prefix)] *)
Definition HasPrefix (s prefix : string) : bool := String.prefix prefix s.

(** [strings.Contains(s, substr)] *)
Fixpoint Contains (s substr : string) : bool :=
  String.prefix substr s
  || match s with
     | EmptyString => false
     | String _ t => Contains t substr
     end.

(** The scan of [strings.Replace(s, old, new, n)] for a non-empty [old]:
    [left] is the number of replacements still allowed ([None]: no limit),
    [skip] the number of bytes of a match still to drop. *)
Fixpoint replaceFrom (old new : string) (left : option nat) (skip : nat)
    (s : string) : string :=
  match s with
  | EmptyString => EmptyString
  | String c t =>
      match skip with
      | S k => replaceFrom old new left k t
      | O =>
          if bool_decide (left ≠ Some O) && String.prefix old s
          then new +:+ replaceFrom old new (pred <$> left) (String.length old - 1) t
          else String c (replaceFrom old new left O t)
      end
  end.

(** [strings.Replace(s, old, new, n)]: the first [n] non-overlapping
    occurrences of [old], all of them when [n < 0].  Every call of the
    gateway passes a non-empty [old] (a placeholder in braces, or a
    protocol followed by a space); Go returns [s] itself when [old = new]
    or [n = 0]. *)
Definition Replace (s old new : string) (n : Z) : string :=
  if bool_decide (old = new) || bool_decide (n = 0%Z) then s
  else replaceFrom old new (if bool_decide (n < 0)%Z then None else Some (Z.to_nat n)) O s.

(** The scan of [strings.Split(s, sep)] for a non-empty [sep]: the piece
    under construction and the pieces after it. *)
Fixpoint splitFrom (sep : string) (skip : nat) (s : string) : string * list string :=
  match s with
  | EmptyString => (EmptyString, [])
  | String c t =>
      match skip with
      | S k => splitFrom sep k t
      | O =>
          if String.prefix sep s
          then let '(h, r) := splitFrom sep (String.length sep - 1) t in (EmptyString, h :: r)
          else let '(h, r) := splitFrom sep O t in (String c h, r)
      end
  end.

(** [strings.Split(s, sep)] for a non-empty [sep]. *)
Definition Split (s sep : string) : list string :=
  let '(h, r) := splitFrom sep O s in h :: r.

(** [strings.ToLower]: its Unicode case tables are outside the gateway; the
    gateway's results are stated for every lower-casing function. *)
Class CaseMap := { ToLower : string → string }.

End strings.

(** ** Package config: the structs the gateway reads

    The structs are declared in bridge/config, outside gateway.go; each
    record has the fields gateway.go reads and writes.  [Options]
    (config.ChannelOptions) and [Extra] (the attachment payload) are opaque
    to the gateway and are type parameters. *)

Module config.

Module Bridge.
(** Modelled from the spec: [config.Bridge], declared outside gateway.go:
    one channel entry of a gateway's in, out or inout list. *)
Record t {O : Type} := mk {
    Account : string;
    Channel : string;
    Options : O;
    SameChannel : bool
  }.
Arguments t : clear implicits.
Arguments mk {O}.

Definition with_Channel {O} (c : string) (b : t O) : t O :=
    mk (Account b) c (Options b) (SameChannel b).
End Bridge.

Module ChannelInfo.
(** Modelled from the spec: [config.ChannelInfo], declared outside
    gateway.go: the descriptor of one channel of one account, with the
    fields line 169 fills. *)
Record t {O : Type} := mk {
    Name : string;
    Account : string;
    Direction : string;
    ID : string;
    SameChannel : gmap string bool;
    Options : O
  }.
Arguments t : clear implicits.
Arguments mk {O}.

Definition with_Direction {O} (d : string) (c : t O) : t O :=
    mk (Name c) (Account c) d (ID c) (SameChannel c) (Options c).
Definition with_SameChannel {O} (m : gmap string bool) (c : t O) : t O :=
    mk (Name c) (Account c) (Direction c) (ID c) m (Options c).
End ChannelInfo.

Module Gateway.
(** Modelled from the spec: [config.Gateway], declared outside gateway.go:
    the name of a gateway and its three lists of entries. *)
Record t {O : Type} := mk {
    Name : string;
    In : list (Bridge.t O);
    Out : list (Bridge.t O);
    InOut : list (Bridge.t O)
  }.
Arguments t : clear implicits.
Arguments mk {O}.
End Gateway.

Module Message.
(** Modelled from the spec: [config.Message], declared outside gateway.go:
    the message that is routed, a struct of strings and the payload. *)
Record t {E : Type} := mk {
    Text : string;
    Channel : string;
    Username : string;
    Avatar : string;
    Account : string;
    Event : string;
    Protocol : string;
    Gateway : string;
    ParentID : string;
    ID : string;
    Extra : E
  }.
Arguments t : clear implicits.
Arguments mk {E}.

Section Setters.
Context {E : Type}.
Implicit Type m : t E.
Definition with_Text v m := mk v (Channel m) (Username m) (Avatar m)
      (Account m) (Event m) (Protocol m) (Gateway m) (ParentID m) (ID m) (Extra m).
Definition with_Channel v m := mk (Text m) v (Username m) (Avatar m)
      (Account m) (Event m) (Protocol m) (Gateway m) (ParentID m) (ID m) (Extra m).
Definition with_Username v m := mk (Text m) (Channel m) v (Avatar m)
      (Account m) (Event m) (Protocol m) (Gateway m) (ParentID m) (ID m) (Extra m).
Definition with_Avatar v m := mk (Text m) (Channel m) (Username m) v
      (Account m) (Event m) (Protocol m) (Gateway m) (ParentID m) (ID m) (Extra m).
Definition with_Protocol v m := mk (Text m) (Channel m) (Username m) (Avatar m)
      (Account m) (Event m) v (Gateway m) (ParentID m) (ID m) (Extra m).
Definition with_Gateway v m := mk (Text m) (Channel m) (Username m) (Avatar m)
      (Account m) (Event m) (Protocol m) v (ParentID m) (ID m) (Extra m).
Definition with_ParentID v m := mk (Text m) (Channel m) (Username m) (Avatar m)
      (Account m) (Event m) (Protocol m) (Gateway m) v (ID m) (Extra m).
Definition with_ID v m := mk (Text m) (Channel m) (Username m) (Avatar m)
      (Account m) (Event m) (Protocol m) (Gateway m) (ParentID m) v (Extra m).
End Setters.
End Message.

(** The event kinds of bridge/config the gateway compares [Event] with; the
    values of these string constants are declared outside gateway.go. *)
Class Events := {
  EventJoinLeave : string;
  EventAvatarDownload : string;
  EventUserTyping : string
}.

End config.

(** ** Package bridge: a connection *)

Module bridge.
Module Bridge.
(** Modelled from the spec: [bridge.Bridge], declared outside gateway.go, as
    the gateway sees it: its identity, the typed accessors of its
    configuration, and the [Send] of the protocol client behind it (a nil
    error is [None]). *)
Record t {E : Type} := mk {
  Account : string;
  Protocol : string;
  Name : string;
  GetString : string → string;
  GetBool : string → bool;
  GetStringSlice2D : string → list (list string);
  Send : config.Message.t E → string * option string
}.
Arguments t : clear implicits.
Arguments mk {E}.
End Bridge.
End bridge.

(** ** The libraries the rewrites call

    A regular-expression engine ([regexp.Compile], [ReplaceAllString]), the
    emoji table ([emojilib.Replace]) and the script engine of the hook
    ([ioutil.ReadFile], then tengo's [Compile] and [Run]).  An [inl] is the
    Go error. *)

Module regexp.
Class Engine := {
  Regexp : Type;
  Compile : string → string + Regexp;
  ReplaceAllString : Regexp → string → string → string
}.
End regexp.

Module emojilib.
Class Table := { Replace : string → string }.
End emojilib.

Module tengo.
(** [Compile src text username account channel]: the script [src] with the
    four inputs added; [Run] gives the values of [msgText] and
    [msgUsername] after the run. *)
Class Engine := {
  ReadFile : string → string + string;
  Compiled : Type;
  Compile : string → string → string → string → string → string + Compiled;
  Run : Compiled → string + (string * string)
}.
End tengo.

(** ** github.com/hashicorp/golang-lru

    The cache keeps one entry per key, from the oldest to the newest, which
    is the order of [Keys].  [Contains] and [Peek] leave the order alone;
    [Get] makes the entry the newest. *)

Module lru.

Abbreviation Cache V := (list (string * V)).

Definition Contains {V} (c : Cache V) (key : string) : bool :=
  bool_decide (key ∈ c.*1).

Definition Keys {V} (c : Cache V) : list string := c.*1.

Fixpoint Peek {V} (c : Cache V) (key : string) : option V :=
  match c with
  | [] => None
  | (k, v) :: r => if decide (k = key) then Some v else Peek r key
  end.

Definition Get {V} (c : Cache V) (key : string) : option V * Cache V :=
  match Peek c key with
  | Some v => (Some v, filter (λ e, e.1 ≠ key) c ++ [(key, v)])
  | None => (None, c)
  end.

End lru.

(** ** Package gateway: the data *)

(** [BrMsgID]: the identity a message got on one destination. *)
Module BrMsgID.
Record t {E : Type} := mk {
  br : bridge.Bridge.t E;
  ID : string;
  ChannelID : string
}.
Arguments t : clear implicits.
Arguments mk {E}.
End BrMsgID.

(** [Gateway]: the fields the routing core reads and writes.
    [TengoModifyMessage] is [gw.BridgeValues().General.TengoModifyMessage]. *)
Module Gateway.
Record t {O E : Type} := mk {
  Name : string;
  MyConfig : config.Gateway.t O;
  Bridges : gmap string (bridge.Bridge.t E);
  Channels : gmap string (config.ChannelInfo.t O);
  Messages : lru.Cache (list (BrMsgID.t E));
  TengoModifyMessage : string
}.
Arguments t : clear implicits.
Arguments mk {O E}.

Definition with_Channels {O E} (c : gmap string (config.ChannelInfo.t O)) (g : t O E) : t O E :=
  mk (Name g) (MyConfig g) (Bridges g) c (Messages g) (TengoModifyMessage g).
Definition with_Messages {O E} (c : lru.Cache (list (BrMsgID.t E))) (g : t O E) : t O E :=
  mk (Name g) (MyConfig g) (Bridges g) (Channels g) c (TengoModifyMessage g).
End Gateway.

(** What a call does besides returning: a line of the log, a message put on
    the router's MattermostPlugin stream, a call of a destination's [Send]. *)
Inductive LogArg {E : Type} :=
  | AStr (s : string)
  | AMsg (m : config.Message.t E).
Arguments LogArg : clear implicits.

Inductive Effect {E : Type} :=
  | Logf (level format : string) (args : list (LogArg E))
  | ToMattermostPlugin (m : config.Message.t E)
  | BridgeSend (dest : bridge.Bridge.t E) (m : config.Message.t E).
Arguments Effect : clear implicits.

(** The state a method of the gateway runs in, and how it ends: normally,
    by a Go panic, or by [os.Exit]. *)
Record World {O E : Type} := mkWorld {
  gw : Gateway.t O E;
  trace : list (Effect E)
}.
Arguments World : clear implicits.
Arguments mkWorld {O E}.

Inductive Outcome {O E : Type} (A : Type) :=
  | Normal (a : A) (w : World O E)
  | Panic (w : World O E)
  | Exit (code : Z) (w : World O E).
Arguments Outcome : clear implicits.
Arguments Normal {O E A}.
Arguments Panic {O E A}.
Arguments Exit {O E A}.

Definition M (O E A : Type) : Type := World O E → Outcome O E A.

Definition ret {O E A} (a : A) : M O E A := λ w, Normal a w.

Definition bind {O E A B} (m : M O E A) (k : A → M O E B) : M O E B :=
  λ w, match m w with
       | Normal a w' => k a w'
       | Panic w' => Panic w'
       | Exit c w' => Exit c w'
       end.

#[export] Instance M_ret {O E} : MRet (M O E) := @ret O E.
#[export] Instance M_bind {O E} : MBind (M O E) := λ A B k m, bind m k.

Definition getGw {O E} : M O E (Gateway.t O E) := λ w, Normal (gw w) w.
Definition modifyGw {O E} (f : Gateway.t O E → Gateway.t O E) : M O E unit :=
  λ w, Normal tt (mkWorld (f (gw w)) (trace w)).
Definition emit {O E} (e : Effect E) : M O E unit :=
  λ w, Normal tt (mkWorld (gw w) (trace w ++ [e])).
Definition panic {O E A} : M O E A := λ w, Panic w.
Definition osExit {O E A} (code : Z) : M O E A := λ w, Exit code w.

Definition Errorf {O E} (format : string) (args : list (LogArg E)) : M O E unit :=
  emit (Logf "error" format args).
Definition Debugf {O E} (format : string) (args : list (LogArg E)) : M O E unit :=
  emit (Logf "debug" format args).

(** [for _, x := range l { body }] over a slice, without break. *)
Fixpoint forEach {O E A} (l : list A) (body : A → M O E unit) : M O E unit :=
  match l with
  | [] => ret tt
  | x :: r => bind (body x) (λ _, forEach r body)
  end.

(** What a run gives back when it ends normally. *)
Definition returned {O E A} (o : Outcome O E A) : option A :=
  match o with
  | Normal a _ => Some a
  | _ => None
  end.

(** The world a run ends in. *)
Definition finalWorld {O E A} (o : Outcome O E A) : World O E :=
  match o with
  | Normal _ w | Panic w | Exit _ w => w
  end.

(** The messages a trace hands to a destination's [Send], in order. *)
Fixpoint outgoing {E} (t : list (Effect E)) : list (config.Message.t E) :=
  match t with
  | [] => []
  | BridgeSend _ m :: r => m :: outgoing r
  | _ :: r => outgoing r
  end.

(** A step that hands nothing to [Send] and leaves the gateway as it is:
    it writes the log at most. *)
Definition quiet {O E} (w w' : World O E) : Prop :=
  gw w' = gw w ∧ outgoing (trace w') = outgoing (trace w).

(** ** Package gateway: the channel map *)

Section ChannelMap.
Context {O E : Type} `{!strings.CaseMap}.

Definition apiProtocol : string := "api".

Definition isAPI (account : string) : bool := strings.HasPrefix account "api.".

(** The entry as the loop body of [mapChannelConfig] sees it after its
    first two statements: the channel of an API account is [apiProtocol],
    the channel of an IRC account is lower-cased. *)
Definition normalized (br : config.Bridge.t O) : config.Bridge.t O :=
  let br := if isAPI (config.Bridge.Account br)
            then config.Bridge.with_Channel apiProtocol br else br in
  if strings.HasPrefix (config.Bridge.Account br) "irc."
  then config.Bridge.with_Channel (strings.ToLower (config.Bridge.Channel br)) br
  else br.

(** [ID := br.Channel + br.Account] of the normalized entry. *)
Definition entryID (br : config.Bridge.t O) : string :=
  config.Bridge.Channel (normalized br) +:+ config.Bridge.Account (normalized br).

(** The body of the loop of [mapChannelConfig] for one entry. *)
Definition mapChannelEntry (direction : string) (br0 : config.Bridge.t O) : M O E unit :=
  let br := normalized br0 in
  let account := config.Bridge.Account br in
  let channel := config.Bridge.Channel br in
  if strings.HasPrefix account "mattermost." && strings.HasPrefix channel "#" then
    Errorf "Mattermost channels do not start with a #: remove the # in %s" [AStr channel];;
    osExit 1
  else if strings.HasPrefix account "zulip." && negb (strings.Contains channel "/topic:") then
    Errorf "Breaking change, since matterbridge 1.14.0 zulip channels need to specify the topic with channel/topic:mytopic in %s of %s"
      [AStr channel; AStr account];;
    osExit 1
  else
    let ID := channel +:+ account in
    g ← getGw;
    match Gateway.Channels g !! ID with
    | None =>
        modifyGw (Gateway.with_Channels
          (<[ID := config.ChannelInfo.mk channel account direction ID
                     {[Gateway.Name g := config.Bridge.SameChannel br]}
                     (config.Bridge.Options br)]> (Gateway.Channels g)))
    | Some ch =>
        if decide (config.ChannelInfo.Direction ch ≠ direction)
        then modifyGw (Gateway.with_Channels
               (<[ID := config.ChannelInfo.with_Direction "inout" ch]> (Gateway.Channels g)))
        else ret tt
    end;;
    g ← getGw;
    match Gateway.Channels g !! ID with
    | None => panic
    | Some ch =>
        modifyGw (Gateway.with_Channels
          (<[ID := config.ChannelInfo.with_SameChannel
                     (<[Gateway.Name g := config.Bridge.SameChannel br]> (config.ChannelInfo.SameChannel ch))
                     ch]> (Gateway.Channels g)))
    end.

Definition mapChannelConfig (cfg : list (config.Bridge.t O)) (direction : string) : M O E unit :=
  forEach cfg (mapChannelEntry direction).

Definition mapChannels : M O E unit :=
  g ← getGw;
  mapChannelConfig (config.Gateway.In (Gateway.MyConfig g)) "in";;
  mapChannelConfig (config.Gateway.Out (Gateway.MyConfig g)) "out";;
  mapChannelConfig (config.Gateway.InOut (Gateway.MyConfig g)) "inout".

(** A sequence of calls of [mapChannelConfig], each with its list of
    entries and its direction, in the order given. *)
Definition mapChannelConfigs (calls : list (list (config.Bridge.t O) * string)) : M O E unit :=
  forEach calls (λ call, mapChannelConfig call.1 call.2).

(** Every descriptor is stored under its own ID, as line 178 does. *)
Definition keyedByID (channels : gmap string (config.ChannelInfo.t O)) : Prop :=
  ∀ key ch, channels !! key = Some ch → config.ChannelInfo.ID ch = key.

(** From one world to a later one, a descriptor stays in the map, with its
    direction or with "inout". *)
Definition keepsDirections (w w' : World O E) : Prop :=
  ∀ id ch, Gateway.Channels (gw w) !! id = Some ch →
    ∃ ch', Gateway.Channels (gw w') !! id = Some ch' ∧
      (config.ChannelInfo.Direction ch' = config.ChannelInfo.Direction ch ∨
       config.ChannelInfo.Direction ch' = "inout").

End ChannelMap.

(** [gw.handleExtractNicks] is a method of the package defined outside
    gateway.go; [modifyMessage] is stated for every such method. *)
Class Handlers (O E : Type) := {
  handleExtractNicks : config.Message.t E → M O E (config.Message.t E)
}.

(** The three loops of [getDestChannel] range over the map [gw.Channels];
    Go leaves the order of such a visit open.  A [RangeOrder] gives the
    sequence of descriptors each loop visits. *)
Record RangeOrder {O : Type} := mkRangeOrder {
  atJoinLeave : list (config.ChannelInfo.t O);
  atSource : list (config.ChannelInfo.t O);
  atDest : list (config.ChannelInfo.t O)
}.
Arguments RangeOrder : clear implicits.
Arguments mkRangeOrder {O}.

(** ** Package gateway: destination resolution *)

Section Resolver.
Context {O E : Type} `{!config.Events}.

#[local] Abbreviation ChannelInfo := (config.ChannelInfo.t O).
#[local] Abbreviation Message := (config.Message.t E).
#[local] Abbreviation Gateway := (Gateway.t O E).

(** Each visit sees every descriptor of the map once. *)
Definition rangesOver (g : Gateway) (ro : RangeOrder O) : Prop :=
  atJoinLeave ro ≡ₚ (map_to_list (Gateway.Channels g)).*2 ∧
  atSource ro ≡ₚ (map_to_list (Gateway.Channels g)).*2 ∧
  atDest ro ≡ₚ (map_to_list (Gateway.Channels g)).*2.

Definition validGatewayDest (g : Gateway) (msg : Message) : bool :=
  bool_decide (config.Message.Gateway msg = Gateway.Name g).

Definition getChannelID (msg : Message) : string :=
  config.Message.Channel msg +:+ config.Message.Account msg.

(** [p := strings.Split(msg.Account, "."); return p[0]]; [Split] with a
    non-empty separator returns at least one piece. *)
Definition getProtocol (msg : Message) : string :=
  match strings.Split (config.Message.Account msg) "." with
  | p0 :: _ => p0
  | [] => ""
  end.

(** Lines 204-213: the message is a join/leave of a whole discord bridge. *)
Definition isBridgeJoinLeave (msg : Message) : bool :=
  bool_decide (config.Message.Event msg = config.EventJoinLeave)
  && bool_decide (getProtocol msg = "discord")
  && bool_decide (config.Message.Channel msg = "").

Fixpoint joinLeaveLoop (g : Gateway) (msg : Message) (dest : bridge.Bridge.t E)
    (channels l : list ChannelInfo) : list ChannelInfo :=
  match l with
  | [] => channels
  | channel :: r =>
      if bool_decide (config.ChannelInfo.Account channel = bridge.Bridge.Account dest)
         && strings.Contains (config.ChannelInfo.Direction channel) "out"
         && validGatewayDest g msg
      then joinLeaveLoop g msg dest (channels ++ [channel]) r
      else joinLeaveLoop g msg dest channels r
  end.

(** Lines 215-225: [true] when the loop returns from [getDestChannel], which
    it does at a descriptor of the message's channel whose direction does not
    contain "in". *)
Fixpoint sourceLoop (msg : Message) (l : list ChannelInfo) : bool :=
  match l with
  | [] => false
  | channel :: r =>
      if bool_decide (config.ChannelInfo.ID channel = getChannelID msg) then
        if negb (strings.Contains (config.ChannelInfo.Direction channel) "in") then true
        else sourceLoop msg r
      else sourceLoop msg r
  end.

(** Lines 226-241. *)
Fixpoint destLoop (g : Gateway) (msg : Message) (dest : bridge.Bridge.t E)
    (channels l : list ChannelInfo) : list ChannelInfo :=
  match l with
  | [] => channels
  | channel :: r =>
      match Gateway.Channels g !! getChannelID msg with
      | None => destLoop g msg dest channels r
      | Some _ =>
          if default false (config.ChannelInfo.SameChannel channel !! config.Message.Gateway msg) then
            if bool_decide (config.Message.Channel msg = config.ChannelInfo.Name channel)
               && bool_decide (config.Message.Account msg ≠ bridge.Bridge.Account dest)
            then destLoop g msg dest (channels ++ [channel]) r
            else destLoop g msg dest channels r
          else if strings.Contains (config.ChannelInfo.Direction channel) "out"
                  && bool_decide (config.ChannelInfo.Account channel = bridge.Bridge.Account dest)
                  && validGatewayDest g msg
          then destLoop g msg dest (channels ++ [channel]) r
          else destLoop g msg dest channels r
      end
  end.

Definition getDestChannel (ro : RangeOrder O) (g : Gateway) (msg : Message)
    (dest : bridge.Bridge.t E) : list ChannelInfo :=
  if bool_decide (config.Message.Protocol msg = apiProtocol)
     && bool_decide (Gateway.Name g ≠ config.Message.Gateway msg)
  then []
  else if isBridgeJoinLeave msg
  then joinLeaveLoop g msg dest [] (atJoinLeave ro)
  else if sourceLoop msg (atSource ro) then []
  else destLoop g msg dest [] (atDest ro).

End Resolver.

(** ** Package gateway: the message-identity cache *)

Section Identity.
Context {O E : Type}.

#[local] Abbreviation ChannelInfo := (config.ChannelInfo.t O).
#[local] Abbreviation Message := (config.Message.t E).
#[local] Abbreviation Gateway := (Gateway.t O E).

(** The loop of [getDestMsgID] over the identities of one entry; [None]
    when it ends without a match. *)
Fixpoint findDestMsgID (dest : bridge.Bridge.t E) (channel : ChannelInfo)
    (IDs : list (BrMsgID.t E)) : option string :=
  match IDs with
  | [] => None
  | id :: r =>
      if bool_decide (bridge.Bridge.Protocol dest = bridge.Bridge.Protocol (BrMsgID.br id))
         && bool_decide (bridge.Bridge.Name dest = bridge.Bridge.Name (BrMsgID.br id))
         && bool_decide (config.ChannelInfo.ID channel = BrMsgID.ChannelID id)
      then Some (strings.Replace (BrMsgID.ID id) (bridge.Bridge.Protocol dest +:+ " ") "" 1)
      else findDestMsgID dest channel r
  end.

(** What [getDestMsgID] returns on a given cache. *)
Definition destMsgID (c : lru.Cache (list (BrMsgID.t E))) (msgID : string)
    (dest : bridge.Bridge.t E) (channel : ChannelInfo) : string :=
  match lru.Peek c msgID with
  | Some IDs => default "" (findDestMsgID dest channel IDs)
  | None => ""
  end.

(** [getDestMsgID]: [gw.Messages.Get] makes the entry the newest. *)
Definition getDestMsgID (msgID : string) (dest : bridge.Bridge.t E)
    (channel : ChannelInfo) : M O E string :=
  g ← getGw;
  let '(res, c) := lru.Get (Gateway.Messages g) msgID in
  modifyGw (Gateway.with_Messages c);;
  match res with
  | Some IDs => mret (default "" (findDestMsgID dest channel IDs))
  | None => mret ""
  end.

Fixpoint hasDownstream (ID : string) (ids : list (BrMsgID.t E)) : bool :=
  match ids with
  | [] => false
  | downstreamMsgObj :: r =>
      if bool_decide (ID = BrMsgID.ID downstreamMsgObj) then true
      else hasDownstream ID r
  end.

(** The loop of [FindCanonicalMsgID] over [gw.Messages.Keys()]; [None] is
    the panic of the type assertion on a key that [Peek] does not find. *)
Fixpoint canonicalLoop (c : lru.Cache (list (BrMsgID.t E))) (protocol ID : string)
    (keys : list string) : option string :=
  match keys with
  | [] => Some ""
  | mid :: r =>
      match lru.Peek c mid with
      | None => None
      | Some ids =>
          if hasDownstream ID ids
          then Some (strings.Replace mid (protocol +:+ " ") "" 1)
          else canonicalLoop c protocol ID r
      end
  end.

Definition FindCanonicalMsgID (g : Gateway) (protocol mID : string) : option string :=
  let ID := protocol +:+ " " +:+ mID in
  if lru.Contains (Gateway.Messages g) ID then Some mID
  else canonicalLoop (Gateway.Messages g) protocol ID (lru.Keys (Gateway.Messages g)).

End Identity.

(** ** Package gateway: the rewrites and the dispatch *)

Section Pipeline.
Context {O E : Type} `{!config.Events} `{!regexp.Engine} `{!emojilib.Table}
  `{!tengo.Engine} `{!Handlers O E}.

#[local] Abbreviation ChannelInfo := (config.ChannelInfo.t O).
#[local] Abbreviation Message := (config.Message.t E).
#[local] Abbreviation Gateway := (Gateway.t O E).

(** [regexp.MustCompile("[^a-zA-Z0-9]+").ReplaceAllString(s, "")]: every
    byte that is not an ASCII letter or digit goes (a byte of a multi-byte
    or invalid rune is not one of them). *)
Definition isAlnum (c : ascii) : bool :=
  let n := nat_of_ascii c in
  ((48 <=? n) && (n <=? 57)) || ((65 <=? n) && (n <=? 90)) || ((97 <=? n) && (n <=? 122)).

Fixpoint stripNick (s : string) : string :=
  match s with
  | EmptyString => EmptyString
  | String c t => if isAlnum c then String c (stripNick t) else stripNick t
  end.

Definition byteIn (lo hi : nat) (c : ascii) : bool :=
  (lo <=? nat_of_ascii c) && (nat_of_ascii c <=? hi).

(** The number of bytes by which [for index := range s] advances at the
    start of a non-empty [s]: the width of a well-formed UTF-8 sequence, and
    1 at a byte that starts none. *)
Definition firstRuneLen (s : string) : nat :=
  match s with
  | EmptyString => 0
  | String b0 t =>
      let n0 := nat_of_ascii b0 in
      if n0 <? 128 then 1
      else if (194 <=? n0) && (n0 <=? 223) then
        match t with
        | String b1 _ => if byteIn 128 191 b1 then 2 else 1
        | _ => 1
        end
      else if (224 <=? n0) && (n0 <=? 239) then
        match t with
        | String b1 (String b2 _) =>
            if byteIn (if n0 =? 224 then 160 else 128) (if n0 =? 237 then 159 else 191) b1
               && byteIn 128 191 b2
            then 3 else 1
        | _ => 1
        end
      else if (240 <=? n0) && (n0 <=? 244) then
        match t with
        | String b1 (String b2 (String b3 _)) =>
            if byteIn (if n0 =? 240 then 144 else 128) (if n0 =? 244 then 143 else 191) b1
               && byteIn 128 191 b2 && byteIn 128 191 b3
            then 4 else 1
        | _ => 1
        end
      else 1
  end.

(** The value of [i] after the loop of lines 317-324 on a non-empty
    username: the byte index of the second rune, 1 when there is none. *)
Definition noPingIndex (username : string) : nat :=
  let w := firstRuneLen username in
  if w <? String.length username then w else 1.

(** U+200B, the zero-width space of line 325, in UTF-8. *)
Definition zeroWidthSpace : string :=
  String "226" (String "128" (String "139" EmptyString)).

(** The loops over [ReplaceNicks] and [ReplaceMessages]: each pair is a
    regular expression and its replacement; an expression that does not
    compile is logged and ends the loop; a pair with fewer than two strings
    panics (index out of range). *)
Fixpoint replaceLoop (account : string) (pairs : list (list string)) (s : string)
    : M O E string :=
  match pairs with
  | [] => mret s
  | outer :: r =>
      match outer !! 0%nat, outer !! 1%nat with
      | Some search, Some replace =>
          match regexp.Compile search with
          | inl err =>
              Errorf "regexp in %s failed: %s" [AStr account; AStr err];;
              mret s
          | inr re => replaceLoop account r (regexp.ReplaceAllString re s replace)
          end
      | _, _ => panic
      end
  end.

(** [modifyUsername(msg, dest)]: the nick it returns and the message its
    pointer argument points to afterwards. *)
Definition modifyUsername (msg : Message) (dest : bridge.Bridge.t E)
    : M O E (string * Message) :=
  g ← getGw;
  match Gateway.Bridges g !! config.Message.Account msg with
  | None => panic
  | Some br =>
      let msg := config.Message.with_Protocol (bridge.Bridge.Protocol br) msg in
      let msg := if bridge.Bridge.GetBool dest "StripNick"
                 then config.Message.with_Username (stripNick (config.Message.Username msg)) msg
                 else msg in
      let nick := bridge.Bridge.GetString dest "RemoteNickFormat" in
      username ← replaceLoop (config.Message.Account msg)
                   (bridge.Bridge.GetStringSlice2D br "ReplaceNicks")
                   (config.Message.Username msg);
      let msg := config.Message.with_Username username msg in
      let nick :=
        if 0 <? String.length username then
          let i := noPingIndex username in
          strings.Replace nick "{NOPINGNICK}"
            (String.substring 0 i username +:+ zeroWidthSpace
             +:+ String.substring i (String.length username - i) username) (-1)
        else nick in
      let nick := strings.Replace nick "{BRIDGE}" (bridge.Bridge.Name br) (-1) in
      let nick := strings.Replace nick "{PROTOCOL}" (bridge.Bridge.Protocol br) (-1) in
      let nick := strings.Replace nick "{GATEWAY}" (Gateway.Name g) (-1) in
      let nick := strings.Replace nick "{LABEL}" (bridge.Bridge.GetString br "Label") (-1) in
      let nick := strings.Replace nick "{NICK}" username (-1) in
      let nick := strings.Replace nick "{CHANNEL}" (config.Message.Channel msg) (-1) in
      mret (nick, msg)
  end.

(** [modifyAvatar(msg, dest)]: the avatar it returns and the message its
    pointer argument points to afterwards. *)
Definition modifyAvatar (msg : Message) (dest : bridge.Bridge.t E) : string * Message :=
  let iconurl := bridge.Bridge.GetString dest "IconURL" in
  let iconurl := strings.Replace iconurl "{NICK}" (config.Message.Username msg) (-1) in
  let msg := if bool_decide (config.Message.Avatar msg = "")
             then config.Message.with_Avatar iconurl msg else msg in
  (config.Message.Avatar msg, msg).

(** [modifyMessageTengo(filename, msg)]: the error it returns ([None] for
    nil) and the message afterwards. *)
Definition modifyMessageTengo (filename : string) (msg : Message) : option string * Message :=
  if bool_decide (filename = "") then (None, msg)
  else
    match tengo.ReadFile filename with
    | inl err => (Some err, msg)
    | inr res =>
        match tengo.Compile res (config.Message.Text msg) (config.Message.Username msg)
                (config.Message.Account msg) (config.Message.Channel msg) with
        | inl err => (Some err, msg)
        | inr c =>
            match tengo.Run c with
            | inl err => (Some err, msg)
            | inr (msgText, msgUsername) =>
                (None, config.Message.with_Username msgUsername
                         (config.Message.with_Text msgText msg))
            end
        end
    end.

(** The three ways the hook fails: the script file cannot be read, the
    script does not compile, the script stops with a run-time error. *)
Inductive tengoFails (filename : string) (msg : Message) (err : string) : Prop :=
  | ReadFails :
      filename ≠ "" → tengo.ReadFile filename = inl err →
      tengoFails filename msg err
  | CompileFails res :
      filename ≠ "" → tengo.ReadFile filename = inr res →
      tengo.Compile res (config.Message.Text msg) (config.Message.Username msg)
        (config.Message.Account msg) (config.Message.Channel msg) = inl err →
      tengoFails filename msg err
  | RunFails res c :
      filename ≠ "" → tengo.ReadFile filename = inr res →
      tengo.Compile res (config.Message.Text msg) (config.Message.Username msg)
        (config.Message.Account msg) (config.Message.Channel msg) = inr c →
      tengo.Run c = inl err →
      tengoFails filename msg err.

(** Lines 351-373 of [modifyMessage]: what follows the hook. *)
Definition afterHook (msg : Message) : M O E Message :=
  g ← getGw;
  let msg := config.Message.with_Text (emojilib.Replace (config.Message.Text msg)) msg in
  match Gateway.Bridges g !! config.Message.Account msg with
  | None => panic
  | Some br =>
      text ← replaceLoop (config.Message.Account msg)
               (bridge.Bridge.GetStringSlice2D br "ReplaceMessages")
               (config.Message.Text msg);
      let msg := config.Message.with_Text text msg in
      msg ← handleExtractNicks msg;
      mret (if bool_decide (config.Message.Protocol msg ≠ apiProtocol)
            then config.Message.with_Gateway (Gateway.Name g) msg
            else msg)
  end.

(** [modifyMessage(msg)]: the message its pointer argument points to
    afterwards. *)
Definition modifyMessage (msg : Message) : M O E Message :=
  g ← getGw;
  let '(err, msg) := modifyMessageTengo (Gateway.TengoModifyMessage g) msg in
  match err with
  | Some e => Errorf "TengoModifyMessage failed: %s" [AStr e]
  | None => mret tt
  end;;
  afterHook msg.

(** Lines 424-441 of [SendMessage]: the rewritten copy [msg] goes to the
    plugin stream when the destination is the plugin account, then to the
    destination's [Send], whose identity and error are returned. *)
Definition deliver (dest : bridge.Bridge.t E) (msg rmsg : Message)
    : M O E ((string * option string) * Message) :=
  (if bool_decide (bridge.Bridge.Account dest = "mattermost.plugin")
   then emit (ToMattermostPlugin msg)
   else mret tt);;
  emit (BridgeSend dest msg);;
  let '(mID, err) := bridge.Bridge.Send dest msg in
  match err with
  | Some e => mret ((mID, Some e), rmsg)
  | None =>
      if bool_decide (mID ≠ "")
      then Debugf "mID %s: %s" [AStr (bridge.Bridge.Account dest); AStr mID];;
           mret ((mID, None), rmsg)
      else mret (("", None), rmsg)
  end.

(** [SendMessage(rmsg, dest, channel, canonicalParentMsgID)]: the pair it
    returns (the identity and the error) and the message [rmsg] points to
    afterwards.  [msg] is the copy made at line 384. *)
Definition SendMessage (rmsg : Message) (dest : bridge.Bridge.t E)
    (channel : ChannelInfo) (canonicalParentMsgID : string)
    : M O E ((string * option string) * Message) :=
  let msg := rmsg in
  if (if bool_decide (config.Message.Event msg = config.EventAvatarDownload)
      then bool_decide (config.ChannelInfo.ID channel ≠ getChannelID rmsg)
      else bool_decide (config.ChannelInfo.ID channel = getChannelID rmsg))
  then mret (("", None), rmsg)
  else
    (if bool_decide (config.Message.Event msg ≠ config.EventUserTyping)
     then Debugf "=> Sending %#v from %s (%s) to %s (%s)"
            [AMsg msg; AStr (config.Message.Account msg); AStr (config.Message.Channel rmsg);
             AStr (bridge.Bridge.Account dest); AStr (config.ChannelInfo.Name channel)]
     else mret tt);;
    let msg := config.Message.with_Channel (config.ChannelInfo.Name channel) msg in
    let '(avatar, rmsg) := modifyAvatar rmsg dest in
    let msg := config.Message.with_Avatar avatar msg in
    '(nick, rmsg) ← modifyUsername rmsg dest;
    let msg := config.Message.with_Username nick msg in
    id ← getDestMsgID (config.Message.Protocol rmsg +:+ " " +:+ config.Message.ID rmsg) dest channel;
    let msg := config.Message.with_ID id msg in
    let msg := if bool_decide (bridge.Bridge.Protocol dest = apiProtocol)
               then config.Message.with_Channel (config.Message.Channel rmsg) msg
               else msg in
    parent ← getDestMsgID (config.Message.Protocol rmsg +:+ " " +:+ canonicalParentMsgID) dest channel;
    let msg := config.Message.with_ParentID parent msg in
    let msg := if bool_decide (config.Message.ParentID msg = "")
               then config.Message.with_ParentID canonicalParentMsgID msg
               else msg in
    let msg := if bool_decide (config.Message.ParentID msg = "")
                  && bool_decide (config.Message.ParentID rmsg ≠ "")
               then config.Message.with_ParentID "msg-parent-not-found" msg
               else msg in
    deliver dest msg rmsg.

End Pipeline.

(** ** The channel map: what ends the load, and what the map keeps *)

Section ChannelMapMore.
Context {O E : Type} `{!strings.CaseMap}.

(** The two tests of lines 159 and 163 on the normalized entry: a
    Mattermost channel that starts with "#", a Zulip channel without
    "/topic:". *)
Definition fatalEntry (br : config.Bridge.t O) : bool :=
  let account := config.Bridge.Account (normalized br) in
  let channel := config.Bridge.Channel (normalized br) in
  (strings.HasPrefix account "mattermost." && strings.HasPrefix channel "#")
  || (strings.HasPrefix account "zulip." && negb (strings.Contains channel "/topic:")).

(** The line of the log written before [os.Exit(1)], lines 160 and 164. *)
Definition fatalLine (br : config.Bridge.t O) : Effect E :=
  let account := config.Bridge.Account (normalized br) in
  let channel := config.Bridge.Channel (normalized br) in
  if strings.HasPrefix account "mattermost." && strings.HasPrefix channel "#"
  then Logf "error" "Mattermost channels do not start with a #: remove the # in %s"
         [AStr channel]
  else Logf "error" "Breaking change, since matterbridge 1.14.0 zulip channels need to specify the topic with channel/topic:mytopic in %s of %s"
         [AStr channel; AStr account].

(** Every descriptor is stored under its ID, and its ID is its name
    followed by its account (lines 167-178). *)
Definition wellKeyed (channels : gmap string (config.ChannelInfo.t O)) : Prop :=
  ∀ key ch, channels !! key = Some ch →
    config.ChannelInfo.ID ch = key ∧
    key = config.ChannelInfo.Name ch +:+ config.ChannelInfo.Account ch.

(** The descriptor an entry leaves under its ID: a new one when the map has
    none (lines 169-178), else the old one with its direction merged (lines
    181-183); in both cases with the flag of the entry (line 185). *)
Definition mergedDescriptor (gwName direction : string) (br : config.Bridge.t O)
    (old : option (config.ChannelInfo.t O)) : config.ChannelInfo.t O :=
  let nbr := normalized br in
  match old with
  | None =>
      config.ChannelInfo.mk (config.Bridge.Channel nbr) (config.Bridge.Account nbr)
        direction (entryID br)
        {[gwName := config.Bridge.SameChannel nbr]}
        (config.Bridge.Options nbr)
  | Some ch =>
      let ch1 := if decide (config.ChannelInfo.Direction ch ≠ direction)
                 then config.ChannelInfo.with_Direction "inout" ch else ch in
      config.ChannelInfo.with_SameChannel
        (<[gwName := config.Bridge.SameChannel nbr]> (config.ChannelInfo.SameChannel ch1))
        ch1
  end.

End ChannelMapMore.

(** ** Destination resolution: the tests of the loops *)

Section ResolverMore.
Context {O E : Type} `{!config.Events}.

(** The test of lines 207-208 on one descriptor. *)
Definition joinLeaveTest (g : Gateway.t O E) (msg : config.Message.t E)
    (dest : bridge.Bridge.t E) (channel : config.ChannelInfo.t O) : bool :=
  bool_decide (config.ChannelInfo.Account channel = bridge.Bridge.Account dest)
  && strings.Contains (config.ChannelInfo.Direction channel) "out"
  && validGatewayDest g msg.

(** The tests of lines 227-240 on one descriptor: [true] when the
    descriptor is appended. *)
Definition destTest (g : Gateway.t O E) (msg : config.Message.t E)
    (dest : bridge.Bridge.t E) (channel : config.ChannelInfo.t O) : bool :=
  match Gateway.Channels g !! getChannelID msg with
  | None => false
  | Some _ =>
      if default false (config.ChannelInfo.SameChannel channel !! config.Message.Gateway msg)
      then bool_decide (config.Message.Channel msg = config.ChannelInfo.Name channel)
           && bool_decide (config.Message.Account msg ≠ bridge.Bridge.Account dest)
      else strings.Contains (config.ChannelInfo.Direction channel) "out"
           && bool_decide (config.ChannelInfo.Account channel = bridge.Bridge.Account dest)
           && validGatewayDest g msg
  end.

End ResolverMore.

(** ** The message-identity cache: the test of a lookup *)

Section IdentityMore.
Context {O E : Type}.

(** The test of line 251 on one identity of an entry. *)
Definition identityMatches (dest : bridge.Bridge.t E) (channel : config.ChannelInfo.t O)
    (id : BrMsgID.t E) : bool :=
  bool_decide (bridge.Bridge.Protocol dest = bridge.Bridge.Protocol (BrMsgID.br id))
  && bool_decide (bridge.Bridge.Name dest = bridge.Bridge.Name (BrMsgID.br id))
  && bool_decide (config.ChannelInfo.ID channel = BrMsgID.ChannelID id).

End IdentityMore.

(** ** The dispatch: what reaches the plugin stream *)

(** The messages a trace puts on the router's MattermostPlugin stream, in
    order. *)
Fixpoint relayed {E} (t : list (Effect E)) : list (config.Message.t E) :=
  match t with
  | [] => []
  | ToMattermostPlugin m :: r => m :: relayed r
  | _ :: r => relayed r
  end.

(** ** The log: a step that writes nothing else *)

Definition isLogf {E} (e : Effect E) : bool :=
  match e with
  | Logf _ _ _ => true
  | _ => false
  end.

(** From [w] to [w'] the gateway is the same and the trace has grown by
    lines of the log only: nothing went to a bridge or to the plugin
    stream. *)
Definition logsOnly {O E} (w w' : World O E) : Prop :=
  gw w' = gw w ∧
  ∃ lines, trace w' = trace w ++ lines ∧ Forall (λ e, isLogf e = true) lines.

(** ** Package gateway: the channels of a bridge *)

Section BridgeChannels.
Context {O : Type}.

(** [mapChannelsToBridge(br)]: the loop of lines 124-128 over [gw.Channels]
    in the order [visit], on the map [br.Channels] of the bridge of
    [account]; the result is [br.Channels] afterwards. *)
Definition mapChannelsToBridge (visit : list (string * config.ChannelInfo.t O))
    (account : string) (brChannels : gmap string (config.ChannelInfo.t O))
    : gmap string (config.ChannelInfo.t O) :=
  foldl (λ channels entry,
           if bool_decide (account = config.ChannelInfo.Account entry.2)
           then <[entry.1 := entry.2]> channels
           else channels)
        brChannels visit.

End BridgeChannels.

(** ** Package gateway: the filter of incoming messages *)

(** [regexp.MatchString], on the expressions of the engine. *)
Module regexps.
Class Matcher `{!regexp.Engine} := {
  MatchString : regexp.Regexp → string → bool
}.
End regexps.

(** [strings.Fields]: the pieces of a string between runs of white space;
    its table of Unicode white space is outside the gateway, and the filter
    is stated for every such function. *)
Module fields.
Class Splitter := { Fields : string → list string }.
End fields.

(** The key of the payload that tells of a file too large to pass on, a
    string constant of bridge/config declared outside gateway.go. *)
Module fileEvents.
Class Keys := { EventFileFailureSize : string }.
End fileEvents.

(** [msg.Extra], a [map[string][]interface{}]: [None] is the nil map, and
    under a key [None] is the nil slice, which is also what a key that is
    not in the map gives. *)
Definition ExtraMap (X : Type) : Type := option (gmap string (option (list X))).

Section Filter.
Context {O X : Type} `{!config.Events} `{!regexp.Engine} `{!regexps.Matcher}
  `{!fields.Splitter} `{!fileEvents.Keys}.

#[local] Abbreviation Message := (config.Message.t (ExtraMap X)).
#[local] Abbreviation FilterM := (M O (ExtraMap X)).

(** [msg.Extra[key]], the nil slice for a key that is not there. *)
Definition extraSlice (extra : gmap string (option (list X))) (key : string)
    : option (list X) :=
  default None (extra !! key).

(** Lines 268-271: the message carries an attachment, file bytes or the
    notice of a file too large. *)
Definition hasPayload (msg : Message) : bool :=
  match config.Message.Extra msg with
  | None => false
  | Some extra =>
      bool_decide (extraSlice extra "attachments" ≠ None)
      || bool_decide (0 < List.length (default [] (extraSlice extra "file")))
      || bool_decide (0 < List.length
                        (default [] (extraSlice extra fileEvents.EventFileFailureSize)))
  end.

(** [ignoreTextEmpty(msg)]. *)
Definition ignoreTextEmpty (msg : Message) : FilterM bool :=
  if bool_decide (config.Message.Text msg ≠ "") then mret false
  else if bool_decide (config.Message.Event msg = config.EventUserTyping) then mret false
  else if hasPayload msg then mret false
  else
    Debugf "ignoring empty message %#v from %s"
      [AMsg msg; AStr (config.Message.Account msg)];;
    mret true.

(** [ignoreText(text, input)]. *)
Fixpoint ignoreText (text : string) (input : list string) : FilterM bool :=
  match input with
  | [] => mret false
  | entry :: r =>
      if bool_decide (entry = "") then ignoreText text r
      else
        match regexp.Compile entry with
        | inl _ =>
            Errorf "incorrect regexp %s" [AStr entry];;
            ignoreText text r
        | inr re =>
            if regexps.MatchString re text
            then Debugf "matching %s. ignoring %s" [AStr entry; AStr text];;
                 mret true
            else ignoreText text r
        end
  end.

(** [ignoreMessage(msg)]; the three tests of line 286 are made from left
    to right, up to the first that holds. *)
Definition ignoreMessage (msg : Message) : FilterM bool :=
  g ← getGw;
  match Gateway.Bridges g !! config.Message.Account msg with
  | None => mret true
  | Some br =>
      let igNicks := fields.Fields (bridge.Bridge.GetString br "IgnoreNicks") in
      let igMessages := fields.Fields (bridge.Bridge.GetString br "IgnoreMessages") in
      bind (ignoreTextEmpty msg) (λ textEmpty : bool,
        if textEmpty then mret true
        else
          bind (ignoreText (config.Message.Username msg) igNicks) (λ nick : bool,
            if nick then mret true
            else
              bind (ignoreText (config.Message.Text msg) igMessages) (λ text : bool,
                if text then mret true else mret false)))
  end.

(** Some entry of [input] is a non-empty expression that compiles and
    matches [text]. *)
Definition matchesAny (text : string) (input : list string) : Prop :=
  ∃ entry re, entry ∈ input ∧ entry ≠ "" ∧ regexp.Compile entry = inr re ∧
    regexps.MatchString re text = true.

End Filter.

(** ** Package gateway: the reconnection of a bridge *)

Module reconnect.

(** What [reconnectBridge] sees of the bridge: the error of [Disconnect],
    the error of the n-th call of [Connect] (from 0) and the error of
    [JoinChannels], [None] for nil. *)
Record Link := mkLink {
  Disconnect : option string;
  Connect : nat → option string;
  JoinChannels : option string
}.

(** What [reconnectBridge] does, in order: the calls of the bridge's
    methods, the sleeps (in seconds), the reset of [br.Joined], and the
    lines of the log. *)
Inductive Step :=
  | CallDisconnect
  | Sleep (seconds : nat)
  | CallConnect
  | ResetJoined
  | CallJoinChannels
  | Log (level format : string) (args : list string).

(** Lines 136-147, from the label RECONNECT: [rounds] bounds the number of
    passes through the label, and the boolean tells whether the function
    returned within them. *)
Fixpoint reconnectFrom (link : Link) (account : string) (attempt rounds : nat)
    : list Step * bool :=
  match rounds with
  | O => ([], false)
  | S rounds' =>
      match Connect link attempt with
      | Some err =>
          let '(steps, returned) := reconnectFrom link account (S attempt) rounds' in
          (Log "info" "Reconnecting %s" [account] :: CallConnect
           :: Log "error" "Reconnection failed: %s. Trying again in 60 seconds" [err]
           :: Sleep 60 :: steps, returned)
      | None =>
          (Log "info" "Reconnecting %s" [account] :: CallConnect :: ResetJoined
           :: CallJoinChannels
           :: match JoinChannels link with
              | Some err => [Log "error" "JoinChannels() %s failed: %s" [account; err]]
              | None => []
              end, true)
      end
  end.

(** [reconnectBridge(br)], for at most [rounds] calls of [Connect]. *)
Definition reconnectBridge (link : Link) (account : string) (rounds : nat)
    : list Step * bool :=
  let '(steps, returned) := reconnectFrom link account 0 rounds in
  (CallDisconnect
   :: match Disconnect link with
      | Some err => [Log "error" "Disconnect() %s failed: %s" [account; err]]
      | None => []
      end
   ++ Sleep 5 :: steps, returned).

(** The steps that are not lines of the log. *)
Fixpoint actions (steps : list Step) : list Step :=
  match steps with
  | [] => []
  | Log _ _ _ :: r => actions r
  | s :: r => s :: actions r
  end.

End reconnect.

(** * A sample deployment

    Concrete libraries and two gateways, on which the functions above are
    run: [gw1] bridges a Slack channel to IRC and Discord, [gw2] mirrors the
    channel "#x" between IRC and Slack. *)

Module sample.

Definition lowerByte (c : ascii) : ascii :=
  let n := nat_of_ascii c in
  if (65 <=? n) && (n <=? 90) then ascii_of_nat (n + 32) else c.

Fixpoint lower (s : string) : string :=
  match s with
  | EmptyString => EmptyString
  | String c t => String (lowerByte c) (lower t)
  end.

(** Lower-casing of the ASCII letters. *)
Definition caseMap : strings.CaseMap := {| strings.ToLower := lower |}.

Definition events : config.Events := {|
  config.EventJoinLeave := "join_leave";
  config.EventAvatarDownload := "avatar_download";
  config.EventUserTyping := "user_typing"
|}.

Fixpoint allAlnum (s : string) : bool :=
  match s with
  | EmptyString => true
  | String c t => isAlnum c && allAlnum t
  end.

(** An engine for the expressions that are a plain word. *)
Definition words : regexp.Engine := {|
  regexp.Regexp := string;
  regexp.Compile s :=
    if allAlnum s && negb (bool_decide (s = ""))
    then inr s else inl "error parsing regexp";
  regexp.ReplaceAllString re s repl := strings.Replace s re repl (-1)
|}.

Definition noEmoji : emojilib.Table := {| emojilib.Replace s := s |}.

(** No script file can be read. *)
Definition noScripts : tengo.Engine := {|
  tengo.ReadFile f := inl ("open " +:+ f +:+ ": no such file or directory");
  tengo.Compiled := unit;
  tengo.Compile _ _ _ _ _ := inr tt;
  tengo.Run _ := inl "not run"
|}.

Definition handlers : Handlers unit unit := {| handleExtractNicks msg := mret msg |}.

Definition settings (key : string) : string :=
  if bool_decide (key = "RemoteNickFormat") then "[{PROTOCOL}] <{NICK}> "
  else if bool_decide (key = "IconURL") then "https://example.org/{NICK}.png"
  else "".

Definition connection (protocol name : string) : bridge.Bridge.t unit := {|
  bridge.Bridge.Account := protocol +:+ "." +:+ name;
  bridge.Bridge.Protocol := protocol;
  bridge.Bridge.Name := name;
  bridge.Bridge.GetString := settings;
  bridge.Bridge.GetBool _ := false;
  bridge.Bridge.GetStringSlice2D _ := [];
  bridge.Bridge.Send _ := ("1001", None)
|}.

Definition irc := connection "irc" "a".
Definition slack := connection "slack" "b".
Definition discord := connection "discord" "x".

Definition bridges : gmap string (bridge.Bridge.t unit) :=
  <["irc.a" := irc]> (<["slack.b" := slack]> (<["discord.x" := discord]> ∅)).

Definition entry (account channel : string) (same : bool) : config.Bridge.t unit :=
  config.Bridge.mk account channel tt same.

Definition config1 : config.Gateway.t unit := {|
  config.Gateway.Name := "gw1";
  config.Gateway.In := [entry "slack.b" "general" false; entry "irc.a" "#Chat" false];
  config.Gateway.Out := [entry "irc.a" "#chat" false; entry "irc.a" "#News" false;
                         entry "discord.x" "" false];
  config.Gateway.InOut := []
|}.

Definition config2 : config.Gateway.t unit := {|
  config.Gateway.Name := "gw2";
  config.Gateway.In := [];
  config.Gateway.Out := [];
  config.Gateway.InOut := [entry "irc.a" "#x" true; entry "slack.b" "#x" true]
|}.

(** The message "m1" of Slack went to IRC's "#news" as "77". *)
Definition cache : lru.Cache (list (BrMsgID.t unit)) :=
  [("slack m1", [BrMsgID.mk irc "irc 77" "#newsirc.a"])].

(** A gateway as [New] makes it, before [AddConfig]. *)
Definition fresh (cfg : config.Gateway.t unit) : World unit unit :=
  mkWorld (Gateway.mk (config.Gateway.Name cfg) cfg bridges ∅ cache "") [].

(** The three calls of [mapChannels] on a configuration. *)
Definition calls (cfg : config.Gateway.t unit) : list (list (config.Bridge.t unit) * string) :=
  [(config.Gateway.In cfg, "in"); (config.Gateway.Out cfg, "out");
   (config.Gateway.InOut cfg, "inout")].

(** The gateways after their channel maps are built. *)
Definition world1 : World unit unit :=
  finalWorld (@mapChannelConfigs unit unit caseMap (calls config1) (fresh config1)).
Definition world2 : World unit unit :=
  finalWorld (@mapChannelConfigs unit unit caseMap (calls config2) (fresh config2)).
Definition gw1 : Gateway.t unit unit := gw world1.
Definition gw2 : Gateway.t unit unit := gw world2.

(** One order of visit for the three loops of [getDestChannel]. *)
Definition order (g : Gateway.t unit unit) : RangeOrder unit :=
  let l := (map_to_list (Gateway.Channels g)).*2 in mkRangeOrder l l l.

Definition message (account channel gateway : string) : config.Message.t unit := {|
  config.Message.Text := "hello";
  config.Message.Channel := channel;
  config.Message.Username := "bob";
  config.Message.Avatar := "";
  config.Message.Account := account;
  config.Message.Event := "";
  config.Message.Protocol := "";
  config.Message.Gateway := gateway;
  config.Message.ParentID := "";
  config.Message.ID := "m2";
  config.Message.Extra := tt
|}.

(** Discord reports that somebody joined the server, no channel named. *)
Definition joinLeave : config.Message.t unit :=
  config.Message.mk "" "" "bob" "" "discord.x" "join_leave" "discord" "gw1" "" "m3" tt.

(** [gw1] with a cache that holds the IRC message "msg42" as an origin. *)
Definition gw3 : Gateway.t unit unit :=
  Gateway.with_Messages [("irc msg42", [])] gw1.

(** A reply on Slack to the message "m1", and a reply to a message "p9"
    that the cache does not know. *)
Definition reply : config.Message.t unit :=
  config.Message.with_ParentID "m1" (message "slack.b" "general" "gw1").
Definition lostReply : config.Message.t unit :=
  config.Message.with_ParentID "p9" (message "slack.b" "general" "gw1").

(** A descriptor of [gw1] or [gw2] by its ID. *)
Definition descriptor (g : Gateway.t unit unit) (id : string) : config.ChannelInfo.t unit :=
  default (config.ChannelInfo.mk "" "" "" "" ∅ tt) (Gateway.Channels g !! id).

End sample.

(** * The sample deployment, continued *)

Module sampleMore.

(** [gw1] visited from the last descriptor to the first in two of the
    three loops. *)
Definition backwards (g : Gateway.t unit unit) : RangeOrder unit :=
  let l := (map_to_list (Gateway.Channels g)).*2 in
  mkRangeOrder (reverse l) l (reverse l).

(** The dispatch of the reply to "m1" from Slack to "#news" of irc.a. *)
Definition dispatch : Outcome unit unit ((string * option string) * config.Message.t unit) :=
  @SendMessage unit unit sample.events sample.words sample.reply sample.irc
    (sample.descriptor sample.gw1 "#newsirc.a") "m1" sample.world1.

Definition dispatched : (string * option string) * config.Message.t unit :=
  default (("", None), sample.reply) (returned dispatch).

(** A message of an account for which [gw1] has no bridge. *)
Definition stranger : config.Message.t unit := sample.message "xmpp.z" "room" "gw1".

(** The identity of "m1" on IRC. *)
Definition onIRC : BrMsgID.t unit := BrMsgID.mk sample.irc "irc 77" "#newsirc.a".

(** A bridge that refuses the first two connections, and one that refuses
    them all. *)
Definition flaky : reconnect.Link :=
  reconnect.mkLink (Some "broken pipe")
    (λ attempt, if attempt <? 2 then Some "connection refused" else None) None.
Definition down : reconnect.Link :=
  reconnect.mkLink None (λ _, Some "connection refused") (Some "not connected").

(** Slack with one pair of ReplaceNicks, and [gw1] with this bridge. *)
Definition renaming : bridge.Bridge.t unit := {|
  bridge.Bridge.Account := "slack.b";
  bridge.Bridge.Protocol := "slack";
  bridge.Bridge.Name := "b";
  bridge.Bridge.GetString := sample.settings;
  bridge.Bridge.GetBool _ := false;
  bridge.Bridge.GetStringSlice2D key :=
    if bool_decide (key = "ReplaceNicks") then [["bob"; "rob"]] else [];
  bridge.Bridge.Send _ := ("1001", None)
|}.
Definition renamed : World unit unit :=
  let g := sample.gw1 in
  mkWorld (Gateway.mk (Gateway.Name g) (Gateway.MyConfig g)
             (<["slack.b" := renaming]> (Gateway.Bridges g))
             (Gateway.Channels g) (Gateway.Messages g) (Gateway.TengoModifyMessage g)) [].

(** The Mattermost plugin as a destination, and a channel of it. *)
Definition plugin : bridge.Bridge.t unit := sample.connection "mattermost" "plugin".
Definition town : config.ChannelInfo.t unit :=
  config.ChannelInfo.mk "town" "mattermost.plugin" "out" "townmattermost.plugin" ∅ tt.

(** A destination with an icon URL of its own. *)
Definition iconic : bridge.Bridge.t unit := {|
  bridge.Bridge.Account := "discord.x";
  bridge.Bridge.Protocol := "discord";
  bridge.Bridge.Name := "x";
  bridge.Bridge.GetString _ := "https://example.org/icon.png";
  bridge.Bridge.GetBool _ := false;
  bridge.Bridge.GetStringSlice2D _ := [];
  bridge.Bridge.Send _ := ("1002", None)
|}.

(** The dispatch of the same reply to the plugin. *)
Definition toPlugin : Outcome unit unit ((string * option string) * config.Message.t unit) :=
  @SendMessage unit unit sample.events sample.words sample.reply plugin town "m1"
    sample.world1.

(** A channel list with "#x" of irc.a twice, mirrored and then not, and a
    list with a Mattermost channel that starts with "#". *)
Definition twice : list (config.Bridge.t unit) :=
  [sample.entry "irc.a" "#x" true; sample.entry "irc.a" "#X" false;
   sample.entry "slack.b" "#x" true].

(** IRC as a destination with StripNick set, and a message of a user
    whose name has a hyphen and an underscore. *)
Definition stripping : bridge.Bridge.t unit := {|
  bridge.Bridge.Account := "irc.a";
  bridge.Bridge.Protocol := "irc";
  bridge.Bridge.Name := "a";
  bridge.Bridge.GetString := sample.settings;
  bridge.Bridge.GetBool key := bool_decide (key = "StripNick");
  bridge.Bridge.GetStringSlice2D _ := [];
  bridge.Bridge.Send _ := ("1001", None)
|}.
Definition fromAlice : config.Message.t unit :=
  config.Message.with_Username "al-ice_99" (sample.message "slack.b" "general" "gw1").

(** A username that starts with a letter of two bytes. *)
Definition accented : string := String "195" (String "169" "toile").

End sampleMore.

(** * Facts *)

(** ** The monad *)

Section MonadFacts.
Context {O E : Type}.

Lemma bind_Normal {A B} (m : M O E A) (k : A → M O E B) w b w' :
  (m ≫= k) w = Normal b w' → ∃ a w1, m w = Normal a w1 ∧ k a w1 = Normal b w'.
Proof.
  unfold mbind, M_bind, bind.
  destruct (m w) as [a w1| |]; [eauto | done | done].
Qed.

(** A loop whose body moves the world along a preorder moves it along the
    preorder, and passes through the body at each element. *)
Lemma forEach_Normal {A} (R : relation (World O E)) `{!PreOrder R}
    (body : A → M O E unit) (l : list A) w w' :
  (∀ x w1 w2, x ∈ l → body x w1 = Normal tt w2 → R w1 w2) →
  forEach l body w = Normal tt w' → R w w'.
Proof.
  revert w. induction l as [|x r IH]; intros w Hbody Hrun; simpl in Hrun.
  - by inversion Hrun.
  - unfold bind in Hrun. destruct (body x w) as [[] w1| |] eqn:Hx; try done.
    transitivity w1.
    + eapply Hbody; [left | done].
    + apply IH; [|done]. intros y ? ? Hy. apply Hbody. by right.
Qed.

Lemma forEach_elem {A} (R : relation (World O E)) `{!PreOrder R}
    (body : A → M O E unit) (l : list A) (x : A) w w' :
  (∀ y w1 w2, y ∈ l → body y w1 = Normal tt w2 → R w1 w2) →
  x ∈ l → forEach l body w = Normal tt w' →
  ∃ w1 w2, R w w1 ∧ body x w1 = Normal tt w2 ∧ R w2 w'.
Proof.
  revert w. induction l as [|y r IH]; intros w Hbody Hin Hrun.
  - by apply elem_of_nil in Hin.
  - simpl in Hrun. unfold bind in Hrun.
    destruct (body y w) as [[] wy| |] eqn:Hy; try done.
    apply elem_of_cons in Hin as [->|Hin].
    + exists w, wy. split; [reflexivity|]. split; [done|].
      eapply forEach_Normal; [done | | done].
      intros z ? ? Hz. apply Hbody. by right.
    + destruct (IH wy) as (w1 & w2 & H1 & H2 & H3); [|done|done|].
      { intros z ? ? Hz. apply Hbody. by right. }
      exists w1, w2. split; [|done].
      transitivity wy; [|done]. eapply Hbody; [left | done].
Qed.

End MonadFacts.

(** ** The channel map *)

Section ChannelMapFacts.
Context {O E : Type} `{!strings.CaseMap}.

#[local] Instance keepsDirections_preorder : PreOrder (@keepsDirections O E).
Proof.
  split.
  - intros w id ch Hch. eauto.
  - intros w1 w2 w3 H12 H23 id ch Hch.
    destruct (H12 _ _ Hch) as (ch2 & Hch2 & Hd2).
    destruct (H23 _ _ Hch2) as (ch3 & Hch3 & Hd3).
    exists ch3. split; [done|].
    destruct Hd2 as [Hd2|Hd2], Hd3 as [Hd3|Hd3]; [left | right | right | right]; congruence.
Qed.

(** One entry of the configuration: the map gets or keeps a descriptor
    under the entry's ID, and changes nowhere else. *)
Lemma mapChannelEntry_Normal direction (br : config.Bridge.t O) (w w' : World O E) :
  mapChannelEntry direction br w = Normal tt w' →
  ∃ ch',
    Gateway.Channels (gw w') = <[entryID br := ch']> (Gateway.Channels (gw w)) ∧
    Gateway.Name (gw w') = Gateway.Name (gw w) ∧
    config.ChannelInfo.Direction ch' =
      match Gateway.Channels (gw w) !! entryID br with
      | None => direction
      | Some ch => if decide (config.ChannelInfo.Direction ch = direction)
                   then direction else "inout"
      end ∧
    config.ChannelInfo.ID ch' =
      match Gateway.Channels (gw w) !! entryID br with
      | None => entryID br
      | Some ch => config.ChannelInfo.ID ch
      end.
Proof.
  unfold mapChannelEntry, entryID.
  destruct (_ && _); [done|].
  destruct (_ && _); [done|].
  set (ID := _ +:+ _).
  intros Hrun.
  unfold mbind, M_bind, bind, getGw in Hrun. simpl in Hrun.
  destruct (Gateway.Channels (gw w) !! ID) as [ch|] eqn:Hl.
  - destruct (decide (config.ChannelInfo.Direction ch ≠ direction)) as [Hne|Heq];
      simpl in Hrun.
    + rewrite lookup_insert_eq in Hrun. simpl in Hrun.
      inversion Hrun; subst; clear Hrun. simpl.
      eexists. rewrite insert_insert_eq. split; [done|]. simpl.
      by rewrite decide_False.
    + rewrite Hl in Hrun. simpl in Hrun.
      inversion Hrun; subst; clear Hrun. simpl.
      eexists. split; [done|]. simpl.
      apply dec_stable in Heq. by rewrite decide_True.
  - simpl in Hrun. rewrite lookup_insert_eq in Hrun. simpl in Hrun.
    inversion Hrun; subst; clear Hrun. simpl.
    eexists. rewrite insert_insert_eq. split; [done|]. done.
Qed.

Lemma mapChannelEntry_keeps direction (br : config.Bridge.t O) (w w' : World O E) :
  mapChannelEntry direction br w = Normal tt w' → keepsDirections w w'.
Proof.
  intros (ch' & Hm & _ & Hd & _)%mapChannelEntry_Normal id ch Hch.
  rewrite Hm. destruct (decide (id = entryID br)) as [->|Hne].
  - rewrite lookup_insert_eq. exists ch'. split; [done|].
    rewrite Hch in Hd. case_decide; [left | right]; congruence.
  - rewrite lookup_insert_ne; [|done]. eauto.
Qed.

Lemma mapChannelConfig_keeps cfg direction (w w' : World O E) :
  mapChannelConfig cfg direction w = Normal tt w' → keepsDirections w w'.
Proof.
  apply (forEach_Normal (@keepsDirections O E)). intros br w1 w2 _.
  apply mapChannelEntry_keeps.
Qed.

(** After an entry has been processed with [direction], the descriptor
    under its ID has that direction or "inout", now and later. *)
Lemma mapChannelConfigs_entry calls cfg direction br (w w' : World O E) :
  (cfg, direction) ∈ calls → br ∈ cfg →
  mapChannelConfigs calls w = Normal tt w' →
  ∃ ch, Gateway.Channels (gw w') !! entryID br = Some ch ∧
    (config.ChannelInfo.Direction ch = direction ∨
     config.ChannelInfo.Direction ch = "inout").
Proof.
  intros Hcall Hbr Hrun.
  eapply (forEach_elem (@keepsDirections O E)) in Hrun as (w1 & w2 & _ & Hcfg & H2); [|
    intros [c d] ? ? _; apply mapChannelConfig_keeps | exact Hcall ].
  simpl in Hcfg.
  eapply (forEach_elem (@keepsDirections O E)) in Hcfg as (w3 & w4 & _ & Hent & H4); [|
    intros b ? ? _; apply mapChannelEntry_keeps | exact Hbr ].
  apply mapChannelEntry_Normal in Hent as (ch4 & Hm & _ & Hd & _).
  assert (Gateway.Channels (gw w4) !! entryID br = Some ch4) as Hch4
    by (rewrite Hm; apply lookup_insert_eq).
  destruct (H4 _ _ Hch4) as (ch2 & Hch2 & Hd2).
  destruct (H2 _ _ Hch2) as (ch & Hch & Hd').
  exists ch. split; [done|].
  assert (config.ChannelInfo.Direction ch4 = direction ∨
          config.ChannelInfo.Direction ch4 = "inout") as Hd4.
  { rewrite Hd. destruct (Gateway.Channels (gw w3) !! entryID br); [|by left].
    case_decide; auto. }
  destruct Hd' as [Hd'|Hd']; [|by right].
  destruct Hd2 as [Hd2|Hd2]; [|right; congruence].
  destruct Hd4; [left | right]; congruence.
Qed.

(** The builder does not panic: it ends normally or by [os.Exit]. *)
Lemma mapChannelEntry_no_panic direction (br : config.Bridge.t O) (w w' : World O E) :
  mapChannelEntry direction br w ≠ Panic w'.
Proof.
  unfold mapChannelEntry.
  destruct (_ && _); [done|]. destruct (_ && _); [done|].
  unfold mbind, M_bind, bind, getGw. simpl.
  destruct (Gateway.Channels (gw w) !! _) as [ch|] eqn:Hl.
  - destruct (decide _); simpl; [by rewrite lookup_insert_eq | by rewrite Hl].
  - simpl. by rewrite lookup_insert_eq.
Qed.

Lemma mapChannelConfig_no_panic cfg direction (w w' : World O E) :
  mapChannelConfig cfg direction w ≠ Panic w'.
Proof.
  unfold mapChannelConfig. revert w. induction cfg as [|br r IH]; intros w; simpl; [done|].
  unfold bind. destruct (mapChannelEntry direction br w) as [[] w1|w1|c w1] eqn:Hbr;
    [apply IH | by apply mapChannelEntry_no_panic in Hbr | done].
Qed.

(** [mapChannels] is the three calls, in the order in, out, inout. *)
Lemma mapChannels_calls (w : World O E) :
  mapChannels w =
  mapChannelConfigs
    [(config.Gateway.In (Gateway.MyConfig (gw w)), "in");
     (config.Gateway.Out (Gateway.MyConfig (gw w)), "out");
     (config.Gateway.InOut (Gateway.MyConfig (gw w)), "inout")] w.
Proof.
  unfold mapChannels, mapChannelConfigs, mbind, M_bind, bind, getGw. simpl. unfold bind.
  destruct (mapChannelConfig _ "in" w) as [[] w1| |]; [|done|done].
  destruct (mapChannelConfig _ "out" w1) as [[] w2| |]; [|done|done].
  by destruct (mapChannelConfig _ "inout" w2) as [[] w3| |].
Qed.

(** The builder stores every descriptor under its own ID. *)
Lemma mapChannelConfigs_keyedByID calls (w w' : World O E) :
  keyedByID (Gateway.Channels (gw w)) →
  mapChannelConfigs calls w = Normal tt w' →
  keyedByID (Gateway.Channels (gw w')).
Proof.
  intros Hw Hrun. revert Hrun Hw.
  set (R := λ w1 w2 : World O E,
    keyedByID (Gateway.Channels (gw w1)) → keyedByID (Gateway.Channels (gw w2))).
  assert (PreOrder R) as HR.
  { split; [intros ? ?; assumption | intros ? ? ? H1 H2 ?; apply H2, H1; assumption]. }
  apply (forEach_Normal R). intros [cfg d] w1 w2 _. simpl.
  apply (forEach_Normal R).
  intros br w3 w4 _ (ch' & Hm & _ & _ & Hid)%mapChannelEntry_Normal Hk key ch.
  rewrite Hm. destruct (decide (entryID br = key)) as [<-|Hne].
  - rewrite lookup_insert_eq. intros [= <-]. rewrite Hid.
    destruct (Gateway.Channels (gw w3) !! entryID br) eqn:Hold; [|done]. by apply Hk.
  - rewrite lookup_insert_ne; [|done]. apply Hk.
Qed.

(** C1. However the calls of [mapChannelConfig] are ordered, when the
    builder returns: two entries with the same ID and different directions
    leave a descriptor with direction "inout" under that ID, and a
    descriptor whose direction is "inout" before the calls still has
    direction "inout" after them. *)
Theorem mapChannelConfig_merges_to_inout
    (calls : list (list (config.Bridge.t O) * string)) (w w' : World O E) :
  mapChannelConfigs calls w = Normal tt w' →
  (∀ cfg1 d1 br1 cfg2 d2 br2,
     (cfg1, d1) ∈ calls → br1 ∈ cfg1 →
     (cfg2, d2) ∈ calls → br2 ∈ cfg2 →
     entryID br1 = entryID br2 → d1 ≠ d2 →
     ∃ ch, Gateway.Channels (gw w') !! entryID br1 = Some ch ∧
           config.ChannelInfo.Direction ch = "inout") ∧
  (∀ id ch,
     Gateway.Channels (gw w) !! id = Some ch →
     config.ChannelInfo.Direction ch = "inout" →
     ∃ ch', Gateway.Channels (gw w') !! id = Some ch' ∧
            config.ChannelInfo.Direction ch' = "inout").
Proof.
  intros Hrun. split.
  - intros cfg1 d1 br1 cfg2 d2 br2 Hc1 Hb1 Hc2 Hb2 Hid Hne.
    destruct (mapChannelConfigs_entry _ _ _ _ _ _ Hc1 Hb1 Hrun) as (ch & Hch & H1).
    destruct (mapChannelConfigs_entry _ _ _ _ _ _ Hc2 Hb2 Hrun) as (ch' & Hch' & H2).
    rewrite <- Hid in Hch'. rewrite Hch in Hch'. injection Hch' as <-.
    exists ch. split; [done|].
    destruct H1 as [H1|H1]; [|done]. destruct H2 as [H2|H2]; [|done]. congruence.
  - intros id ch Hch Hd.
    assert (keepsDirections w w') as Hk.
    { revert Hrun. apply (forEach_Normal (@keepsDirections O E)).
      intros [c d] ? ? _. apply mapChannelConfig_keeps. }
    destruct (Hk _ _ Hch) as (ch' & Hch' & Hd').
    exists ch'. split; [done|]. destruct Hd'; congruence.
Qed.

End ChannelMapFacts.

(** ** Destination resolution *)

Section ResolverFacts.
Context {O E : Type} `{!config.Events}.

#[local] Abbreviation ChannelInfo := (config.ChannelInfo.t O).
#[local] Abbreviation Message := (config.Message.t E).
#[local] Abbreviation Gateway := (Gateway.t O E).

(** A visit of the map sees exactly the descriptors of the map. *)
Lemma elem_of_range (m : gmap string ChannelInfo) (l : list ChannelInfo) ch :
  l ≡ₚ (map_to_list m).*2 → ch ∈ l ↔ ∃ key, m !! key = Some ch.
Proof.
  intros ->. rewrite list_elem_of_fmap. split.
  - intros ([k c] & -> & Hin). exists k. by apply elem_of_map_to_list.
  - intros (k & Hk). exists (k, ch). split; [done|]. by apply elem_of_map_to_list.
Qed.

Lemma sourceLoop_true (msg : Message) (l : list ChannelInfo) :
  sourceLoop msg l = true ↔
  ∃ ch, ch ∈ l ∧ config.ChannelInfo.ID ch = getChannelID msg ∧
        strings.Contains (config.ChannelInfo.Direction ch) "in" = false.
Proof.
  induction l as [|c r IH]; simpl.
  - split; [done|]. intros (ch & Hin & _). by apply elem_of_nil in Hin.
  - case_bool_decide as Hid.
    + destruct (strings.Contains (config.ChannelInfo.Direction c) "in") eqn:Hdir; simpl.
      * rewrite IH. split.
        -- intros (ch & Hin & Hrest). exists ch. split; [by right | done].
        -- intros (ch & Hin & Hch & Hno). apply elem_of_cons in Hin as [->|Hin]; [congruence|].
           eauto.
      * split; [|done]. intros _. exists c. split; [by left | done].
    + rewrite IH. split.
      * intros (ch & Hin & Hrest). exists ch. split; [by right | done].
      * intros (ch & Hin & Hch & Hno). apply elem_of_cons in Hin as [->|Hin]; [done|].
        eauto.
Qed.

(** Line 227: without a descriptor under the key of the message's channel,
    the last loop adds nothing. *)
Lemma destLoop_None (g : Gateway) (msg : Message) dest (channels l : list ChannelInfo) :
  Gateway.Channels g !! getChannelID msg = None →
  destLoop g msg dest channels l = channels.
Proof.
  intros Hnone. revert channels. induction l as [|c r IH]; intros channels; simpl; [done|].
  by rewrite Hnone.
Qed.

(** With one, it adds the descriptors that pass the test of their branch. *)
Lemma destLoop_elem (g : Gateway) (msg : Message) dest (channels l : list ChannelInfo) d :
  is_Some (Gateway.Channels g !! getChannelID msg) →
  d ∈ destLoop g msg dest channels l ↔
  d ∈ channels ∨
  (d ∈ l ∧
   if default false (config.ChannelInfo.SameChannel d !! config.Message.Gateway msg)
   then config.Message.Channel msg = config.ChannelInfo.Name d ∧
        config.Message.Account msg ≠ bridge.Bridge.Account dest
   else strings.Contains (config.ChannelInfo.Direction d) "out" = true ∧
        config.ChannelInfo.Account d = bridge.Bridge.Account dest ∧
        config.Message.Gateway msg = Gateway.Name g).
Proof.
  intros [src Hsrc]. revert channels.
  induction l as [|c r IH]; intros channels; simpl.
  - split; [by left|]. intros [?|[Hin _]]; [done|]. by apply elem_of_nil in Hin.
  - rewrite Hsrc.
    destruct (default false (config.ChannelInfo.SameChannel c !! config.Message.Gateway msg))
      eqn:Hsame.
    + destruct (bool_decide _ && bool_decide _) eqn:Htest; rewrite IH.
      * apply andb_true_iff in Htest as [Hn Ha].
        apply bool_decide_eq_true in Hn. apply bool_decide_eq_true in Ha.
        rewrite elem_of_app, list_elem_of_singleton, elem_of_cons. split.
        -- intros [[?| ->]|[? ?]]; [by left | | right; split; [by right | done]].
           right. split; [by left|]. by rewrite Hsame.
        -- intros [?|[[->|?] ?]]; [by left; left | by left; right | by right].
      * rewrite elem_of_cons. split.
        -- intros [?|[? ?]]; [by left | right; split; [by right | done]].
        -- intros [?|[[->|?] Hd]]; [by left | | by right].
           rewrite Hsame in Hd. destruct Hd as [Hn Ha].
           apply andb_false_iff in Htest as [Hf|Hf]; apply bool_decide_eq_false in Hf; done.
    + unfold validGatewayDest.
      destruct (_ && _ && _) eqn:Htest; rewrite IH.
      * apply andb_true_iff in Htest as [[Hout Ha]%andb_true_iff Hg].
        apply bool_decide_eq_true in Ha. apply bool_decide_eq_true in Hg.
        rewrite elem_of_app, list_elem_of_singleton, elem_of_cons. split.
        -- intros [[?| ->]|[? ?]]; [by left | | right; split; [by right | done]].
           right. split; [by left|]. by rewrite Hsame.
        -- intros [?|[[->|?] ?]]; [by left; left | by left; right | by right].
      * rewrite elem_of_cons. split.
        -- intros [?|[? ?]]; [by left | right; split; [by right | done]].
        -- intros [?|[[->|?] Hd]]; [by left | | by right].
           rewrite Hsame in Hd. destruct Hd as (Hout & Ha & Hg).
           rewrite Hout in Htest. simpl in Htest.
           apply andb_false_iff in Htest as [Hf|Hf]; apply bool_decide_eq_false in Hf; done.
Qed.

(** The general case of [getDestChannel]: the result is that of the last
    loop, provided the message is not an API message for another gateway and
    no descriptor of its channel lacks "in". *)
Lemma getDestChannel_general ro (g : Gateway) (msg : Message) dest d :
  rangesOver g ro → isBridgeJoinLeave msg = false →
  d ∈ getDestChannel ro g msg dest ↔
  ¬ (config.Message.Protocol msg = apiProtocol ∧ Gateway.Name g ≠ config.Message.Gateway msg) ∧
  (∀ key c, Gateway.Channels g !! key = Some c →
     config.ChannelInfo.ID c = getChannelID msg →
     strings.Contains (config.ChannelInfo.Direction c) "in" = true) ∧
  d ∈ destLoop g msg dest [] (atDest ro).
Proof.
  intros (_ & Hsrc & _) Hnot. unfold getDestChannel. rewrite Hnot.
  destruct (bool_decide _ && bool_decide _) eqn:Hapi.
  { apply andb_true_iff in Hapi as [Hp Hg].
    apply bool_decide_eq_true in Hp. apply bool_decide_eq_true in Hg.
    split; [by intros ?%elem_of_nil | intros (Hno & _); by destruct Hno]. }
  assert (¬ (config.Message.Protocol msg = apiProtocol ∧
             Gateway.Name g ≠ config.Message.Gateway msg)) as Hok.
  { intros [Hp Hg]. apply andb_false_iff in Hapi as [Hf|Hf];
      apply bool_decide_eq_false in Hf; done. }
  destruct (sourceLoop msg (atSource ro)) eqn:Hloop.
  - apply sourceLoop_true in Hloop as (c & Hin & Hid & Hno).
    apply (elem_of_range _ _ _ Hsrc) in Hin as [key Hkey].
    split; [by intros ?%elem_of_nil|]. intros (_ & Hall & _).
    specialize (Hall _ _ Hkey Hid). congruence.
  - split; [|by intros (_ & _ & ?)]. intros Hd. split; [done|]. split; [|done].
    intros key c Hkey Hid.
    destruct (strings.Contains (config.ChannelInfo.Direction c) "in") eqn:Hdir; [done|].
    assert (sourceLoop msg (atSource ro) = true) as Hcontra; [|congruence].
    apply sourceLoop_true. exists c. split; [|done].
    apply (elem_of_range _ _ _ Hsrc). eauto.
Qed.

(** C2, amended. When the message is not the join/leave of a whole discord
    bridge and the map has a descriptor of the message's channel whose
    direction does not contain "in", nothing is returned, for every
    destination. *)
Theorem getDestChannel_out_only_source ro (g : Gateway) (msg : Message) dest key d :
  rangesOver g ro → isBridgeJoinLeave msg = false →
  Gateway.Channels g !! key = Some d →
  config.ChannelInfo.ID d = getChannelID msg →
  strings.Contains (config.ChannelInfo.Direction d) "in" = false →
  getDestChannel ro g msg dest = [].
Proof.
  intros (_ & Hsrc & _) Hnot Hkey Hid Hdir. unfold getDestChannel. rewrite Hnot.
  destruct (bool_decide _ && bool_decide _); [done|].
  assert (sourceLoop msg (atSource ro) = true) as ->; [|done].
  apply sourceLoop_true. exists d. split; [|done].
  apply (elem_of_range _ _ _ Hsrc). eauto.
Qed.

(** C3, amended. In the general case a descriptor [d] of the map with
    [d.SameChannel[msg.Gateway]] true is in the result exactly when the
    message passes the checks made before the loop (it is not an API message
    for another gateway, no descriptor of its channel lacks "in", its
    channel has a key in the map), [d.Name] is the message's channel and the
    account of the message, not that of [d], differs from the
    destination's.  Neither [d]'s direction nor [validGatewayDest] is
    asked. *)
Theorem getDestChannel_same_channel ro (g : Gateway) (msg : Message) dest key d :
  rangesOver g ro → isBridgeJoinLeave msg = false →
  Gateway.Channels g !! key = Some d →
  config.ChannelInfo.SameChannel d !! config.Message.Gateway msg = Some true →
  d ∈ getDestChannel ro g msg dest ↔
  ¬ (config.Message.Protocol msg = apiProtocol ∧ Gateway.Name g ≠ config.Message.Gateway msg) ∧
  (∀ key' c, Gateway.Channels g !! key' = Some c →
     config.ChannelInfo.ID c = getChannelID msg →
     strings.Contains (config.ChannelInfo.Direction c) "in" = true) ∧
  is_Some (Gateway.Channels g !! getChannelID msg) ∧
  config.Message.Channel msg = config.ChannelInfo.Name d ∧
  config.Message.Account msg ≠ bridge.Bridge.Account dest.
Proof.
  intros Hro Hnot Hkey Hsame. rewrite (getDestChannel_general _ _ _ _ _ Hro Hnot).
  destruct Hro as (_ & _ & Hdst).
  destruct (Gateway.Channels g !! getChannelID msg) as [src|] eqn:Hsrc.
  - rewrite destLoop_elem by (rewrite Hsrc; eauto). rewrite Hsame. simpl. split.
    + intros (Hok & Hall & [Hin|[_ [Hn Ha]]]); [by apply elem_of_nil in Hin|]. eauto 10.
    + intros (Hok & Hall & _ & Hn & Ha). split; [done|]. split; [done|]. right.
      split; [|done]. apply (elem_of_range _ _ _ Hdst). eauto.
  - rewrite destLoop_None by done. split.
    + by intros (_ & _ & ?%elem_of_nil).
    + intros (_ & _ & [? ?] & _). done.
Qed.

(** C4, amended. [validGatewayDest] passes exactly when the gateway named
    in the message is this gateway (an empty name passes only for a gateway
    whose name is empty); and in the general case a descriptor [d] of the
    map with [d.SameChannel[msg.Gateway]] not true is in the result exactly
    when no descriptor of the message's channel lacks "in", that channel has
    a key in the map, [d]'s direction contains "out", [d]'s account is the
    destination's and [validGatewayDest] passes. *)
Theorem getDestChannel_other_channel ro (g : Gateway) (msg : Message) dest key d :
  rangesOver g ro → isBridgeJoinLeave msg = false →
  Gateway.Channels g !! key = Some d →
  default false (config.ChannelInfo.SameChannel d !! config.Message.Gateway msg) = false →
  (validGatewayDest g msg = true ↔ config.Message.Gateway msg = Gateway.Name g) ∧
  (d ∈ getDestChannel ro g msg dest ↔
   (∀ key' c, Gateway.Channels g !! key' = Some c →
      config.ChannelInfo.ID c = getChannelID msg →
      strings.Contains (config.ChannelInfo.Direction c) "in" = true) ∧
   is_Some (Gateway.Channels g !! getChannelID msg) ∧
   strings.Contains (config.ChannelInfo.Direction d) "out" = true ∧
   config.ChannelInfo.Account d = bridge.Bridge.Account dest ∧
   validGatewayDest g msg = true).
Proof.
  intros Hro Hnot Hkey Hsame.
  assert (validGatewayDest g msg = true ↔ config.Message.Gateway msg = Gateway.Name g) as Hvalid
    by apply bool_decide_eq_true.
  split; [done|].
  rewrite (getDestChannel_general _ _ _ _ _ Hro Hnot), Hvalid.
  destruct Hro as (_ & _ & Hdst).
  destruct (Gateway.Channels g !! getChannelID msg) as [src|] eqn:Hsrc.
  - rewrite destLoop_elem by (rewrite Hsrc; eauto). rewrite Hsame. split.
    + intros (Hok & Hall & [Hin|[_ (Hout & Ha & Hg)]]); [by apply elem_of_nil in Hin|].
      eauto 10.
    + intros (Hall & _ & Hout & Ha & Hg). split; [by intros [_ []]|]. split; [done|].
      right. split; [|done]. apply (elem_of_range _ _ _ Hdst). eauto.
  - rewrite destLoop_None by done. split.
    + by intros (_ & _ & ?%elem_of_nil).
    + intros (_ & [? ?] & _). done.
Qed.

(** C10. When the message is not the join/leave of a whole discord bridge
    and no descriptor of the map has the ID of the message's channel,
    nothing is returned, for every destination: the map is keyed by ID, so
    the test of line 227 fails at every descriptor, the mirrored ones too. *)
Theorem getDestChannel_unconfigured_source ro (g : Gateway) (msg : Message) dest :
  keyedByID (Gateway.Channels g) → isBridgeJoinLeave msg = false →
  (∀ key c, Gateway.Channels g !! key = Some c →
     config.ChannelInfo.ID c ≠ getChannelID msg) →
  getDestChannel ro g msg dest = [].
Proof.
  intros Hkeyed Hnot Hnone. unfold getDestChannel. rewrite Hnot.
  destruct (bool_decide _ && bool_decide _); [done|].
  destruct (sourceLoop msg (atSource ro)); [done|].
  apply destLoop_None.
  destruct (Gateway.Channels g !! getChannelID msg) as [c|] eqn:Hc; [|done].
  destruct (Hnone _ _ Hc). by apply Hkeyed.
Qed.

End ResolverFacts.

(** ** package strings *)

Section StringFacts.

Lemma replaceFrom_exhausted old new skip s :
  skip = 0 → strings.replaceFrom old new (Some 0) skip s = s.
Proof.
  intros ->. induction s as [|c t IH]; simpl; [done | by rewrite IH].
Qed.

Lemma replaceFrom_skip old new left a s :
  strings.replaceFrom old new left (String.length a) (a +:+ s)
  = strings.replaceFrom old new left 0 s.
Proof.
  induction a as [|c a IH]; simpl; [by destruct s|]. exact IH.
Qed.

Lemma prefix_app a s : String.prefix a (a +:+ s) = true.
Proof.
  induction a as [|c a IH]; simpl; [by destruct s|].
  destruct (ascii_dec c c); [exact IH | done].
Qed.

(** Removing the first occurrence of a non-empty prefix leaves the rest. *)
Lemma Replace_first_prefix c a s :
  strings.Replace (String c a +:+ s) (String c a) "" 1 = s.
Proof.
  unfold strings.Replace. simpl.
  destruct (ascii_dec c c); [|done].
  rewrite prefix_app. simpl. rewrite Nat.sub_0_r.
  rewrite replaceFrom_skip. by apply replaceFrom_exhausted.
Qed.

Example Replace_every_occurrence :
  strings.Replace "<{NICK}> {NICK}" "{NICK}" "bob" (-1) = "<bob> bob".
Proof. reflexivity. Qed.

Example Replace_first_occurrence :
  strings.Replace "irc irc 42" "irc " "" 1 = "irc 42".
Proof. reflexivity. Qed.

Example Split_account : strings.Split "discord.x" "." = ["discord"; "x"].
Proof. reflexivity. Qed.

Example Contains_directions :
  strings.Contains "inout" "in" = true ∧ strings.Contains "inout" "out" = true ∧
  strings.Contains "out" "in" = false ∧ strings.Contains "in" "out" = false.
Proof. repeat split; reflexivity. Qed.

End StringFacts.

(** ** The message-identity cache *)

Section IdentityFacts.
Context {O E : Type}.

#[local] Abbreviation ChannelInfo := (config.ChannelInfo.t O).
#[local] Abbreviation Message := (config.Message.t E).
#[local] Abbreviation Gateway := (Gateway.t O E).
#[local] Abbreviation Cache := (lru.Cache (list (BrMsgID.t E))).

Lemma Peek_app_l {V} (c1 c2 : lru.Cache V) key :
  key ∈ c1.*1 → lru.Peek (c1 ++ c2) key = lru.Peek c1 key.
Proof.
  induction c1 as [|[k v] r IH]; simpl; [by intros ?%elem_of_nil|].
  intros Hin. case_decide; [done|]. apply IH.
  apply elem_of_cons in Hin as [?|?]; [congruence | done].
Qed.

Lemma Peek_app_r {V} (c1 c2 : lru.Cache V) key :
  key ∉ c1.*1 → lru.Peek (c1 ++ c2) key = lru.Peek c2 key.
Proof.
  induction c1 as [|[k v] r IH]; simpl; [done|].
  intros Hin. rewrite not_elem_of_cons in Hin. destruct Hin as [Hne Hin].
  rewrite decide_False by congruence. by apply IH.
Qed.

Lemma Peek_Some {V} (c : lru.Cache V) key v :
  lru.Peek c key = Some v → (key, v) ∈ c.
Proof.
  induction c as [|[k v'] r IH]; simpl; [done|].
  case_decide as Hk; [intros [= ->]; subst; by left | intros ?; right; auto].
Qed.

Lemma Peek_None {V} (c : lru.Cache V) key :
  lru.Peek c key = None ↔ key ∉ c.*1.
Proof.
  induction c as [|[k v] r IH]; simpl.
  - split; [intros _; apply not_elem_of_nil | done].
  - rewrite not_elem_of_cons. case_decide; [split; [done | intros [? _]; congruence]|].
    rewrite IH. split; [intros ?; split; [congruence | done] | by intros [_ ?]].
Qed.

(** [Get] moves an entry and changes no lookup. *)
Lemma Peek_Get {V} (c : lru.Cache V) key key' :
  lru.Peek (lru.Get c key).2 key' = lru.Peek c key'.
Proof.
  unfold lru.Get. destruct (lru.Peek c key) as [v|] eqn:Hv; simpl; [|done].
  assert (∀ l : lru.Cache V,
    lru.Peek (filter (λ e, e.1 ≠ key) l) key' =
    if decide (key' = key) then None else lru.Peek l key') as Hfilter.
  { induction l as [|[k x] r IH]; [simpl; by case_decide|].
    rewrite filter_cons. simpl. destruct (decide (k ≠ key)) as [Hne|Heq]; simpl.
    - destruct (decide (k = key')) as [->|Hk']; [by rewrite decide_False | exact IH].
    - apply dec_stable in Heq. subst k. rewrite IH.
      destruct (decide (key' = key)) as [->|?]; [done|]. by rewrite decide_False. }
  destruct (decide (key' = key)) as [->|Hne].
  - rewrite Peek_app_r.
    + simpl. by rewrite decide_True.
    + apply Peek_None, Hfilter.
  - destruct (lru.Peek c key') as [v'|] eqn:Hv'.
    + rewrite Peek_app_l; [by rewrite Hfilter|].
      apply dec_stable. intros Hnot. apply Peek_None in Hnot.
      rewrite Hfilter in Hnot. congruence.
    + rewrite Peek_app_r.
      * simpl. by rewrite decide_False.
      * apply Peek_None. by rewrite Hfilter.
Qed.

Lemma hasDownstream_true ID (ids : list (BrMsgID.t E)) :
  hasDownstream ID ids = true ↔ ID ∈ BrMsgID.ID <$> ids.
Proof.
  induction ids as [|i r IH]; simpl.
  - split; [done | by intros ?%elem_of_nil].
  - rewrite elem_of_cons. case_bool_decide; [by split; [left|]|].
    rewrite IH. split; [by right | by intros [?|?]].
Qed.

(** The loop passes the keys whose entries do not list [ID]. *)
Lemma canonicalLoop_app (c : Cache) protocol ID keys1 keys2 :
  (∀ key, key ∈ keys1 → ∃ ids, lru.Peek c key = Some ids ∧ ID ∉ BrMsgID.ID <$> ids) →
  canonicalLoop c protocol ID (keys1 ++ keys2) = canonicalLoop c protocol ID keys2.
Proof.
  induction keys1 as [|k r IH]; simpl; [done|]. intros Hall.
  destruct (Hall k) as (ids & -> & Hno); [by left|].
  destruct (hasDownstream ID ids) eqn:Hd; [by apply hasDownstream_true in Hd|].
  apply IH. intros key Hkey. apply Hall. by right.
Qed.

(** C7, amended. [FindCanonicalMsgID(protocol, mID)] takes the raw ID of
    the message.  With [ID = protocol + " " + mID]: when [ID] is a key of
    the cache it returns [mID]; when it is not and an entry lists an
    identity [ID], it returns the key of the first such entry (the oldest)
    with the first occurrence of [protocol + " "] removed; when no entry
    does, it returns the empty string.  Removing [protocol + " "] from a key
    that starts with it leaves the raw ID behind it. *)
Theorem FindCanonicalMsgID_cases (g : Gateway) (protocol mID : string) :
  let ID := protocol +:+ " " +:+ mID in
  (lru.Contains (Gateway.Messages g) ID = true →
   FindCanonicalMsgID g protocol mID = Some mID) ∧
  (lru.Contains (Gateway.Messages g) ID = false →
   ∀ c1 mid ids c2,
     Gateway.Messages g = c1 ++ (mid, ids) :: c2 →
     mid ∉ c1.*1 →
     (∀ key v, (key, v) ∈ c1 → ID ∉ BrMsgID.ID <$> v) →
     ID ∈ BrMsgID.ID <$> ids →
     FindCanonicalMsgID g protocol mID
     = Some (strings.Replace mid (protocol +:+ " ") "" 1)) ∧
  (lru.Contains (Gateway.Messages g) ID = false →
   (∀ key v, (key, v) ∈ Gateway.Messages g → ID ∉ BrMsgID.ID <$> v) →
   FindCanonicalMsgID g protocol mID = Some "") ∧
  (∀ raw, strings.Replace (protocol +:+ " " +:+ raw) (protocol +:+ " ") "" 1 = raw).
Proof.
  intros ID. unfold FindCanonicalMsgID. fold ID. repeat split.
  - by intros ->.
  - intros -> c1 mid ids c2 Hc Hfresh Hbefore Hlists. rewrite Hc.
    unfold lru.Keys. rewrite fmap_app. rewrite canonicalLoop_app.
    + simpl. rewrite Peek_app_r by done. simpl. rewrite decide_True by done.
      by apply hasDownstream_true in Hlists as ->.
    + intros key Hkey.
      destruct (lru.Peek c1 key) as [v|] eqn:Hv; [|by apply Peek_None in Hv].
      exists v. rewrite Peek_app_l by done. split; [done|].
      eapply Hbefore. by apply Peek_Some.
  - intros -> Hnone.
    rewrite <- (app_nil_r (lru.Keys (Gateway.Messages g))). rewrite canonicalLoop_app; [done|].
    intros key Hkey.
    destruct (lru.Peek (Gateway.Messages g) key) as [v|] eqn:Hv; [|by apply Peek_None in Hv].
    exists v. split; [done|]. eapply Hnone. by apply Peek_Some.
  - intros raw.
    assert (∀ a b s : string, a +:+ b +:+ s = (a +:+ b) +:+ s) as Hassoc.
    { induction a as [|x a IH]; intros b s; [done|]. change (String x (a +:+ b +:+ s) = String x ((a +:+ b) +:+ s)). f_equal. apply IH. }
    rewrite Hassoc. destruct protocol as [|c p].
    + apply (Replace_first_prefix " " "" raw).
    + apply (Replace_first_prefix c (p +:+ " ") raw).
Qed.

End IdentityFacts.

(** ** The rewrites and the dispatch *)

Section PipelineFacts.
Context {O E : Type} `{!config.Events} `{!regexp.Engine} `{!emojilib.Table}
  `{!tengo.Engine} `{!Handlers O E}.

#[local] Abbreviation ChannelInfo := (config.ChannelInfo.t O).
#[local] Abbreviation Message := (config.Message.t E).
#[local] Abbreviation Gateway := (Gateway.t O E).

Lemma outgoing_app (a b : list (Effect E)) : outgoing (a ++ b) = outgoing a ++ outgoing b.
Proof.
  induction a as [|e a IH]; simpl; [done|]. destruct e; simpl; by rewrite IH.
Qed.

Lemma quiet_log level format args (w : World O E) :
  quiet w (mkWorld (gw w) (trace w ++ [Logf level format args])).
Proof. split; [done|]. simpl. rewrite outgoing_app. simpl. by rewrite app_nil_r. Qed.

Lemma replaceLoop_Normal account pairs s (w : World O E) s' w' :
  replaceLoop account pairs s w = Normal s' w' → quiet w w'.
Proof.
  revert s. induction pairs as [|outer r IH]; intros s; simpl.
  - intros [= _ <-]. done.
  - destruct (outer !! 0%nat) as [search|]; [|done].
    destruct (outer !! 1%nat) as [replace|]; [|done].
    destruct (regexp.Compile search) as [err|re]; [|apply IH].
    intros [= _ <-]. apply quiet_log.
Qed.

Lemma modifyUsername_Normal (msg : Message) dest (w : World O E) nick msg' w' :
  modifyUsername msg dest w = Normal (nick, msg') w' →
  ∃ br username,
    Gateway.Bridges (gw w) !! config.Message.Account msg = Some br ∧
    msg' = config.Message.with_Username username
             (config.Message.with_Protocol (bridge.Bridge.Protocol br) msg) ∧
    (bridge.Bridge.GetBool dest "StripNick" = false →
     bridge.Bridge.GetStringSlice2D br "ReplaceNicks" = [] →
     username = config.Message.Username msg) ∧
    quiet w w'.
Proof.
  unfold modifyUsername. intros Hrun.
  apply bind_Normal in Hrun as (g & w1 & [= <- <-] & Hrun).
  destruct (Gateway.Bridges (gw w) !! config.Message.Account msg) as [br|]; [|done].
  apply bind_Normal in Hrun as (username & w2 & Hloop & Hrun).
  injection Hrun as <- <- <-.
  exists br, username. split; [done|]. split; [|split].
  - by destruct (bridge.Bridge.GetBool dest "StripNick").
  - intros Hstrip Hpairs. rewrite Hstrip, Hpairs in Hloop. simpl in Hloop.
    by injection Hloop as <- _.
  - by apply replaceLoop_Normal in Hloop.
Qed.

Lemma quiet_trans (w1 w2 w3 : World O E) : quiet w1 w2 → quiet w2 w3 → quiet w1 w3.
Proof. intros [Ha Hb] [Hc Hd]. split; congruence. Qed.

Lemma getDestMsgID_run msgID dest (channel : ChannelInfo) (w : World O E) :
  getDestMsgID msgID dest channel w
  = Normal (destMsgID (Gateway.Messages (gw w)) msgID dest channel)
      (mkWorld (Gateway.with_Messages (lru.Get (Gateway.Messages (gw w)) msgID).2 (gw w))
         (trace w)).
Proof.
  unfold getDestMsgID, destMsgID, lru.Get, mbind, M_bind, bind, getGw. simpl.
  by destruct (lru.Peek (Gateway.Messages (gw w)) msgID).
Qed.

Lemma modifyAvatar_snd (msg : Message) dest :
  (modifyAvatar msg dest).2 = config.Message.with_Avatar (modifyAvatar msg dest).1 msg.
Proof.
  unfold modifyAvatar. simpl. destruct (bool_decide _); [reflexivity|].
  by destruct msg.
Qed.

Lemma deliver_Normal dest (msg rmsg : Message) (w : World O E) r rmsg' w' :
  deliver dest msg rmsg w = Normal (r, rmsg') w' →
  rmsg' = rmsg ∧ gw w' = gw w ∧ outgoing (trace w') = outgoing (trace w) ++ [msg].
Proof.
  unfold deliver. intros Hrun.
  apply bind_Normal in Hrun as ([] & w1 & Hplugin & Hrun).
  apply bind_Normal in Hrun as ([] & w2 & [= <-] & Hrun).
  assert (gw w1 = gw w ∧ outgoing (trace w1) = outgoing (trace w)) as [Hg Ho].
  { destruct (bool_decide _) in Hplugin; injection Hplugin as <-; [|done].
    split; [done|]. simpl. rewrite outgoing_app. simpl. by rewrite app_nil_r. }
  assert (outgoing (trace w1 ++ [BridgeSend dest msg]) = outgoing (trace w) ++ [msg]) as Hsent.
  { rewrite outgoing_app. simpl. by rewrite Ho. }
  destruct (bridge.Bridge.Send dest msg) as [mID [e|]].
  - by injection Hrun as <- <- <-.
  - destruct (bool_decide (mID ≠ "")).
    + apply bind_Normal in Hrun as ([] & w3 & [= <-] & Hrun).
      injection Hrun as <- <- <-. simpl. split; [done|]. split; [done|].
      rewrite outgoing_app. simpl. by rewrite app_nil_r.
    + by injection Hrun as <- <- <-.
Qed.

(** Lines 413-422 on the copy [m0]: the parent the lookup found, else the
    canonical parent, else the marker when the original has a parent. *)
Lemma ParentID_resolved (m0 : Message) (found canon original : string) :
  let m1 := config.Message.with_ParentID found m0 in
  let m2 := if bool_decide (config.Message.ParentID m1 = "")
            then config.Message.with_ParentID canon m1 else m1 in
  let m3 := if bool_decide (config.Message.ParentID m2 = "")
               && bool_decide (original ≠ "")
            then config.Message.with_ParentID "msg-parent-not-found" m2 else m2 in
  config.Message.ParentID m3 =
    if bool_decide (found = "") then
      if bool_decide (canon = "") then
        if bool_decide (original = "") then "" else "msg-parent-not-found"
      else canon
    else found.
Proof.
  destruct found as [|? ?], canon as [|? ?], original as [|? ?]; reflexivity.
Qed.

(** Whether [SendMessage] goes on after lines 385-395. *)
Lemma SendMessage_suppressed (rmsg : Message) dest (channel : ChannelInfo) canon (w : World O E) :
  ¬ (config.Message.Event rmsg = config.EventAvatarDownload ↔
     config.ChannelInfo.ID channel = getChannelID rmsg) →
  SendMessage rmsg dest channel canon w = Normal (("", None), rmsg) w.
Proof.
  intros Hno. unfold SendMessage.
  destruct (decide (config.Message.Event rmsg = config.EventAvatarDownload)) as [He|He],
    (decide (config.ChannelInfo.ID channel = getChannelID rmsg)) as [Hc|Hc].
  - destruct Hno. done.
  - rewrite bool_decide_eq_true_2 by done. by rewrite bool_decide_eq_true_2.
  - rewrite bool_decide_eq_false_2 by done. by rewrite bool_decide_eq_true_2.
  - destruct Hno. done.
Qed.

Lemma SendMessage_Normal (rmsg : Message) dest (channel : ChannelInfo) canon
    (w : World O E) r rmsg' w' :
  (config.Message.Event rmsg = config.EventAvatarDownload ↔
   config.ChannelInfo.ID channel = getChannelID rmsg) →
  SendMessage rmsg dest channel canon w = Normal (r, rmsg') w' →
  ∃ br username m,
    Gateway.Bridges (gw w) !! config.Message.Account rmsg = Some br ∧
    rmsg' = config.Message.with_Username username
              (config.Message.with_Protocol (bridge.Bridge.Protocol br)
                 (modifyAvatar rmsg dest).2) ∧
    (bridge.Bridge.GetBool dest "StripNick" = false →
     bridge.Bridge.GetStringSlice2D br "ReplaceNicks" = [] →
     username = config.Message.Username rmsg) ∧
    outgoing (trace w') = outgoing (trace w) ++ [m] ∧
    config.Message.ParentID m =
      (let found := destMsgID (Gateway.Messages (gw w))
                      (bridge.Bridge.Protocol br +:+ " " +:+ canon) dest channel in
       if bool_decide (found = "") then
         if bool_decide (canon = "") then
           if bool_decide (config.Message.ParentID rmsg = "") then ""
           else "msg-parent-not-found"
         else canon
       else found).
Proof.
  intros Hgo. unfold SendMessage.
  assert ((if bool_decide (config.Message.Event rmsg = config.EventAvatarDownload)
           then bool_decide (config.ChannelInfo.ID channel ≠ getChannelID rmsg)
           else bool_decide (config.ChannelInfo.ID channel = getChannelID rmsg)) = false) as ->.
  { case_bool_decide as He.
    - apply bool_decide_eq_false_2. intros Hne. apply Hne, Hgo, He.
    - apply bool_decide_eq_false_2. intros Hc. apply He, Hgo, Hc. }
  intros Hrun.
  apply bind_Normal in Hrun as ([] & w1 & Hlog & Hrun).
  assert (quiet w w1) as Hq1.
  { destruct (bool_decide _) in Hlog; injection Hlog as <-; [apply quiet_log | done]. }
  destruct (modifyAvatar rmsg dest) as [avatar rmsg1] eqn:Hav.
  apply bind_Normal in Hrun as ([nick rmsg2] & w2 & Huser & Hrun).
  apply modifyUsername_Normal in Huser as (br & username & Hbr & -> & Huname & Hq2).
  apply bind_Normal in Hrun as (id & w3 & Hid & Hrun).
  rewrite getDestMsgID_run in Hid. injection Hid as <- <-.
  apply bind_Normal in Hrun as (parent & w4 & Hparent & Hrun).
  rewrite getDestMsgID_run in Hparent. injection Hparent as <- <-.
  apply deliver_Normal in Hrun as (-> & _ & Hsent).
  destruct Hq1 as [Hgw1 Hout1], Hq2 as [Hgw2 Hout2].
  assert (rmsg1 = (modifyAvatar rmsg dest).2) as -> by (by rewrite Hav).
  rewrite modifyAvatar_snd in *. simpl in Hbr, Huname.
  eexists br, username, _. rewrite <- Hgw1.
  split; [done|]. split; [done|]. split; [done|].
  split; [rewrite Hsent; cbn [trace]; rewrite Hout2, Hout1; reflexivity|].
  etrans; [apply ParentID_resolved|].
  cbn [gw Gateway.Messages Gateway.with_Messages config.Message.ParentID
       config.Message.with_Username config.Message.with_Protocol
       config.Message.with_Avatar config.Message.Protocol].
  rewrite Hgw2, Hgw1. unfold destMsgID. rewrite Peek_Get.
  reflexivity.
Qed.

(** C5. For an event other than the avatar download, [SendMessage] to the
    channel the message came from returns at once, with nothing sent and
    nothing changed; for the avatar download it does so to every channel
    but the one the message came from.  So a run that hands a message to
    [Send] has the avatar-download event exactly when the destination is
    the origin. *)
Theorem SendMessage_self_echo (rmsg : Message) dest (channel : ChannelInfo) canon
    (w : World O E) :
  (config.Message.Event rmsg ≠ config.EventAvatarDownload →
   config.ChannelInfo.ID channel = getChannelID rmsg →
   SendMessage rmsg dest channel canon w = Normal (("", None), rmsg) w) ∧
  (config.Message.Event rmsg = config.EventAvatarDownload →
   config.ChannelInfo.ID channel ≠ getChannelID rmsg →
   SendMessage rmsg dest channel canon w = Normal (("", None), rmsg) w) ∧
  (outgoing (trace (finalWorld (SendMessage rmsg dest channel canon w))) ≠ outgoing (trace w) →
   (config.Message.Event rmsg = config.EventAvatarDownload ↔
    config.ChannelInfo.ID channel = getChannelID rmsg)).
Proof.
  split; [|split].
  - intros He Hc. apply SendMessage_suppressed. intros [_ Hback]. auto.
  - intros He Hc. apply SendMessage_suppressed. intros [Hto _]. auto.
  - intros Hsent.
    destruct (decide (config.Message.Event rmsg = config.EventAvatarDownload)) as [He|He],
      (decide (config.ChannelInfo.ID channel = getChannelID rmsg)) as [Hc|Hc];
      [done | | | done]; destruct Hsent;
      rewrite SendMessage_suppressed; [done | tauto | done | tauto].
Qed.

(** C6, amended. In a run of [SendMessage] that is not cut short and ends
    normally, the message handed to [Send] has as its ParentID: what
    [getDestMsgID] finds under the key made of the original's protocol and
    the canonical parent, when that is not empty; else the canonical parent
    itself, when that is not empty; else "msg-parent-not-found" when the
    original has a parent; else the empty string. *)
Theorem SendMessage_ParentID (rmsg : Message) dest (channel : ChannelInfo) canon
    (w : World O E) r rmsg' w' :
  (config.Message.Event rmsg = config.EventAvatarDownload ↔
   config.ChannelInfo.ID channel = getChannelID rmsg) →
  SendMessage rmsg dest channel canon w = Normal (r, rmsg') w' →
  ∃ m, outgoing (trace w') = outgoing (trace w) ++ [m] ∧
    let found := destMsgID (Gateway.Messages (gw w))
                   (config.Message.Protocol rmsg' +:+ " " +:+ canon) dest channel in
    (found ≠ "" → config.Message.ParentID m = found) ∧
    (found = "" → canon ≠ "" → config.Message.ParentID m = canon) ∧
    (found = "" → canon = "" → config.Message.ParentID rmsg ≠ "" →
     config.Message.ParentID m = "msg-parent-not-found") ∧
    (found = "" → canon = "" → config.Message.ParentID rmsg = "" →
     config.Message.ParentID m = "").
Proof.
  intros Hgo Hrun.
  destruct (SendMessage_Normal _ _ _ _ _ _ _ _ Hgo Hrun)
    as (br & username & m & _ & -> & _ & Hsent & Hparent).
  exists m. split; [done|]. cbn [config.Message.Protocol config.Message.with_Username
    config.Message.with_Protocol]. cbv zeta in Hparent |- *. rewrite Hparent.
  repeat split.
  - intros Hf. by rewrite bool_decide_eq_false_2.
  - intros Hf Hc. rewrite bool_decide_eq_true_2 by done. by rewrite bool_decide_eq_false_2.
  - intros Hf Hc Ho. rewrite !bool_decide_eq_true_2 by done. by rewrite bool_decide_eq_false_2.
  - intros Hf Hc Ho. by rewrite !bool_decide_eq_true_2.
Qed.

(** What the loop over the pairs returns does not depend on the world it
    runs in. *)
Lemma replaceLoop_any_world account pairs s (w w0 : World O E) s' w' :
  replaceLoop account pairs s w = Normal s' w' →
  returned (replaceLoop account pairs s w0) = Some s'.
Proof.
  revert s. induction pairs as [|outer r IH]; intros s; simpl.
  - by intros [= <- _].
  - destruct (outer !! 0%nat) as [search|]; [|done].
    destruct (outer !! 1%nat) as [replace|]; [|done].
    destruct (regexp.Compile search) as [err|re]; [|apply IH].
    by intros [= <- _].
Qed.

(** The username [modifyUsername] writes through its pointer. *)
Lemma modifyUsername_Username (msg : Message) dest (w : World O E) nick msg' w' br :
  modifyUsername msg dest w = Normal (nick, msg') w' →
  Gateway.Bridges (gw w) !! config.Message.Account msg = Some br →
  ∀ w0 : World O E,
    returned (replaceLoop (config.Message.Account msg)
                (bridge.Bridge.GetStringSlice2D br "ReplaceNicks")
                (if bridge.Bridge.GetBool dest "StripNick"
                 then stripNick (config.Message.Username msg)
                 else config.Message.Username msg) w0)
    = Some (config.Message.Username msg').
Proof.
  unfold modifyUsername. intros Hrun Hbr w0.
  apply bind_Normal in Hrun as (g & w1 & [= <- <-] & Hrun).
  rewrite Hbr in Hrun.
  apply bind_Normal in Hrun as (username & w2 & Hloop & Hrun).
  injection Hrun as _ <- _. cbn [config.Message.Username config.Message.with_Username].
  apply (replaceLoop_any_world _ _ _ _ w0) in Hloop.
  by destruct (bridge.Bridge.GetBool dest "StripNick").
Qed.

(** The username of the original after a dispatch that goes on. *)
Lemma SendMessage_Username (rmsg : Message) dest (channel : ChannelInfo) canon
    (w : World O E) r rmsg' w' br :
  (config.Message.Event rmsg = config.EventAvatarDownload ↔
   config.ChannelInfo.ID channel = getChannelID rmsg) →
  SendMessage rmsg dest channel canon w = Normal (r, rmsg') w' →
  Gateway.Bridges (gw w) !! config.Message.Account rmsg = Some br →
  ∀ w0 : World O E,
    returned (replaceLoop (config.Message.Account rmsg)
                (bridge.Bridge.GetStringSlice2D br "ReplaceNicks")
                (if bridge.Bridge.GetBool dest "StripNick"
                 then stripNick (config.Message.Username rmsg)
                 else config.Message.Username rmsg) w0)
    = Some (config.Message.Username rmsg').
Proof.
  intros Hgo. unfold SendMessage.
  assert ((if bool_decide (config.Message.Event rmsg = config.EventAvatarDownload)
           then bool_decide (config.ChannelInfo.ID channel ≠ getChannelID rmsg)
           else bool_decide (config.ChannelInfo.ID channel = getChannelID rmsg)) = false) as ->.
  { case_bool_decide as He.
    - apply bool_decide_eq_false_2. intros Hne. apply Hne, Hgo, He.
    - apply bool_decide_eq_false_2. intros Hc. apply He, Hgo, Hc. }
  intros Hrun Hbr.
  apply bind_Normal in Hrun as ([] & w1 & Hlog & Hrun).
  assert (gw w1 = gw w) as Hgw1.
  { destruct (bool_decide _) in Hlog; by injection Hlog as <-. }
  destruct (modifyAvatar rmsg dest) as [avatar rmsg1] eqn:Hav.
  assert (rmsg1 = (modifyAvatar rmsg dest).2) as -> by (by rewrite Hav).
  apply bind_Normal in Hrun as ([nick rmsg2] & w2 & Huser & Hrun).
  apply bind_Normal in Hrun as (id & w3 & _ & Hrun).
  apply bind_Normal in Hrun as (parent & w4 & _ & Hrun).
  apply deliver_Normal in Hrun as (-> & _).
  rewrite modifyAvatar_snd in Huser. intros w0.
  refine (modifyUsername_Username _ _ _ _ _ _ br Huser _ w0).
  rewrite Hgw1. exact Hbr.
Qed.

(** C9, amended. A run of [SendMessage] that ends normally leaves the
    text, channel, account, event, gateway, parent, ID and extra payload of
    the original as they were.  A run that is cut short leaves the whole
    original as it was.  A run that goes on writes three fields of the
    original through the pointer given to [modifyAvatar] and
    [modifyUsername]: the protocol becomes that of the origin bridge, an
    empty avatar becomes the destination's icon URL, and the username is
    what StripNick and ReplaceNicks make of it: what the loop over the pairs
    of ReplaceNicks of the origin bridge returns for the username, stripped
    first when the destination has StripNick; so the stripped username when
    there are no pairs, and the username itself when StripNick is off as
    well. *)
Theorem SendMessage_original (rmsg : Message) dest (channel : ChannelInfo) canon
    (w : World O E) r rmsg' w' :
  SendMessage rmsg dest channel canon w = Normal (r, rmsg') w' →
  (config.Message.Text rmsg' = config.Message.Text rmsg ∧
   config.Message.Channel rmsg' = config.Message.Channel rmsg ∧
   config.Message.Account rmsg' = config.Message.Account rmsg ∧
   config.Message.Event rmsg' = config.Message.Event rmsg ∧
   config.Message.Gateway rmsg' = config.Message.Gateway rmsg ∧
   config.Message.ParentID rmsg' = config.Message.ParentID rmsg ∧
   config.Message.ID rmsg' = config.Message.ID rmsg ∧
   config.Message.Extra rmsg' = config.Message.Extra rmsg) ∧
  (¬ (config.Message.Event rmsg = config.EventAvatarDownload ↔
      config.ChannelInfo.ID channel = getChannelID rmsg) →
   rmsg' = rmsg) ∧
  ((config.Message.Event rmsg = config.EventAvatarDownload ↔
    config.ChannelInfo.ID channel = getChannelID rmsg) →
   ∃ br, Gateway.Bridges (gw w) !! config.Message.Account rmsg = Some br ∧
     config.Message.Protocol rmsg' = bridge.Bridge.Protocol br ∧
     config.Message.Avatar rmsg' =
       (if bool_decide (config.Message.Avatar rmsg = "")
        then strings.Replace (bridge.Bridge.GetString dest "IconURL") "{NICK}"
               (config.Message.Username rmsg) (-1)
        else config.Message.Avatar rmsg) ∧
     (bridge.Bridge.GetBool dest "StripNick" = false →
      bridge.Bridge.GetStringSlice2D br "ReplaceNicks" = [] →
      config.Message.Username rmsg' = config.Message.Username rmsg) ∧
     (∀ w0 : World O E,
        returned (replaceLoop (config.Message.Account rmsg)
                    (bridge.Bridge.GetStringSlice2D br "ReplaceNicks")
                    (if bridge.Bridge.GetBool dest "StripNick"
                     then stripNick (config.Message.Username rmsg)
                     else config.Message.Username rmsg) w0)
        = Some (config.Message.Username rmsg')) ∧
     (bridge.Bridge.GetStringSlice2D br "ReplaceNicks" = [] →
      config.Message.Username rmsg' =
        (if bridge.Bridge.GetBool dest "StripNick"
         then stripNick (config.Message.Username rmsg)
         else config.Message.Username rmsg))).
Proof.
  intros Hrun.
  destruct (decide (config.Message.Event rmsg = config.EventAvatarDownload ↔
                    config.ChannelInfo.ID channel = getChannelID rmsg)) as [Hgo|Hcut].
  - assert (∀ br, Gateway.Bridges (gw w) !! config.Message.Account rmsg = Some br →
              ∀ w0 : World O E,
                returned (replaceLoop (config.Message.Account rmsg)
                            (bridge.Bridge.GetStringSlice2D br "ReplaceNicks")
                            (if bridge.Bridge.GetBool dest "StripNick"
                             then stripNick (config.Message.Username rmsg)
                             else config.Message.Username rmsg) w0)
                = Some (config.Message.Username rmsg')) as Hname.
    { intros br Hbr. exact (SendMessage_Username rmsg dest channel canon w r rmsg' w' br Hgo Hrun Hbr). }
    destruct (SendMessage_Normal _ _ _ _ _ _ _ _ Hgo Hrun)
      as (br & username & m & Hbr & Heq & Huname & _ & _).
    specialize (Hname br Hbr). subst rmsg'.
    split; [rewrite modifyAvatar_snd; repeat split; reflexivity|].
    split; [done|]. intros _. exists br.
    split; [done|]. split; [reflexivity|].
    split; [unfold modifyAvatar; cbn; destruct (bool_decide _); reflexivity|].
    split; [exact Huname|]. split; [exact Hname|].
    intros Hpairs. specialize (Hname w). rewrite Hpairs in Hname.
    simpl in Hname. by injection Hname as <-.
  - rewrite SendMessage_suppressed in Hrun by done. injection Hrun as _ <- _.
    split; [done|]. split; [done | done].
Qed.

(** C8. When the hook fails, by any of its three failures,
    [modifyMessageTengo] returns the error and leaves the whole message,
    its text and username among the rest, as it was; [modifyMessage] writes
    one line in the log and goes on with that message exactly as it goes on
    after a hook that is not configured: the outcome of [modifyMessage] is
    the outcome of the steps after the hook. *)
Theorem modifyMessage_hook_failure (filename : string) (msg : Message) (err : string) :
  tengoFails filename msg err →
  modifyMessageTengo filename msg = (Some err, msg) ∧
  ∀ w : World O E, Gateway.TengoModifyMessage (gw w) = filename →
    modifyMessage msg w
    = afterHook msg
        (mkWorld (gw w)
           (trace w ++ [Logf "error" "TengoModifyMessage failed: %s" [AStr err]])).
Proof.
  intros Hfail.
  assert (modifyMessageTengo filename msg = (Some err, msg)) as Hhook.
  { unfold modifyMessageTengo.
    destruct Hfail as [Hname Hread | res Hname Hread Hcompile | res c Hname Hread Hcompile Hrun];
      rewrite bool_decide_eq_false_2 by done; rewrite Hread; [done | |].
    - by rewrite Hcompile.
    - by rewrite Hcompile, Hrun. }
  split; [done|]. intros w <-. unfold modifyMessage.
  unfold mbind at 1, M_bind at 1, bind at 1, getGw. rewrite Hhook. reflexivity.
Qed.

End PipelineFacts.

(** * More of the code *)

(** ** The channel map, continued *)

Section ChannelMapMoreFacts.
Context {O E : Type} `{!strings.CaseMap}.

(** What one entry does to the world, in full. *)
Lemma mapChannelEntry_outcome direction (br : config.Bridge.t O) (w : World O E) :
  (fatalEntry br = true ∧
   mapChannelEntry direction br w = Exit 1 (mkWorld (gw w) (trace w ++ [fatalLine br]))) ∨
  (fatalEntry br = false ∧
   mapChannelEntry direction br w =
   Normal tt (mkWorld
     (Gateway.with_Channels
        (<[entryID br := mergedDescriptor (Gateway.Name (gw w)) direction br
                           (Gateway.Channels (gw w) !! entryID br)]>
           (Gateway.Channels (gw w)))
        (gw w))
     (trace w))).
Proof.
  unfold mapChannelEntry, fatalEntry, fatalLine, mergedDescriptor, entryID.
  destruct (strings.HasPrefix _ "mattermost." && _) eqn:Hmm.
  { left. split; [done|]. reflexivity. }
  destruct (strings.HasPrefix _ "zulip." && _) eqn:Hz.
  { left. split; [done|]. reflexivity. }
  right. split; [done|].
  unfold mbind, M_bind, bind, getGw. simpl.
  destruct (Gateway.Channels (gw w) !! _) as [ch|] eqn:Hl.
  - destruct (decide (config.ChannelInfo.Direction ch ≠ direction)); simpl.
    + rewrite lookup_insert_eq. simpl. by rewrite insert_insert_eq.
    + rewrite Hl. simpl. by destruct w as [[] ?].
  - simpl. rewrite lookup_insert_eq. simpl. rewrite insert_insert_eq.
    by rewrite insert_singleton_eq.
Qed.

Lemma normalized_SameChannel (br : config.Bridge.t O) :
  config.Bridge.SameChannel (normalized br) = config.Bridge.SameChannel br.
Proof.
  unfold normalized. destruct (isAPI _); simpl; by destruct (strings.HasPrefix _ "irc.").
Qed.

Lemma normalized_Account (br : config.Bridge.t O) :
  config.Bridge.Account (normalized br) = config.Bridge.Account br.
Proof.
  unfold normalized. destruct (isAPI _); simpl; by destruct (strings.HasPrefix _ "irc.").
Qed.

(** An entry that does not end the load. *)
Lemma mapChannelEntry_Normal_inv direction (br : config.Bridge.t O) (w w' : World O E) :
  mapChannelEntry direction br w = Normal tt w' →
  fatalEntry br = false ∧
  trace w' = trace w ∧
  Gateway.Name (gw w') = Gateway.Name (gw w) ∧
  Gateway.Channels (gw w') =
    <[entryID br := mergedDescriptor (Gateway.Name (gw w)) direction br
                      (Gateway.Channels (gw w) !! entryID br)]>
      (Gateway.Channels (gw w)).
Proof.
  intros Hrun.
  destruct (mapChannelEntry_outcome direction br w) as [[_ Hexit]|[Hok Hnormal]];
    [congruence|].
  rewrite Hnormal in Hrun. by injection Hrun as <-.
Qed.

(** X1. The builder keeps the map well keyed: when every descriptor is
    stored under its ID and its ID is its name followed by its account,
    the same holds after any sequence of calls that returns. *)
Theorem mapChannelConfigs_wellKeyed calls (w w' : World O E) :
  wellKeyed (Gateway.Channels (gw w)) →
  mapChannelConfigs calls w = Normal tt w' →
  wellKeyed (Gateway.Channels (gw w')).
Proof.
  intros Hw Hrun. revert Hrun Hw.
  set (R := λ w1 w2 : World O E,
    wellKeyed (Gateway.Channels (gw w1)) → wellKeyed (Gateway.Channels (gw w2))).
  assert (PreOrder R) as HR.
  { split; [intros ? ?; assumption | intros ? ? ? Ha Hb ?; apply Hb, Ha; assumption]. }
  apply (forEach_Normal R). intros [cfg d] w1 w2 _. simpl.
  apply (forEach_Normal R).
  intros br w3 w4 _ (_ & _ & _ & Hm)%mapChannelEntry_Normal_inv Hk key ch.
  rewrite Hm. destruct (decide (entryID br = key)) as [<-|Hne].
  - rewrite lookup_insert_eq. intros [= <-]. unfold mergedDescriptor.
    destruct (Gateway.Channels (gw w3) !! entryID br) as [old|] eqn:Hold.
    + destruct (Hk _ _ Hold) as [Hid Hname].
      destruct (decide (config.ChannelInfo.Direction old ≠ d)); simpl; done.
    + simpl. done.
  - rewrite lookup_insert_ne; [|done]. apply Hk.
Qed.


(** The entries of a call that have another ID leave a descriptor as it
    is. *)
Lemma mapChannelConfig_other_IDs cfg direction id (w w' : World O E) :
  (∀ br, br ∈ cfg → entryID br ≠ id) →
  mapChannelConfig cfg direction w = Normal tt w' →
  Gateway.Channels (gw w') !! id = Gateway.Channels (gw w) !! id ∧
  Gateway.Name (gw w') = Gateway.Name (gw w).
Proof.
  intros Hother Hrun. revert Hrun.
  set (R := λ w1 w2 : World O E,
    Gateway.Channels (gw w2) !! id = Gateway.Channels (gw w1) !! id ∧
    Gateway.Name (gw w2) = Gateway.Name (gw w1)).
  assert (PreOrder R) as HR.
  { split; [by intros ? | intros ? ? ? [Ha Hb] [Hc Hd]; split; congruence]. }
  apply (forEach_Normal R).
  intros br w1 w2 Hbr (_ & _ & Hname & Hm)%mapChannelEntry_Normal_inv.
  split; [|done]. rewrite Hm. apply lookup_insert_ne. by apply Hother.
Qed.

(** X3. The same-channel flag of a descriptor for this gateway is the flag
    of the last entry with its ID: line 185 writes it at every entry, for a
    new descriptor and for an old one. *)
Theorem mapChannelConfig_SameChannel_last_entry before br after direction
    (w w' : World O E) :
  (∀ b, b ∈ after → entryID b ≠ entryID br) →
  mapChannelConfig (before ++ br :: after) direction w = Normal tt w' →
  ∃ ch, Gateway.Channels (gw w') !! entryID br = Some ch ∧
        config.ChannelInfo.SameChannel ch !! Gateway.Name (gw w')
        = Some (config.Bridge.SameChannel br).
Proof.
  intros Hafter. revert w. induction before as [|b r IH]; intros w Hrun.
  - unfold mapChannelConfig in Hrun. simpl in Hrun. unfold bind in Hrun.
    destruct (mapChannelEntry direction br w) as [[] w1| |] eqn:Hbr; [|done|done].
    apply mapChannelEntry_Normal_inv in Hbr as (_ & _ & Hname & Hm).
    destruct (mapChannelConfig_other_IDs _ _ _ _ _ Hafter Hrun) as [-> ->].
    rewrite Hm, lookup_insert_eq, Hname. eexists. split; [done|].
    unfold mergedDescriptor.
    destruct (Gateway.Channels (gw w) !! entryID br) as [old|]; simpl.
    + rewrite lookup_insert_eq. by rewrite normalized_SameChannel.
    + rewrite lookup_singleton_eq. by rewrite normalized_SameChannel.
  - unfold mapChannelConfig in Hrun. simpl in Hrun. unfold bind in Hrun.
    destruct (mapChannelEntry direction b w) as [[] w1| |]; [|done|done].
    by apply (IH w1).
Qed.

(** X4. A direction is only changed by an entry that disagrees with it:
    when the map has no descriptor under an ID and every entry with that ID,
    in every call, comes with the direction [d], the descriptor the calls
    leave under the ID has the direction [d]. *)
Theorem mapChannelConfigs_direction_kept calls id d (w w' : World O E) :
  Gateway.Channels (gw w) !! id = None →
  (∀ cfg d' br, (cfg, d') ∈ calls → br ∈ cfg → entryID br = id → d' = d) →
  (∃ cfg d' br, (cfg, d') ∈ calls ∧ br ∈ cfg ∧ entryID br = id) →
  mapChannelConfigs calls w = Normal tt w' →
  ∃ ch, Gateway.Channels (gw w') !! id = Some ch ∧ config.ChannelInfo.Direction ch = d.
Proof.
  intros Hnone Hagree (cfg & d' & br & Hcall & Hbr & Hid) Hrun.
  set (P := λ w0 : World O E,
    match Gateway.Channels (gw w0) !! id with
    | None => True
    | Some ch => config.ChannelInfo.Direction ch = d
    end).
  set (R := λ w1 w2 : World O E, P w1 → P w2).
  assert (PreOrder R) as HR.
  { split; [intros ? ?; assumption | intros ? ? ? Ha Hb ?; apply Hb, Ha; assumption]. }
  assert (P w') as HP.
  { assert (R w w') as Hstep; [|apply Hstep; unfold P; by rewrite Hnone].
    generalize Hrun. apply (forEach_Normal R). intros [c dc] w1 w2 Hc. simpl.
    apply (forEach_Normal R).
    intros b w3 w4 Hb (_ & _ & _ & Hm)%mapChannelEntry_Normal_inv HP3.
    unfold P in *. rewrite Hm.
    destruct (decide (entryID b = id)) as [Hb_id|Hne].
    - rewrite Hb_id, lookup_insert_eq. rewrite Hb_id in *.
      assert (dc = d) as -> by (eapply Hagree; eauto).
      unfold mergedDescriptor.
      destruct (Gateway.Channels (gw w3) !! id) as [old|]; [|done].
      rewrite decide_False by (intros Hx; by apply Hx). done.
    - by rewrite lookup_insert_ne. }
  destruct (mapChannelConfigs_entry _ _ _ _ _ _ Hcall Hbr Hrun) as (ch & Hch & _).
  rewrite Hid in Hch. exists ch. split; [done|]. unfold P in HP. by rewrite Hch in HP.
Qed.

(** X5. The calls touch nothing but the direction and the flags: a
    descriptor of the map stays under its key with its name, account, ID
    and options, and a key that is the ID of no entry keeps its descriptor,
    or stays free. *)
Theorem mapChannelConfigs_frame calls (w w' : World O E) :
  mapChannelConfigs calls w = Normal tt w' →
  (∀ key ch, Gateway.Channels (gw w) !! key = Some ch →
     ∃ ch', Gateway.Channels (gw w') !! key = Some ch' ∧
       config.ChannelInfo.Name ch' = config.ChannelInfo.Name ch ∧
       config.ChannelInfo.Account ch' = config.ChannelInfo.Account ch ∧
       config.ChannelInfo.ID ch' = config.ChannelInfo.ID ch ∧
       config.ChannelInfo.Options ch' = config.ChannelInfo.Options ch) ∧
  (∀ key, (∀ cfg d br, (cfg, d) ∈ calls → br ∈ cfg → entryID br ≠ key) →
     Gateway.Channels (gw w') !! key = Gateway.Channels (gw w) !! key).
Proof.
  intros Hrun. split.
  - revert Hrun.
    set (R := λ w1 w2 : World O E,
      ∀ key ch, Gateway.Channels (gw w1) !! key = Some ch →
        ∃ ch', Gateway.Channels (gw w2) !! key = Some ch' ∧
          config.ChannelInfo.Name ch' = config.ChannelInfo.Name ch ∧
          config.ChannelInfo.Account ch' = config.ChannelInfo.Account ch ∧
          config.ChannelInfo.ID ch' = config.ChannelInfo.ID ch ∧
          config.ChannelInfo.Options ch' = config.ChannelInfo.Options ch).
    assert (PreOrder R) as HR.
    { split; [intros ? ? ? ?; eauto 10|].
      intros w1 w2 w3 Ha Hb key ch Hch.
      destruct (Ha _ _ Hch) as (ch2 & Hch2 & ? & ? & ? & ?).
      destruct (Hb _ _ Hch2) as (ch3 & Hch3 & ? & ? & ? & ?).
      exists ch3. repeat split; [done | congruence ..]. }
    apply (forEach_Normal R). intros [c dc] w1 w2 _. simpl. apply (forEach_Normal R).
    intros b w3 w4 _ (_ & _ & _ & Hm)%mapChannelEntry_Normal_inv key ch Hch.
    rewrite Hm. destruct (decide (entryID b = key)) as [<-|Hne].
    + rewrite lookup_insert_eq. eexists. split; [done|].
      unfold mergedDescriptor. rewrite Hch.
      by destruct (decide (config.ChannelInfo.Direction ch ≠ dc)).
    + rewrite lookup_insert_ne by done. eauto 10.
  - intros key Hfree. revert Hrun Hfree.
    set (R := λ w1 w2 : World O E,
      Gateway.Channels (gw w2) !! key = Gateway.Channels (gw w1) !! key).
    assert (PreOrder R) as HR.
    { split; [by intros ? | intros ? ? ? Ha Hb; unfold R in *; congruence]. }
    intros Hrun Hfree. revert Hrun. apply (forEach_Normal R).
    intros [c dc] w1 w2 Hc. simpl. intros Hcfg.
    eapply mapChannelConfig_other_IDs in Hcfg as [Hsame _]; [exact Hsame|].
    intros br Hbr. eapply Hfree; eauto.
Qed.

End ChannelMapMoreFacts.

(** ** Destination resolution, continued *)

Section ResolverMoreFacts.
Context {O E : Type} `{!config.Events}.

#[local] Abbreviation ChannelInfo := (config.ChannelInfo.t O).
#[local] Abbreviation Message := (config.Message.t E).
#[local] Abbreviation Gateway := (Gateway.t O E).

(** The two appending loops are filters of the sequence they visit. *)
Lemma joinLeaveLoop_filter (g : Gateway) (msg : Message) dest (channels l : list ChannelInfo) :
  joinLeaveLoop g msg dest channels l
  = channels ++ filter (λ ch, joinLeaveTest g msg dest ch = true) l.
Proof.
  revert channels. induction l as [|c r IH]; intros channels; simpl.
  - by rewrite app_nil_r.
  - rewrite filter_cons.
    change (bool_decide _ && _ && _) with (joinLeaveTest g msg dest c).
    destruct (decide (joinLeaveTest g msg dest c = true)) as [Ht|Hf].
    + rewrite Ht, IH. by rewrite <- app_assoc.
    + apply not_true_is_false in Hf. rewrite Hf. apply IH.
Qed.

Lemma destLoop_filter (g : Gateway) (msg : Message) dest (channels l : list ChannelInfo) :
  destLoop g msg dest channels l
  = channels ++ filter (λ ch, destTest g msg dest ch = true) l.
Proof.
  revert channels. induction l as [|c r IH]; intros channels; simpl.
  - by rewrite app_nil_r.
  - rewrite filter_cons.
    destruct (decide (destTest g msg dest c = true)) as [Ht|Hf].
    + unfold destTest in Ht.
      destruct (Gateway.Channels g !! getChannelID msg); [|done].
      destruct (default false _); rewrite Ht, IH; by rewrite <- app_assoc.
    + apply not_true_is_false in Hf. unfold destTest in Hf.
      destruct (Gateway.Channels g !! getChannelID msg); [|apply IH].
      destruct (default false _); rewrite Hf; apply IH.
Qed.

Lemma sourceLoop_Permutation (msg : Message) (l1 l2 : list ChannelInfo) :
  l1 ≡ₚ l2 → sourceLoop msg l1 = sourceLoop msg l2.
Proof.
  intros Hperm. apply eq_true_iff_eq. rewrite !sourceLoop_true.
  by setoid_rewrite Hperm.
Qed.

(** X6. The order in which Go visits the map does not show in the result
    beyond its order: two runs of [getDestChannel] on the same gateway,
    message and destination return the same descriptors, each as many times,
    whatever the order of each of their visits. *)
Theorem getDestChannel_order_independent ro1 ro2 (g : Gateway) (msg : Message) dest :
  rangesOver g ro1 → rangesOver g ro2 →
  getDestChannel ro1 g msg dest ≡ₚ getDestChannel ro2 g msg dest.
Proof.
  intros (Hj1 & Hs1 & Hd1) (Hj2 & Hs2 & Hd2). unfold getDestChannel.
  destruct (bool_decide _ && bool_decide _); [done|].
  destruct (isBridgeJoinLeave msg).
  - rewrite !joinLeaveLoop_filter. simpl. by rewrite Hj1, Hj2.
  - rewrite (sourceLoop_Permutation msg (atSource ro1) (atSource ro2)) by (by rewrite Hs1, Hs2).
    destruct (sourceLoop msg (atSource ro2)); [done|].
    rewrite !destLoop_filter. simpl. by rewrite Hd1, Hd2.
Qed.

(** X7. On a map keyed by ID, every descriptor [getDestChannel] returns is
    a descriptor of the map, and none is returned twice. *)
Theorem getDestChannel_NoDup ro (g : Gateway) (msg : Message) dest :
  keyedByID (Gateway.Channels g) → rangesOver g ro →
  NoDup (getDestChannel ro g msg dest) ∧
  ∀ d, d ∈ getDestChannel ro g msg dest → ∃ key, Gateway.Channels g !! key = Some d.
Proof.
  intros Hkeyed (Hj & Hs & Hd).
  assert (NoDup (map_to_list (Gateway.Channels g)).*2) as Hvalues.
  { apply NoDup_fmap_2_strong; [|apply NoDup_map_to_list].
    intros [k1 v1] [k2 v2] H1%elem_of_map_to_list H2%elem_of_map_to_list Heq.
    simpl in Heq. subst v2. f_equal.
    rewrite <- (Hkeyed _ _ H1). by rewrite <- (Hkeyed _ _ H2). }
  unfold getDestChannel.
  destruct (bool_decide _ && bool_decide _).
  { split; [constructor | by intros d ?%elem_of_nil]. }
  destruct (isBridgeJoinLeave msg).
  - rewrite joinLeaveLoop_filter. simpl. split.
    + apply NoDup_filter. by rewrite Hj.
    + intros d [_ Hin]%list_elem_of_filter. by apply (elem_of_range _ _ _ Hj).
  - destruct (sourceLoop msg (atSource ro)).
    { split; [constructor | by intros d ?%elem_of_nil]. }
    rewrite destLoop_filter. simpl. split.
    + apply NoDup_filter. by rewrite Hd.
    + intros d [_ Hin]%list_elem_of_filter. by apply (elem_of_range _ _ _ Hd).
Qed.

(** X8. For the join/leave of a whole discord bridge the result is every
    descriptor of the map that belongs to the destination's account and
    whose direction contains "out", when the message names this gateway, and
    nothing when it names another: the channel the message comes from is
    not looked up, and the same-channel flags are not read. *)
Theorem getDestChannel_bridge_join_leave ro (g : Gateway) (msg : Message) dest d :
  rangesOver g ro → isBridgeJoinLeave msg = true →
  d ∈ getDestChannel ro g msg dest ↔
  (∃ key, Gateway.Channels g !! key = Some d) ∧
  config.ChannelInfo.Account d = bridge.Bridge.Account dest ∧
  strings.Contains (config.ChannelInfo.Direction d) "out" = true ∧
  config.Message.Gateway msg = Gateway.Name g.
Proof.
  intros (Hj & _ & _) Hjl. unfold getDestChannel. rewrite Hjl.
  destruct (bool_decide _ && bool_decide _) eqn:Hapi.
  - apply andb_true_iff in Hapi as [_ Hne%bool_decide_eq_true].
    split; [by intros ?%elem_of_nil | intros (_ & _ & _ & Hg); congruence].
  - rewrite joinLeaveLoop_filter. simpl. rewrite list_elem_of_filter.
    rewrite (elem_of_range _ _ _ Hj). unfold joinLeaveTest, validGatewayDest.
    rewrite !andb_true_iff, !bool_decide_eq_true. tauto.
Qed.

End ResolverMoreFacts.

(** ** The message-identity cache, continued *)

Section IdentityMoreFacts.
Context {O E : Type}.

#[local] Abbreviation ChannelInfo := (config.ChannelInfo.t O).
#[local] Abbreviation Message := (config.Message.t E).
#[local] Abbreviation Gateway := (Gateway.t O E).

Lemma findDestMsgID_None dest (channel : ChannelInfo) (ids : list (BrMsgID.t E)) :
  (∀ id, id ∈ ids → identityMatches dest channel id = false) →
  findDestMsgID dest channel ids = None.
Proof.
  induction ids as [|i r IH]; intros Hall; simpl; [done|].
  change (bool_decide _ && _ && _) with (identityMatches dest channel i).
  rewrite Hall by (by left). apply IH. intros id Hid. apply Hall. by right.
Qed.

Lemma findDestMsgID_first dest (channel : ChannelInfo) (ids1 ids2 : list (BrMsgID.t E)) id :
  (∀ i, i ∈ ids1 → identityMatches dest channel i = false) →
  identityMatches dest channel id = true →
  findDestMsgID dest channel (ids1 ++ id :: ids2)
  = Some (strings.Replace (BrMsgID.ID id) (bridge.Bridge.Protocol dest +:+ " ") "" 1).
Proof.
  induction ids1 as [|i r IH]; intros Hall Hid; simpl.
  - change (bool_decide _ && _ && _) with (identityMatches dest channel id). by rewrite Hid.
  - change (bool_decide _ && _ && _) with (identityMatches dest channel i).
    rewrite Hall by (by left). apply IH; [|done]. intros i' Hi'. apply Hall. by right.
Qed.

Lemma Replace_protocol_prefix (protocol raw : string) :
  strings.Replace (protocol +:+ " " +:+ raw) (protocol +:+ " ") "" 1 = raw.
Proof.
  assert (∀ a b s : string, a +:+ b +:+ s = (a +:+ b) +:+ s) as Hassoc.
  { induction a as [|x a IH]; intros b s; [done|].
    change (String x (a +:+ b +:+ s) = String x ((a +:+ b) +:+ s)). f_equal. apply IH. }
  rewrite Hassoc. destruct protocol as [|c p].
  - apply (Replace_first_prefix " " "" raw).
  - apply (Replace_first_prefix c (p +:+ " ") raw).
Qed.

(** X9. [getDestMsgID] gives the empty string, the sign of a message the
    destination has not seen: without a change of the world when the key is
    not in the cache, and as the result when the key is there but none of
    its identities is for this destination and channel. *)
Theorem getDestMsgID_not_found msgID dest (channel : ChannelInfo) (w : World O E) :
  (lru.Peek (Gateway.Messages (gw w)) msgID = None →
   getDestMsgID msgID dest channel w = Normal "" w) ∧
  (∀ ids, lru.Peek (Gateway.Messages (gw w)) msgID = Some ids →
     (∀ id, id ∈ ids → identityMatches dest channel id = false) →
     returned (getDestMsgID msgID dest channel w) = Some "").
Proof.
  split.
  - intros Hnone. rewrite getDestMsgID_run. unfold destMsgID, lru.Get. rewrite Hnone.
    by destruct w as [[] ?].
  - intros ids Hids Hall. rewrite getDestMsgID_run. unfold destMsgID. rewrite Hids.
    simpl. by rewrite findDestMsgID_None.
Qed.

(** X10. [getDestMsgID] gives the raw ID of the first identity of the
    entry that is for this destination (protocol and name) and channel: the
    identity's ID without the destination's protocol and the space before
    the raw ID. *)
Theorem getDestMsgID_found msgID dest (channel : ChannelInfo) (w : World O E)
    ids1 id ids2 raw :
  lru.Peek (Gateway.Messages (gw w)) msgID = Some (ids1 ++ id :: ids2) →
  (∀ i, i ∈ ids1 → identityMatches dest channel i = false) →
  identityMatches dest channel id = true →
  BrMsgID.ID id = bridge.Bridge.Protocol dest +:+ " " +:+ raw →
  returned (getDestMsgID msgID dest channel w) = Some raw.
Proof.
  intros Hids Hbefore Hid Hraw. rewrite getDestMsgID_run. unfold destMsgID.
  rewrite Hids. simpl. rewrite (findDestMsgID_first _ _ _ _ _ Hbefore Hid). simpl.
  by rewrite Hraw, Replace_protocol_prefix.
Qed.

(** X11. A lookup that finds the key makes its entry the newest of the
    cache and changes nothing else: the other keys keep their order, every
    key keeps its entry, and the rest of the gateway and the trace stay. *)
Theorem getDestMsgID_recency msgID dest (channel : ChannelInfo) (w : World O E) ids :
  lru.Peek (Gateway.Messages (gw w)) msgID = Some ids →
  ∃ a w', getDestMsgID msgID dest channel w = Normal a w' ∧
    lru.Keys (Gateway.Messages (gw w'))
    = filter (λ key, key ≠ msgID) (lru.Keys (Gateway.Messages (gw w))) ++ [msgID] ∧
    (∀ key, lru.Peek (Gateway.Messages (gw w')) key
            = lru.Peek (Gateway.Messages (gw w)) key) ∧
    Gateway.Channels (gw w') = Gateway.Channels (gw w) ∧
    Gateway.Bridges (gw w') = Gateway.Bridges (gw w) ∧
    Gateway.Name (gw w') = Gateway.Name (gw w) ∧
    trace w' = trace w.
Proof.
  intros Hids. rewrite getDestMsgID_run. eexists _, _. split; [done|]. simpl.
  split; [|split; [intros key; apply Peek_Get | done]].
  unfold lru.Get, lru.Keys. rewrite Hids. simpl. rewrite fmap_app. simpl. f_equal.
  generalize (Gateway.Messages (gw w)). intros c.
  induction c as [|[k v] r IH]; [done|].
  rewrite fmap_cons, !filter_cons. cbn [fst].
  destruct (decide (k ≠ msgID)); [rewrite fmap_cons; f_equal|]; exact IH.
Qed.

Lemma canonicalLoop_is_Some (c : lru.Cache (list (BrMsgID.t E))) protocol ID keys :
  (∀ key, key ∈ keys → key ∈ c.*1) → is_Some (canonicalLoop c protocol ID keys).
Proof.
  induction keys as [|k r IH]; intros Hkeys; simpl; [by eexists|].
  destruct (lru.Peek c k) as [ids|] eqn:Hk.
  - destruct (hasDownstream ID ids); [by eexists|]. apply IH. intros key Hkey.
    apply Hkeys. by right.
  - apply Peek_None in Hk. destruct Hk. apply Hkeys. by left.
Qed.

Lemma FindCanonicalMsgID_oldest_listing (g : Gateway) (protocol mID : string) c1 mid ids c2 :
  lru.Contains (Gateway.Messages g) (protocol +:+ " " +:+ mID) = false →
  Gateway.Messages g = c1 ++ (mid, ids) :: c2 →
  mid ∉ c1.*1 →
  (∀ key v, (key, v) ∈ c1 → protocol +:+ " " +:+ mID ∉ BrMsgID.ID <$> v) →
  protocol +:+ " " +:+ mID ∈ BrMsgID.ID <$> ids →
  FindCanonicalMsgID g protocol mID = Some (strings.Replace mid (protocol +:+ " ") "" 1).
Proof.
  intros Hnokey Hc Hfresh Hbefore Hlists. unfold FindCanonicalMsgID. rewrite Hnokey, Hc.
  unfold lru.Keys. rewrite fmap_app. rewrite canonicalLoop_app.
  - simpl. rewrite Peek_app_r by done. simpl. rewrite decide_True by done.
    by apply hasDownstream_true in Hlists as ->.
  - intros key Hkey.
    destruct (lru.Peek c1 key) as [v|] eqn:Hv; [|by apply Peek_None in Hv].
    exists v. rewrite Peek_app_l by done. split; [done|].
    eapply Hbefore. by apply Peek_Some.
Qed.

(** X12. The downstream ID a lookup gives for an origin key leads back to
    that key: when the entry of [key] is the oldest that lists the identity
    found for the destination, and that identity is not itself a key,
    [FindCanonicalMsgID] on the destination's protocol and the raw ID that
    [getDestMsgID] returns gives [key] without the first
    [protocol + " "] in it, which is the raw origin ID when the origin has
    the destination's protocol. *)
Theorem FindCanonicalMsgID_of_getDestMsgID (g : Gateway) dest (channel : ChannelInfo)
    c1 key ids1 id ids2 c2 raw :
  Gateway.Messages g = c1 ++ (key, ids1 ++ id :: ids2) :: c2 →
  key ∉ c1.*1 →
  (∀ i, i ∈ ids1 → identityMatches dest channel i = false) →
  identityMatches dest channel id = true →
  BrMsgID.ID id = bridge.Bridge.Protocol dest +:+ " " +:+ raw →
  (∀ k v, (k, v) ∈ c1 → BrMsgID.ID id ∉ BrMsgID.ID <$> v) →
  lru.Contains (Gateway.Messages g) (BrMsgID.ID id) = false →
  destMsgID (Gateway.Messages g) key dest channel = raw ∧
  FindCanonicalMsgID g (bridge.Bridge.Protocol dest) raw
  = Some (strings.Replace key (bridge.Bridge.Protocol dest +:+ " ") "" 1) ∧
  (∀ origin, key = bridge.Bridge.Protocol dest +:+ " " +:+ origin →
     FindCanonicalMsgID g (bridge.Bridge.Protocol dest) raw = Some origin).
Proof.
  intros Hc Hfresh Hbefore Hid Hraw Hothers Hnokey.
  assert (FindCanonicalMsgID g (bridge.Bridge.Protocol dest) raw
          = Some (strings.Replace key (bridge.Bridge.Protocol dest +:+ " ") "" 1)) as Hback.
  { rewrite Hraw in Hothers, Hnokey.
    eapply FindCanonicalMsgID_oldest_listing; [done | exact Hc | done | done |].
    rewrite <- Hraw, fmap_app, fmap_cons. apply elem_of_app. right. by left. }
  split; [|split; [done|]].
  - unfold destMsgID. rewrite Hc, Peek_app_r by done. simpl. rewrite decide_True by done.
    rewrite (findDestMsgID_first _ _ _ _ _ Hbefore Hid). simpl.
    by rewrite Hraw, Replace_protocol_prefix.
  - intros origin ->. rewrite Hback. by rewrite Replace_protocol_prefix.
Qed.

End IdentityMoreFacts.

(** ** The rewrites and the dispatch, continued *)

Section PipelineMoreFacts.
Context {O E : Type} `{!config.Events} `{!regexp.Engine} `{!emojilib.Table}
  `{!tengo.Engine} `{!Handlers O E}.

#[local] Abbreviation ChannelInfo := (config.ChannelInfo.t O).
#[local] Abbreviation Message := (config.Message.t E).
#[local] Abbreviation Gateway := (Gateway.t O E).

Lemma bind_Panic {A B} (m : M O E A) (k : A → M O E B) w w' :
  (m ≫= k) w = Panic w' →
  m w = Panic w' ∨ ∃ a w1, m w = Normal a w1 ∧ k a w1 = Panic w'.
Proof.
  unfold mbind, M_bind, bind.
  destruct (m w) as [a w1|w1|c w1]; [eauto | intros [= <-]; by left | done].
Qed.

Lemma bind_Exit {A B} (m : M O E A) (k : A → M O E B) w c w' :
  (m ≫= k) w = Exit c w' →
  m w = Exit c w' ∨ ∃ a w1, m w = Normal a w1 ∧ k a w1 = Exit c w'.
Proof.
  unfold mbind, M_bind, bind.
  destruct (m w) as [a w1|w1|c1 w1]; [eauto | done | intros [= <- <-]; by left].
Qed.

Lemma relayed_app (a b : list (Effect E)) : relayed (a ++ b) = relayed a ++ relayed b.
Proof.
  induction a as [|e a IH]; simpl; [done|]. destruct e; simpl; by rewrite IH.
Qed.

(** A step that only writes the log. *)
Lemma replaceLoop_trace account pairs s (w : World O E) s' w' :
  replaceLoop account pairs s w = Normal s' w' →
  gw w' = gw w ∧ outgoing (trace w') = outgoing (trace w) ∧
  relayed (trace w') = relayed (trace w).
Proof.
  revert s. induction pairs as [|outer r IH]; intros s; simpl.
  - intros [= _ <-]. done.
  - destruct (outer !! 0%nat) as [search|]; [|done].
    destruct (outer !! 1%nat) as [replace|]; [|done].
    destruct (regexp.Compile search) as [err|re]; [|apply IH].
    intros [= _ <-]. simpl. rewrite outgoing_app, relayed_app. simpl.
    by rewrite !app_nil_r.
Qed.

(** The loop panics at a pair with fewer than two strings, and only
    there; it never exits. *)
Lemma replaceLoop_total account pairs s (w : World O E) :
  (∀ outer : list string, outer ∈ pairs → 2 ≤ List.length outer) →
  ∃ s' w', replaceLoop account pairs s w = Normal s' w'.
Proof.
  revert s. induction pairs as [|outer r IH]; intros s Hall; simpl; [by eexists _, _|].
  assert (2 ≤ List.length outer) as Hlen by (apply Hall; by left).
  destruct outer as [|search [|replace tl]]; simpl in Hlen; [lia | lia |]. simpl.
  destruct (regexp.Compile search) as [err|re]; [by eexists _, _|].
  apply IH. intros o Ho. apply Hall. by right.
Qed.

(** [deliver] always ends normally, with what [Send] returns. *)
Lemma deliver_run dest (msg rmsg : Message) (w : World O E) :
  ∃ w', deliver dest msg rmsg w = Normal (bridge.Bridge.Send dest msg, rmsg) w' ∧
    gw w' = gw w ∧
    outgoing (trace w') = outgoing (trace w) ++ [msg] ∧
    relayed (trace w') = relayed (trace w) ++
      (if bool_decide (bridge.Bridge.Account dest = "mattermost.plugin") then [msg] else []).
Proof.
  unfold deliver.
  destruct (bridge.Bridge.Send dest msg) as [mID [e|]] eqn:Hsend.
  - destruct (bool_decide (bridge.Bridge.Account dest = "mattermost.plugin"));
      unfold mbind, M_bind, bind, emit; simpl; eexists; (split; [reflexivity|]); simpl;
      rewrite !outgoing_app, !relayed_app; simpl; by rewrite ?app_nil_r.
  - destruct (bool_decide (mID ≠ "")) eqn:HmID.
    + destruct (bool_decide (bridge.Bridge.Account dest = "mattermost.plugin"));
        unfold mbind, M_bind, bind, Debugf, emit; simpl; eexists; (split; [reflexivity|]);
        simpl; rewrite !outgoing_app, !relayed_app; simpl; by rewrite ?app_nil_r.
    + apply bool_decide_eq_false in HmID. apply dec_stable in HmID. subst mID.
      destruct (bool_decide (bridge.Bridge.Account dest = "mattermost.plugin"));
        unfold mbind, M_bind, bind, emit; simpl; eexists; (split; [reflexivity|]); simpl;
        rewrite !outgoing_app, !relayed_app; simpl; by rewrite ?app_nil_r.
Qed.

Lemma modifyUsername_relayed (msg : Message) dest (w : World O E) nick msg' w' :
  modifyUsername msg dest w = Normal (nick, msg') w' →
  relayed (trace w') = relayed (trace w).
Proof.
  unfold modifyUsername. intros Hrun.
  apply bind_Normal in Hrun as (g & w1 & [= <- <-] & Hrun).
  destruct (Gateway.Bridges (gw w) !! config.Message.Account msg) as [br|]; [|done].
  apply bind_Normal in Hrun as (username & w2 & Hloop & Hrun).
  injection Hrun as _ _ <-. by apply replaceLoop_trace in Hloop as (_ & _ & ?).
Qed.

(** Lines 402-422 on the copy: which field of the copy gets what. *)
Lemma outgoing_fields (rmsg rmsg2 : Message) (name avatar nick id parent canon : string)
    (api : bool) :
  let m0 := config.Message.with_ID id
              (config.Message.with_Username nick
                 (config.Message.with_Avatar avatar
                    (config.Message.with_Channel name rmsg))) in
  let m0' := if api then config.Message.with_Channel (config.Message.Channel rmsg2) m0
             else m0 in
  let m1 := config.Message.with_ParentID parent m0' in
  let m2 := if bool_decide (config.Message.ParentID m1 = "")
            then config.Message.with_ParentID canon m1 else m1 in
  let m3 := if bool_decide (config.Message.ParentID m2 = "")
               && bool_decide (config.Message.ParentID rmsg2 ≠ "")
            then config.Message.with_ParentID "msg-parent-not-found" m2 else m2 in
  config.Message.Channel m3 = (if api then config.Message.Channel rmsg2 else name) ∧
  config.Message.ID m3 = id ∧
  config.Message.Avatar m3 = avatar ∧
  config.Message.Username m3 = nick ∧
  config.Message.Text m3 = config.Message.Text rmsg ∧
  config.Message.Account m3 = config.Message.Account rmsg ∧
  config.Message.Event m3 = config.Message.Event rmsg ∧
  config.Message.Protocol m3 = config.Message.Protocol rmsg ∧
  config.Message.Gateway m3 = config.Message.Gateway rmsg ∧
  config.Message.Extra m3 = config.Message.Extra rmsg.
Proof.
  intros m0 m0' m1 m2 m3. subst m3 m2 m1 m0' m0.
  destruct api, (bool_decide (_ = "") && _), (bool_decide (_ = "")); repeat split; reflexivity.
Qed.

Lemma SendMessage_Normal_full (rmsg : Message) dest (channel : ChannelInfo) canon
    (w : World O E) r rmsg' w' :
  (config.Message.Event rmsg = config.EventAvatarDownload ↔
   config.ChannelInfo.ID channel = getChannelID rmsg) →
  SendMessage rmsg dest channel canon w = Normal (r, rmsg') w' →
  ∃ br m,
    Gateway.Bridges (gw w) !! config.Message.Account rmsg = Some br ∧
    r = bridge.Bridge.Send dest m ∧
    outgoing (trace w') = outgoing (trace w) ++ [m] ∧
    relayed (trace w') = relayed (trace w) ++
      (if bool_decide (bridge.Bridge.Account dest = "mattermost.plugin") then [m] else []) ∧
    (config.Message.Channel m =
       (if bool_decide (bridge.Bridge.Protocol dest = apiProtocol)
        then config.Message.Channel rmsg else config.ChannelInfo.Name channel) ∧
     config.Message.ID m =
       destMsgID (Gateway.Messages (gw w))
         (bridge.Bridge.Protocol br +:+ " " +:+ config.Message.ID rmsg) dest channel ∧
     config.Message.Avatar m = config.Message.Avatar rmsg' ∧
     config.Message.Text m = config.Message.Text rmsg ∧
     config.Message.Account m = config.Message.Account rmsg ∧
     config.Message.Event m = config.Message.Event rmsg ∧
     config.Message.Protocol m = config.Message.Protocol rmsg ∧
     config.Message.Gateway m = config.Message.Gateway rmsg ∧
     config.Message.Extra m = config.Message.Extra rmsg) ∧
    (Gateway.Channels (gw w') = Gateway.Channels (gw w) ∧
     Gateway.Bridges (gw w') = Gateway.Bridges (gw w) ∧
     Gateway.Name (gw w') = Gateway.Name (gw w) ∧
     Gateway.MyConfig (gw w') = Gateway.MyConfig (gw w) ∧
     Gateway.TengoModifyMessage (gw w') = Gateway.TengoModifyMessage (gw w) ∧
     ∀ key, lru.Peek (Gateway.Messages (gw w')) key = lru.Peek (Gateway.Messages (gw w)) key).
Proof.
  intros Hgo. unfold SendMessage.
  assert ((if bool_decide (config.Message.Event rmsg = config.EventAvatarDownload)
           then bool_decide (config.ChannelInfo.ID channel ≠ getChannelID rmsg)
           else bool_decide (config.ChannelInfo.ID channel = getChannelID rmsg)) = false) as ->.
  { case_bool_decide as He.
    - apply bool_decide_eq_false_2. intros Hne. apply Hne, Hgo, He.
    - apply bool_decide_eq_false_2. intros Hc. apply He, Hgo, Hc. }
  intros Hrun.
  apply bind_Normal in Hrun as ([] & w1 & Hlog & Hrun).
  assert (gw w1 = gw w ∧ outgoing (trace w1) = outgoing (trace w) ∧
          relayed (trace w1) = relayed (trace w)) as (Hgw1 & Hout1 & Hrel1).
  { destruct (bool_decide _) in Hlog; injection Hlog as <-; [|done].
    simpl. rewrite outgoing_app, relayed_app. simpl. by rewrite !app_nil_r. }
  clear Hlog.
  destruct (modifyAvatar rmsg dest) as [avatar rmsg1] eqn:Hav.
  assert (rmsg1 = config.Message.with_Avatar avatar rmsg) as ->.
  { pose proof (modifyAvatar_snd rmsg dest) as Hsnd. by rewrite Hav in Hsnd. }
  apply bind_Normal in Hrun as ([nick rmsg2] & w2 & Huser & Hrun).
  pose proof (modifyUsername_relayed _ _ _ _ _ _ Huser) as Hrel2.
  apply modifyUsername_Normal in Huser as (br & username & Hbr & -> & _ & Hgw2 & Hout2).
  apply bind_Normal in Hrun as (id & w3 & Hid & Hrun).
  rewrite getDestMsgID_run in Hid. injection Hid as <- <-.
  apply bind_Normal in Hrun as (parent & w4 & Hparent & Hrun).
  rewrite getDestMsgID_run in Hparent. injection Hparent as <- <-.
  cbv zeta in Hrun.
  match type of Hrun with
  | deliver ?d ?m ?rm ?w0 = _ =>
      destruct (deliver_run d m rm w0) as (w5 & Hd & Hgw5 & Hout5 & Hrel5);
      rewrite Hd in Hrun; clear Hd; injection Hrun as <- <- <-;
      exists br, m
  end.
  cbn [config.Message.Account config.Message.with_Avatar] in Hbr.
  split; [by rewrite <- Hgw1|]. split; [done|].
  split; [rewrite Hout5; cbn [trace]; by rewrite Hout2, Hout1|].
  split; [rewrite Hrel5; cbn [trace]; by rewrite Hrel2, Hrel1|].
  split.
  - match goal with
    | |- context [config.Message.with_ParentID ?parent
                    (if ?api then _ else config.Message.with_ID ?id _)] =>
        destruct (outgoing_fields rmsg
          (config.Message.with_Username username
             (config.Message.with_Protocol (bridge.Bridge.Protocol br)
                (config.Message.with_Avatar avatar rmsg)))
          (config.ChannelInfo.Name channel) avatar nick id parent canon api)
          as (Hchan & HID & Havatar & _ & Htext & Hacc & Hev & Hproto & Hgate & Hextra)
    end.
    split; [exact Hchan|]. split.
    { etrans; [exact HID|]. cbn [config.Message.Protocol config.Message.ID
        config.Message.with_Username config.Message.with_Protocol config.Message.with_Avatar].
      by rewrite Hgw2, Hgw1. }
    split; [exact Havatar|]. done.
  - rewrite Hgw5. cbn [gw]. rewrite Hgw2, Hgw1.
    repeat split; try reflexivity. intros key. cbn. by rewrite !Peek_Get.
Qed.

Lemma modifyUsername_total (msg : Message) dest (w : World O E) br :
  Gateway.Bridges (gw w) !! config.Message.Account msg = Some br →
  (∀ outer : list string, outer ∈ bridge.Bridge.GetStringSlice2D br "ReplaceNicks" →
     2 ≤ List.length outer) →
  ∃ nick msg' w', modifyUsername msg dest w = Normal (nick, msg') w'.
Proof.
  intros Hbr Hpairs. unfold modifyUsername, mbind, M_bind, bind, getGw. rewrite Hbr.
  match goal with
  | |- context [replaceLoop ?a ?p ?s w] =>
      destruct (replaceLoop_total a p s w Hpairs) as (s' & w' & ->)
  end.
  by eexists _, _, _.
Qed.

Lemma modifyUsername_unknown (msg : Message) dest (w : World O E) :
  Gateway.Bridges (gw w) !! config.Message.Account msg = None →
  modifyUsername msg dest w = Panic w.
Proof.
  intros Hbr. unfold modifyUsername, mbind, M_bind, bind, getGw. by rewrite Hbr.
Qed.

Lemma modifyAvatar_Account (msg : Message) dest :
  config.Message.Account (modifyAvatar msg dest).2 = config.Message.Account msg.
Proof. by rewrite modifyAvatar_snd. Qed.

(** X13. A message whose account has no bridge in the gateway makes
    [SendMessage] panic (line 295 reads through a nil pointer), unless the
    call is cut short as a self-echo; nothing has been handed to [Send] or
    put on the plugin stream by then, and the gateway is as it was. *)
Theorem SendMessage_unknown_account (rmsg : Message) dest (channel : ChannelInfo) canon
    (w : World O E) :
  (config.Message.Event rmsg = config.EventAvatarDownload ↔
   config.ChannelInfo.ID channel = getChannelID rmsg) →
  Gateway.Bridges (gw w) !! config.Message.Account rmsg = None →
  ∃ w', SendMessage rmsg dest channel canon w = Panic w' ∧
    gw w' = gw w ∧ outgoing (trace w') = outgoing (trace w) ∧
    relayed (trace w') = relayed (trace w).
Proof.
  intros Hgo Hbr. unfold SendMessage.
  assert ((if bool_decide (config.Message.Event rmsg = config.EventAvatarDownload)
           then bool_decide (config.ChannelInfo.ID channel ≠ getChannelID rmsg)
           else bool_decide (config.ChannelInfo.ID channel = getChannelID rmsg)) = false) as ->.
  { case_bool_decide as He.
    - apply bool_decide_eq_false_2. intros Hne. apply Hne, Hgo, He.
    - apply bool_decide_eq_false_2. intros Hc. apply He, Hgo, Hc. }
  pose proof (modifyAvatar_Account rmsg dest) as Hacc.
  destruct (modifyAvatar rmsg dest) as [avatar rmsg1]. cbn [snd] in Hacc.
  unfold mbind at 1, M_bind at 1, bind at 1.
  destruct (bool_decide (config.Message.Event rmsg ≠ config.EventUserTyping));
    cbn [Debugf emit mret M_ret ret];
    unfold mbind at 1, M_bind at 1, bind at 1;
    rewrite modifyUsername_unknown by (cbn [gw]; by rewrite Hacc);
    eexists; (split; [reflexivity|]); [|done].
  simpl. rewrite outgoing_app, relayed_app. simpl. by rewrite !app_nil_r.
Qed.

(** X14. When the bridge of the message's account is known and every pair
    of its ReplaceNicks has its two strings, a call of [SendMessage] that is
    not cut short ends normally: it hands one message to [Send], and what it
    returns is what [Send] returns for that message, identity and error
    alike. *)
Theorem SendMessage_returns_Send (rmsg : Message) dest (channel : ChannelInfo) canon
    (w : World O E) br :
  (config.Message.Event rmsg = config.EventAvatarDownload ↔
   config.ChannelInfo.ID channel = getChannelID rmsg) →
  Gateway.Bridges (gw w) !! config.Message.Account rmsg = Some br →
  (∀ outer : list string, outer ∈ bridge.Bridge.GetStringSlice2D br "ReplaceNicks" →
     2 ≤ List.length outer) →
  ∃ m rmsg' w',
    SendMessage rmsg dest channel canon w = Normal (bridge.Bridge.Send dest m, rmsg') w' ∧
    outgoing (trace w') = outgoing (trace w) ++ [m].
Proof.
  intros Hgo Hbr Hpairs.
  assert (∃ a w', SendMessage rmsg dest channel canon w = Normal a w') as ([r rmsg'] & w' & Hrun).
  { unfold SendMessage.
    assert ((if bool_decide (config.Message.Event rmsg = config.EventAvatarDownload)
             then bool_decide (config.ChannelInfo.ID channel ≠ getChannelID rmsg)
             else bool_decide (config.ChannelInfo.ID channel = getChannelID rmsg)) = false) as ->.
    { case_bool_decide as He.
      - apply bool_decide_eq_false_2. intros Hne. apply Hne, Hgo, He.
      - apply bool_decide_eq_false_2. intros Hc. apply He, Hgo, Hc. }
    pose proof (modifyAvatar_Account rmsg dest) as Hacc.
    destruct (modifyAvatar rmsg dest) as [avatar rmsg1]. cbn [snd] in Hacc.
    rewrite <- Hacc in Hbr.
    unfold mbind at 1, M_bind at 1, bind at 1.
    destruct (bool_decide (config.Message.Event rmsg ≠ config.EventUserTyping));
      cbn [Debugf emit mret M_ret ret];
      unfold mbind at 1, M_bind at 1, bind at 1.
    all: match goal with
         | |- context [modifyUsername ?r1 ?d ?w1] =>
             destruct (modifyUsername_total r1 d w1 br Hbr Hpairs)
               as (nick & rmsg2 & w2 & ->)
         end.
    all: unfold mbind at 1, M_bind at 1, bind at 1; rewrite getDestMsgID_run.
    all: unfold mbind at 1, M_bind at 1, bind at 1; rewrite getDestMsgID_run.
    all: cbv zeta.
    all: match goal with
         | |- context [deliver ?d ?m ?rm ?w0] =>
             destruct (deliver_run d m rm w0) as (w5 & -> & _)
         end.
    all: by eexists _, _. }
  destruct (SendMessage_Normal_full _ _ _ _ _ _ _ _ Hgo Hrun)
    as (br' & m & _ & -> & Hsent & _).
  by exists m, rmsg', w'.
Qed.

(** X15. The copy handed to [Send]: its channel is the destination
    channel's name, or the origin's channel name when the destination's
    protocol is "api"; its ID is what [getDestMsgID] finds under the key
    made of the origin bridge's protocol and the original's ID, so the empty
    string for a message the destination has not seen; its avatar is the
    avatar the original has after the call; its text, account, event,
    gateway and payload are the original's, and its protocol is the one the
    original had before the call. *)
Theorem SendMessage_outgoing_copy (rmsg : Message) dest (channel : ChannelInfo) canon
    (w : World O E) r rmsg' w' :
  (config.Message.Event rmsg = config.EventAvatarDownload ↔
   config.ChannelInfo.ID channel = getChannelID rmsg) →
  SendMessage rmsg dest channel canon w = Normal (r, rmsg') w' →
  ∃ m, outgoing (trace w') = outgoing (trace w) ++ [m] ∧
    config.Message.Channel m =
      (if bool_decide (bridge.Bridge.Protocol dest = apiProtocol)
       then config.Message.Channel rmsg else config.ChannelInfo.Name channel) ∧
    config.Message.ID m =
      destMsgID (Gateway.Messages (gw w))
        (config.Message.Protocol rmsg' +:+ " " +:+ config.Message.ID rmsg) dest channel ∧
    config.Message.Avatar m = config.Message.Avatar rmsg' ∧
    config.Message.Text m = config.Message.Text rmsg ∧
    config.Message.Account m = config.Message.Account rmsg ∧
    config.Message.Event m = config.Message.Event rmsg ∧
    config.Message.Protocol m = config.Message.Protocol rmsg ∧
    config.Message.Gateway m = config.Message.Gateway rmsg ∧
    config.Message.Extra m = config.Message.Extra rmsg.
Proof.
  intros Hgo Hrun.
  destruct (SendMessage_Normal_full _ _ _ _ _ _ _ _ Hgo Hrun)
    as (br & m & Hbr & _ & Hsent & _ & Hfields & _).
  destruct (SendMessage_Normal _ _ _ _ _ _ _ _ Hgo Hrun)
    as (br' & username & _ & Hbr' & Hrmsg' & _).
  rewrite Hbr in Hbr'. injection Hbr' as <-.
  exists m. split; [done|].
  replace (config.Message.Protocol rmsg') with (bridge.Bridge.Protocol br)
    by (by rewrite Hrmsg').
  exact Hfields.
Qed.

(** X16. The copy handed to [Send] is also put on the router's
    MattermostPlugin stream exactly when the destination's account is
    "mattermost.plugin"; no other message is put there. *)
Theorem SendMessage_plugin_relay (rmsg : Message) dest (channel : ChannelInfo) canon
    (w : World O E) r rmsg' w' :
  (config.Message.Event rmsg = config.EventAvatarDownload ↔
   config.ChannelInfo.ID channel = getChannelID rmsg) →
  SendMessage rmsg dest channel canon w = Normal (r, rmsg') w' →
  ∃ m, outgoing (trace w') = outgoing (trace w) ++ [m] ∧
    (bridge.Bridge.Account dest = "mattermost.plugin" →
     relayed (trace w') = relayed (trace w) ++ [m]) ∧
    (bridge.Bridge.Account dest ≠ "mattermost.plugin" →
     relayed (trace w') = relayed (trace w)).
Proof.
  intros Hgo Hrun.
  destruct (SendMessage_Normal_full _ _ _ _ _ _ _ _ Hgo Hrun)
    as (br & m & _ & _ & Hsent & Hrel & _).
  exists m. split; [done|]. split; intros Hacc.
  - by rewrite bool_decide_eq_true_2 in Hrel.
  - rewrite bool_decide_eq_false_2 in Hrel by done. by rewrite app_nil_r in Hrel.
Qed.

(** X17. [SendMessage] changes nothing of the gateway but the order of the
    cache: the channel map, the bridges, the name and the configuration are
    as before, and every key of the cache has the entry it had. *)
Theorem SendMessage_gateway_frame (rmsg : Message) dest (channel : ChannelInfo) canon
    (w : World O E) a w' :
  SendMessage rmsg dest channel canon w = Normal a w' →
  Gateway.Channels (gw w') = Gateway.Channels (gw w) ∧
  Gateway.Bridges (gw w') = Gateway.Bridges (gw w) ∧
  Gateway.Name (gw w') = Gateway.Name (gw w) ∧
  Gateway.MyConfig (gw w') = Gateway.MyConfig (gw w) ∧
  Gateway.TengoModifyMessage (gw w') = Gateway.TengoModifyMessage (gw w) ∧
  ∀ key, lru.Peek (Gateway.Messages (gw w')) key = lru.Peek (Gateway.Messages (gw w)) key.
Proof.
  intros Hrun. destruct a as [r rmsg'].
  destruct (decide (config.Message.Event rmsg = config.EventAvatarDownload ↔
                    config.ChannelInfo.ID channel = getChannelID rmsg)) as [Hgo|Hcut].
  - by destruct (SendMessage_Normal_full _ _ _ _ _ _ _ _ Hgo Hrun)
      as (br & m & _ & _ & _ & _ & _ & Hframe).
  - rewrite SendMessage_suppressed in Hrun by done. by injection Hrun as _ _ <-.
Qed.

Lemma stripNick_filter (s : string) :
  list_ascii_of_string (stripNick s) = List.filter isAlnum (list_ascii_of_string s).
Proof.
  induction s as [|c t IH]; simpl; [done|]. destruct (isAlnum c); simpl; by rewrite IH.
Qed.

(** X18. With StripNick set for the destination and no pair of
    ReplaceNicks for the origin bridge, the username [modifyUsername]
    writes to the message is the old one without the bytes that are not an
    ASCII letter or digit: the letters and digits stay, each as often as
    before and in their order.  So a username made of letters and digits is
    unchanged, and a second call changes nothing more. *)
Theorem modifyUsername_StripNick (msg : Message) dest (w : World O E) nick msg' w' br :
  bridge.Bridge.GetBool dest "StripNick" = true →
  Gateway.Bridges (gw w) !! config.Message.Account msg = Some br →
  bridge.Bridge.GetStringSlice2D br "ReplaceNicks" = [] →
  modifyUsername msg dest w = Normal (nick, msg') w' →
  list_ascii_of_string (config.Message.Username msg')
  = List.filter isAlnum (list_ascii_of_string (config.Message.Username msg)) ∧
  ((∀ c, c ∈ list_ascii_of_string (config.Message.Username msg) → isAlnum c = true) →
   config.Message.Username msg' = config.Message.Username msg) ∧
  (∀ nick2 msg2 w2, modifyUsername msg' dest w' = Normal (nick2, msg2) w2 →
     config.Message.Username msg2 = config.Message.Username msg').
Proof.
  intros Hstrip Hbr Hpairs Hrun.
  assert (∀ (m m' : Message) (w1 w2 : World O E) n,
            Gateway.Bridges (gw w1) !! config.Message.Account m = Some br →
            modifyUsername m dest w1 = Normal (n, m') w2 →
            config.Message.Username m' = stripNick (config.Message.Username m)) as Hone.
  { intros m m' w1 w2 n Hb Hr.
    pose proof (modifyUsername_Username _ _ _ _ _ _ br Hr Hb w1) as Hname.
    rewrite Hstrip, Hpairs in Hname. simpl in Hname. by injection Hname as <-. }
  assert (∀ t, (∀ c, c ∈ list_ascii_of_string t → isAlnum c = true) → stripNick t = t) as Hid.
  { induction t as [|c t IH]; intros Hall; simpl; [done|].
    rewrite Hall by (by left). f_equal. apply IH. intros c' Hc'. apply Hall. by right. }
  pose proof (Hone _ _ _ _ _ Hbr Hrun) as Hname.
  split; [by rewrite Hname, stripNick_filter|].
  split; [intros Hall; rewrite Hname; by apply Hid|].
  intros nick2 msg2 w2 Hrun2.
  apply modifyUsername_Normal in Hrun as (br1 & u1 & Hbr1 & Hmsg' & _ & [Hgw _]).
  assert (Gateway.Bridges (gw w') !! config.Message.Account msg' = Some br) as Hbr'.
  { rewrite Hgw, Hmsg'. exact Hbr. }
  rewrite (Hone _ _ _ _ _ Hbr' Hrun2), Hname. apply Hid. intros c Hc.
  rewrite stripNick_filter in Hc. apply list_elem_of_In, filter_In in Hc. tauto.
Qed.

Lemma firstRuneLen_bounds (s : string) :
  s ≠ EmptyString → 1 ≤ firstRuneLen s ≤ 4.
Proof.
  destruct s as [|b0 t]; [done|]. intros _. unfold firstRuneLen.
  repeat match goal with
         | |- context [if ?b then _ else _] => destruct b
         | |- context [match ?x with EmptyString => _ | String _ _ => _ end] => destruct x
         end; lia.
Qed.

Lemma substring_all (s : string) : String.substring 0 (String.length s) s = s.
Proof. induction s as [|c t IH]; simpl; [done | by rewrite IH]. Qed.

Lemma substring_split (s : string) (i : nat) :
  i ≤ String.length s →
  String.substring 0 i s +:+ String.substring i (String.length s - i) s = s.
Proof.
  revert i. induction s as [|c t IH]; intros i Hi; simpl in Hi.
  - by destruct i.
  - destruct i as [|i].
    + change (String.substring 0 (String.length (String c t)) (String c t) = String c t).
      apply substring_all.
    + change (String c (String.substring 0 i t
                        +:+ String.substring i (String.length t - i) t) = String c t).
      f_equal. apply IH. lia.
Qed.

(** X19. The index at which line 325 cuts a non-empty username lies
    within it, so neither slice panics; it is at most 4; and the two slices
    put together are the username: the no-ping nick is the username with
    the zero-width space after its first [noPingIndex] bytes. *)
Theorem noPingIndex_within (username : string) :
  username ≠ EmptyString →
  1 ≤ noPingIndex username ≤ String.length username ∧
  noPingIndex username ≤ 4 ∧
  String.substring 0 (noPingIndex username) username
  +:+ String.substring (noPingIndex username)
        (String.length username - noPingIndex username) username
  = username.
Proof.
  intros Hne. pose proof (firstRuneLen_bounds username Hne) as Hw.
  assert (1 ≤ String.length username) as Hlen by (destruct username; [done | simpl; lia]).
  assert (1 ≤ noPingIndex username ≤ String.length username ∧ noPingIndex username ≤ 4)
    as [Hin H4].
  { unfold noPingIndex. destruct (_ <? _) eqn:Hlt.
    - apply Nat.ltb_lt in Hlt. lia.
    - lia. }
  split; [done|]. split; [done|]. apply substring_split. lia.
Qed.

(** X20. [modifyAvatar] keeps an avatar the message has, and sets an empty
    one from the destination's icon URL; as it writes the message it is
    given, the avatar set for one destination is the avatar every later
    destination gets, whatever its own icon URL. *)
Theorem modifyAvatar_first_wins (msg : Message) (dest1 dest2 : bridge.Bridge.t E) :
  (config.Message.Avatar msg ≠ "" → modifyAvatar msg dest1 = (config.Message.Avatar msg, msg)) ∧
  (config.Message.Avatar msg = "" →
   (modifyAvatar msg dest1).1
   = strings.Replace (bridge.Bridge.GetString dest1 "IconURL") "{NICK}"
       (config.Message.Username msg) (-1)) ∧
  ((modifyAvatar msg dest1).1 ≠ "" →
   modifyAvatar (modifyAvatar msg dest1).2 dest2
   = ((modifyAvatar msg dest1).1, (modifyAvatar msg dest1).2)).
Proof.
  assert (∀ (m : Message) d, config.Message.Avatar m ≠ "" →
            modifyAvatar m d = (config.Message.Avatar m, m)) as Hkeep.
  { intros m d Hm. unfold modifyAvatar. by rewrite bool_decide_eq_false_2. }
  split; [apply Hkeep|]. split.
  - intros Hempty. unfold modifyAvatar. by rewrite bool_decide_eq_true_2.
  - intros Hset.
    assert (config.Message.Avatar (modifyAvatar msg dest1).2 = (modifyAvatar msg dest1).1)
      as Hsame by (by rewrite modifyAvatar_snd).
    rewrite Hkeep by (by rewrite Hsame). by rewrite Hsame.
Qed.

(** X21. The loop over the pairs of ReplaceNicks or ReplaceMessages ends at
    the first expression that does not compile: the pairs before it have
    been applied, one line is written to the log, and the pairs after it are
    not looked at, not even one that would panic. *)
Theorem replaceLoop_stops_at_bad_regexp account good search replace tl rest err s
    (w : World O E) s' w' :
  (∀ outer : list string, outer ∈ good →
     ∃ search0 replace0 tl0 re, outer = search0 :: replace0 :: tl0 ∧
       regexp.Compile search0 = inr re) →
  regexp.Compile search = inl err →
  replaceLoop account good s w = Normal s' w' →
  replaceLoop account (good ++ (search :: replace :: tl) :: rest) s w
  = Normal s' (mkWorld (gw w')
      (trace w' ++ [Logf "error" "regexp in %s failed: %s" [AStr account; AStr err]])).
Proof.
  intros Hgood Hbad. revert s. induction good as [|outer r IH]; intros s Hrun; simpl.
  - injection Hrun as <- <-. by rewrite Hbad.
  - destruct (Hgood outer) as (search0 & replace0 & tl0 & re & -> & Hre); [by left|].
    simpl in *. rewrite Hre in *. apply IH; [|done].
    intros o Ho. apply Hgood. by right.
Qed.

End PipelineMoreFacts.

(** ** The channels of a bridge *)

Section BridgeChannelsFacts.
Context {O : Type}.

#[local] Abbreviation ChannelInfo := (config.ChannelInfo.t O).

Lemma mapChannelsToBridge_list (visit : list (string * ChannelInfo)) account
    (brChannels : gmap string ChannelInfo) id :
  NoDup visit.*1 →
  mapChannelsToBridge visit account brChannels !! id =
  match (list_to_map visit : gmap string ChannelInfo) !! id with
  | Some channel =>
      if bool_decide (account = config.ChannelInfo.Account channel)
      then Some channel else brChannels !! id
  | None => brChannels !! id
  end.
Proof.
  unfold mapChannelsToBridge. revert brChannels.
  induction visit as [|[k v] r IH]; intros brChannels Hnodup; simpl; [done|].
  rewrite fmap_cons in Hnodup. apply NoDup_cons in Hnodup as [Hk Hr].
  rewrite IH by done. destruct (decide (k = id)) as [->|Hne].
  - rewrite lookup_insert_eq.
    rewrite (not_elem_of_list_to_map_1 (M := gmap string) r id) by done.
    destruct (bool_decide _); [apply lookup_insert_eq | done].
  - rewrite lookup_insert_ne by done.
    destruct (bool_decide (account = config.ChannelInfo.Account v));
      [by rewrite lookup_insert_ne | done].
Qed.

(** X22. After [mapChannelsToBridge] the bridge has, under each ID, the
    gateway's descriptor of that ID when its account is the bridge's, and
    what it had before otherwise; the order in which the map is visited
    does not matter. *)
Theorem mapChannelsToBridge_lookup (channels : gmap string ChannelInfo)
    (visit : list (string * ChannelInfo)) account (brChannels : gmap string ChannelInfo) id :
  visit ≡ₚ map_to_list channels →
  mapChannelsToBridge visit account brChannels !! id =
  match channels !! id with
  | Some channel =>
      if bool_decide (account = config.ChannelInfo.Account channel)
      then Some channel else brChannels !! id
  | None => brChannels !! id
  end.
Proof.
  intros Hvisit.
  assert (NoDup visit.*1) as Hnodup by (rewrite Hvisit; apply NoDup_fst_map_to_list).
  rewrite mapChannelsToBridge_list by done.
  rewrite (list_to_map_proper (M := gmap string) visit (map_to_list channels)) by done.
  by rewrite list_to_map_to_list.
Qed.

End BridgeChannelsFacts.

(** ** The reconnection of a bridge *)

Section ReconnectFacts.
Import reconnect.

Lemma reconnectFrom_success link account n attempt rounds :
  (∀ k, k < n → is_Some (Connect link (attempt + k))) →
  Connect link (attempt + n) = None →
  n < rounds →
  (reconnectFrom link account attempt rounds).2 = true ∧
  actions (reconnectFrom link account attempt rounds).1
  = List.concat (replicate n [CallConnect; Sleep 60])
    ++ [CallConnect; ResetJoined; CallJoinChannels].
Proof.
  revert attempt rounds. induction n as [|n IH]; intros attempt rounds Hfail Hok Hrounds.
  - destruct rounds as [|rounds]; [lia|]. simpl. rewrite Nat.add_0_r in Hok. rewrite Hok.
    simpl. by destruct (JoinChannels link).
  - destruct rounds as [|rounds]; [lia|]. simpl.
    destruct (Hfail 0) as [err Herr]; [lia|]. rewrite Nat.add_0_r in Herr. rewrite Herr.
    destruct (IH (S attempt) rounds) as [Hret Hacts].
    + intros k Hk. replace (S attempt + k) with (attempt + S k) by lia. apply Hfail. lia.
    + by replace (S attempt + n) with (attempt + S n) by lia.
    + lia.
    + destruct (reconnectFrom link account (S attempt) rounds) as [steps returned].
      simpl in *. by rewrite Hacts.
Qed.

Lemma reconnectFrom_steps link account n attempt rounds :
  (∀ k, k < n → is_Some (Connect link (attempt + k))) →
  Connect link (attempt + n) = None →
  n < rounds →
  (reconnectFrom link account attempt rounds).1
  = List.concat
      ((λ k, [Log "info" "Reconnecting %s" [account]; CallConnect;
              Log "error" "Reconnection failed: %s. Trying again in 60 seconds"
                [default "" (Connect link k)];
              Sleep 60]) <$> seq attempt n)
    ++ [Log "info" "Reconnecting %s" [account]; CallConnect; ResetJoined; CallJoinChannels]
    ++ match JoinChannels link with
       | Some err => [Log "error" "JoinChannels() %s failed: %s" [account; err]]
       | None => []
       end.
Proof.
  revert attempt rounds. induction n as [|n IH]; intros attempt rounds Hfail Hok Hrounds.
  - destruct rounds as [|rounds]; [lia|]. simpl. rewrite Nat.add_0_r in Hok. by rewrite Hok.
  - destruct rounds as [|rounds]; [lia|]. simpl.
    destruct (Hfail 0) as [err Herr]; [lia|]. rewrite Nat.add_0_r in Herr. rewrite Herr.
    specialize (IH (S attempt) rounds). simpl.
    destruct (reconnectFrom link account (S attempt) rounds) as [steps returned].
    simpl in *. rewrite IH; [done | | | lia].
    + intros k Hk. replace (S (attempt + k)) with (attempt + S k) by lia. apply Hfail. lia.
    + by replace (S (attempt + n)) with (attempt + S n) by lia.
Qed.

(** X23. When the first [n] calls of [Connect] fail and the next one
    succeeds, [reconnectBridge] returns, and what it did is, in order: one
    [Disconnect], whose error is written to the log and changes nothing
    else; a sleep of 5 seconds; for each failed call the line
    "Reconnecting", the call, its error in the log and a sleep of 60 seconds;
    then the line "Reconnecting", the call that succeeds, the reset of the
    joined channels and one [JoinChannels], whose error is written to the
    log.  Without the lines of the log these are the calls and the sleeps
    alone. *)
Theorem reconnectBridge_success link account n rounds :
  (∀ k, k < n → is_Some (Connect link k)) →
  Connect link n = None →
  n < rounds →
  (reconnectBridge link account rounds).2 = true ∧
  (reconnectBridge link account rounds).1
  = CallDisconnect
    :: match Disconnect link with
       | Some err => [Log "error" "Disconnect() %s failed: %s" [account; err]]
       | None => []
       end
    ++ Sleep 5
    :: List.concat
         ((λ k, [Log "info" "Reconnecting %s" [account]; CallConnect;
                 Log "error" "Reconnection failed: %s. Trying again in 60 seconds"
                   [default "" (Connect link k)];
                 Sleep 60]) <$> seq 0 n)
    ++ [Log "info" "Reconnecting %s" [account]; CallConnect; ResetJoined; CallJoinChannels]
    ++ match JoinChannels link with
       | Some err => [Log "error" "JoinChannels() %s failed: %s" [account; err]]
       | None => []
       end ∧
  actions (reconnectBridge link account rounds).1
  = [CallDisconnect; Sleep 5]
    ++ List.concat (replicate n [CallConnect; Sleep 60])
    ++ [CallConnect; ResetJoined; CallJoinChannels].
Proof.
  intros Hfail Hok Hrounds. unfold reconnectBridge.
  destruct (reconnectFrom_success link account n 0 rounds) as [Hret Hacts]; [done..|].
  pose proof (reconnectFrom_steps link account n 0 rounds Hfail Hok Hrounds) as Hsteps.
  destruct (reconnectFrom link account 0 rounds) as [steps returned]. simpl in *.
  split; [done|]. split; [by rewrite Hsteps|].
  destruct (Disconnect link); simpl; by rewrite Hacts.
Qed.

(** X24. There is no limit to the retries: when every call of [Connect]
    fails, [reconnectBridge] has not returned after any number of calls, it
    has slept 60 seconds after each of them, and it has neither reset the
    joined channels nor called [JoinChannels]. *)
Theorem reconnectBridge_retries_forever link account rounds :
  (∀ k, is_Some (Connect link k)) →
  (reconnectBridge link account rounds).2 = false ∧
  actions (reconnectBridge link account rounds).1
  = [CallDisconnect; Sleep 5] ++ List.concat (replicate rounds [CallConnect; Sleep 60]).
Proof.
  intros Hfail.
  assert (∀ attempt,
    (reconnectFrom link account attempt rounds).2 = false ∧
    actions (reconnectFrom link account attempt rounds).1
    = List.concat (replicate rounds [CallConnect; Sleep 60])) as Hloop.
  { induction rounds as [|rounds IH]; intros attempt; simpl; [done|].
    destruct (Hfail attempt) as [err ->]. destruct (IH (S attempt)) as [Hret Hacts].
    destruct (reconnectFrom link account (S attempt) rounds) as [steps returned].
    simpl in *. by rewrite Hacts. }
  unfold reconnectBridge. destruct (Hloop 0) as [Hret Hacts].
  destruct (reconnectFrom link account 0 rounds) as [steps returned]. simpl in *.
  split; [done|]. destruct (Disconnect link); simpl; by rewrite Hacts.
Qed.

End ReconnectFacts.

(** ** The filter of incoming messages *)

Section FilterFacts.
Context {O X : Type} `{!config.Events} `{!regexp.Engine} `{!regexps.Matcher}
  `{!fields.Splitter} `{!fileEvents.Keys}.

#[local] Abbreviation Message := (config.Message.t (ExtraMap X)).
#[local] Abbreviation FilterWorld := (World O (ExtraMap X)).

Lemma logsOnly_refl (w : FilterWorld) : logsOnly w w.
Proof. split; [done|]. exists []. by rewrite app_nil_r. Qed.

Lemma logsOnly_log level format args (w : FilterWorld) :
  logsOnly w (mkWorld (gw w) (trace w ++ [Logf level format args])).
Proof. split; [done|]. eexists. split; [done|]. by repeat constructor. Qed.

Lemma logsOnly_compose (w1 w2 w3 : FilterWorld) :
  logsOnly w1 w2 → logsOnly w2 w3 → logsOnly w1 w3.
Proof.
  intros [Ha (l1 & Hb & Hl1)] [Hc (l2 & Hd & Hl2)]. split; [congruence|].
  exists (l1 ++ l2). split; [by rewrite Hd, Hb, app_assoc | by apply Forall_app].
Qed.

#[local] Hint Resolve logsOnly_refl : core.

Lemma ignoreText_run (text : string) (input : list string) (w : FilterWorld) :
  ∃ b w', ignoreText text input w = Normal b w' ∧ logsOnly w w' ∧
    (b = true ↔ matchesAny text input).
Proof.
  revert w. induction input as [|entry r IH]; intros w; simpl.
  - exists false, w. split; [done|]. split; [done|]. split; [done|].
    intros (e & re & Hin & _). by apply elem_of_nil in Hin.
  - destruct (decide (entry = "")) as [->|Hne].
    + rewrite bool_decide_eq_true_2 by done.
      destruct (IH w) as (b & w' & Hrun & Hq & Hb). exists b, w'.
      split; [done|]. split; [done|]. rewrite Hb. split.
      * intros (e & re & Hin & Hrest). exists e, re. split; [by right | done].
      * intros (e & re & [->|Hin]%elem_of_cons & He & Hrest); [done|]. by exists e, re.
    + rewrite bool_decide_eq_false_2 by done.
      destruct (regexp.Compile entry) as [err|re] eqn:Hcompile.
      * unfold mbind, M_bind, bind, Errorf, emit. simpl.
        destruct (IH (mkWorld (gw w) (trace w ++ [Logf "error" "incorrect regexp %s" [AStr entry]])))
          as (b & w' & Hrun & Hq & Hb).
        exists b, w'. split; [done|].
        split; [eapply logsOnly_compose; [apply logsOnly_log | done]|].
        rewrite Hb. split.
        -- intros (e & re & Hin & Hrest). exists e, re. split; [by right | done].
        -- intros (e & re & [->|Hin]%elem_of_cons & He & Hc & Hm); [congruence|].
           by exists e, re.
      * destruct (regexps.MatchString re text) eqn:Hmatch.
        -- unfold mbind, M_bind, bind, Debugf, emit. simpl. eexists true, _.
           split; [done|]. split; [apply logsOnly_log|]. split; [|done].
           intros _. exists entry, re. split; [by left | done].
        -- destruct (IH w) as (b & w' & Hrun & Hq & Hb). exists b, w'.
           split; [done|]. split; [done|]. rewrite Hb. split.
           ++ intros (e & re' & Hin & Hrest). exists e, re'. split; [by right | done].
           ++ intros (e & re' & [->|Hin]%elem_of_cons & He & Hc & Hm); [congruence|].
              by exists e, re'.
Qed.

(** X25. [ignoreText] answers true exactly when some entry of the list is
    a non-empty expression that compiles and matches the text: an empty
    entry is passed over, and so is an expression that does not compile,
    with a line in the log.  It always returns; it leaves the gateway as
    it is and adds lines of the log to the trace and nothing else, so that
    nothing goes to a bridge or to the plugin stream. *)
Theorem ignoreText_matchesAny (text : string) (input : list string) (w : FilterWorld) :
  ∃ b w', ignoreText text input w = Normal b w' ∧ logsOnly w w' ∧
    (b = true ↔ matchesAny text input).
Proof. apply ignoreText_run. Qed.

Lemma ignoreTextEmpty_run (msg : Message) (w : FilterWorld) :
  ∃ b w', ignoreTextEmpty msg w = Normal b w' ∧ logsOnly w w' ∧
    (b = true ↔ config.Message.Text msg = "" ∧
                config.Message.Event msg ≠ config.EventUserTyping ∧
                hasPayload msg = false).
Proof.
  unfold ignoreTextEmpty.
  destruct (decide (config.Message.Text msg = "")) as [Ht|Ht].
  - rewrite bool_decide_eq_false_2 by (by intros ?).
    destruct (decide (config.Message.Event msg = config.EventUserTyping)) as [He|He].
    + rewrite bool_decide_eq_true_2 by done. exists false, w.
      split; [done|]. split; [done|]. split; [done | by intros (_ & ? & _)].
    + rewrite bool_decide_eq_false_2 by done. destruct (hasPayload msg).
      * exists false, w. split; [done|]. split; [done|]. split; [done | by intros (_ & _ & ?)].
      * unfold mbind, M_bind, bind, Debugf, emit. simpl. eexists true, _.
        split; [done|]. split; [apply logsOnly_log | done].
  - rewrite bool_decide_eq_true_2 by done. exists false, w.
    split; [done|]. split; [done|]. split; [done | by intros (? & _)].
Qed.

(** X26. [ignoreMessage] always returns, leaves the gateway as it is and
    adds lines of the log to the trace and nothing else, and answers true
    exactly when the gateway has no bridge for the message's
    account, or the text is empty while the event is not a typing event and
    the message has no payload, or the username matches an expression of
    IgnoreNicks, or the text matches one of IgnoreMessages. *)
Theorem ignoreMessage_cases (msg : Message) (w : FilterWorld) :
  ∃ b w', ignoreMessage msg w = Normal b w' ∧ logsOnly w w' ∧
    (b = true ↔
     match Gateway.Bridges (gw w) !! config.Message.Account msg with
     | None => True
     | Some br =>
         (config.Message.Text msg = "" ∧
          config.Message.Event msg ≠ config.EventUserTyping ∧
          hasPayload msg = false) ∨
         matchesAny (config.Message.Username msg)
           (fields.Fields (bridge.Bridge.GetString br "IgnoreNicks")) ∨
         matchesAny (config.Message.Text msg)
           (fields.Fields (bridge.Bridge.GetString br "IgnoreMessages"))
     end).
Proof.
  unfold ignoreMessage, mbind, M_bind, bind at 1, getGw.
  destruct (Gateway.Bridges (gw w) !! config.Message.Account msg) as [br|].
  - unfold bind at 1.
    destruct (ignoreTextEmpty_run msg w) as ([] & w1 & -> & Hq1 & Hb1).
    { exists true, w1. split; [done|]. split; [done|]. split; [|done].
      intros _. left. by apply Hb1. }
    unfold bind at 1.
    destruct (ignoreText_run (config.Message.Username msg)
                (fields.Fields (bridge.Bridge.GetString br "IgnoreNicks")) w1)
      as ([] & w2 & -> & Hq2 & Hb2).
    { exists true, w2. split; [done|]. split; [by eapply logsOnly_compose|]. split; [|done].
      intros _. right. left. by apply Hb2. }
    unfold bind at 1.
    destruct (ignoreText_run (config.Message.Text msg)
                (fields.Fields (bridge.Bridge.GetString br "IgnoreMessages")) w2)
      as ([] & w3 & -> & Hq3 & Hb3).
    { exists true, w3. split; [done|].
      split; [eapply logsOnly_compose; [by eapply logsOnly_compose | done]|]. split; [|done].
      intros _. right. right. by apply Hb3. }
    exists false, w3. split; [done|].
    split; [eapply logsOnly_compose; [by eapply logsOnly_compose | done]|]. split; [done|].
    intros [Hx|[Hx|Hx]].
    + by apply Hb1 in Hx.
    + by apply Hb2 in Hx.
    + by apply Hb3 in Hx.
  - exists true, w. split; [done|]. split; [done|]. done.
Qed.

End FilterFacts.

(** ** The rewrite of an incoming message *)

Section ModifyMessageFacts.
Context {O E : Type} `{!config.Events} `{!regexp.Engine} `{!emojilib.Table}
  `{!tengo.Engine} `{!Handlers O E}.

#[local] Abbreviation Message := (config.Message.t E).

Lemma modifyMessageTengo_Account (filename : string) (msg : Message) :
  config.Message.Account (modifyMessageTengo filename msg).2 = config.Message.Account msg.
Proof.
  unfold modifyMessageTengo. destruct (bool_decide (filename = "")); [done|].
  destruct (tengo.ReadFile filename) as [err|res]; [done|].
  destruct (tengo.Compile _ _ _ _ _) as [err|c]; [done|].
  by destruct (tengo.Run c) as [err|[msgText msgUsername]].
Qed.

(** The hook and its line in the log. *)
Lemma modifyMessage_hook (msg : Message) (w : World O E) :
  let hook := modifyMessageTengo (Gateway.TengoModifyMessage (gw w)) msg in
  modifyMessage msg w
  = afterHook hook.2
      (mkWorld (gw w)
         (trace w ++ match hook.1 with
                     | Some e => [Logf "error" "TengoModifyMessage failed: %s" [AStr e]]
                     | None => []
                     end)).
Proof.
  unfold modifyMessage, mbind, M_bind, bind, getGw.
  destruct (modifyMessageTengo (Gateway.TengoModifyMessage (gw w)) msg) as [[e|] m]; simpl.
  - reflexivity.
  - rewrite app_nil_r. by destruct w.
Qed.

Lemma modifyMessage_hook_gw (msg : Message) (w : World O E) :
  ∃ w1, gw w1 = gw w ∧
    modifyMessage msg w
    = afterHook (modifyMessageTengo (Gateway.TengoModifyMessage (gw w)) msg).2 w1.
Proof. eexists. split; [|apply modifyMessage_hook]. reflexivity. Qed.

(** X27. A message that [modifyMessage] has rewritten names this gateway,
    unless its protocol is "api": it passes [validGatewayDest] of the
    gateway, whatever gateway it named before.  The handler of ExtractNicks
    is taken to leave the gateway's name alone. *)
Theorem modifyMessage_stamps_gateway (msg : Message) (w : World O E) msg' w' :
  (∀ m w0 m' w1, handleExtractNicks m w0 = Normal m' w1 →
     Gateway.Name (gw w1) = Gateway.Name (gw w0)) →
  modifyMessage msg w = Normal msg' w' →
  config.Message.Protocol msg' ≠ apiProtocol →
  validGatewayDest (gw w') msg' = true.
Proof.
  intros Hhandler Hrun Hproto.
  destruct (modifyMessage_hook_gw msg w) as (w1 & Hgw & Hafter).
  rewrite Hafter in Hrun. clear Hafter. unfold afterHook in Hrun.
  apply bind_Normal in Hrun as (g & w2 & [= <- <-] & Hrun).
  cbn [config.Message.with_Text config.Message.Account] in Hrun.
  destruct (Gateway.Bridges (gw w1) !! _) as [br|]; [|done].
  apply bind_Normal in Hrun as (text & w2 & Hloop & Hrun).
  apply replaceLoop_trace in Hloop as (Hgw2 & _).
  apply bind_Normal in Hrun as (m & w3 & Hext & [= <- <-]).
  apply Hhandler in Hext. unfold validGatewayDest. apply bool_decide_eq_true.
  case_bool_decide as Hapi.
  - simpl. congruence.
  - destruct Hproto. by destruct (decide (config.Message.Protocol m = apiProtocol)).
Qed.

(** X28. [modifyMessage] on a message whose account has no bridge in the
    gateway panics at line 356, where [GetStringSlice2D] is called on the
    nil bridge and reads through it, after the hook has run: the gateway is
    as it was, and the trace has grown by the line of the log of a hook that
    failed, and by nothing when the hook did not fail or is not
    configured. *)
Theorem modifyMessage_unknown_account (msg : Message) (w : World O E) :
  Gateway.Bridges (gw w) !! config.Message.Account msg = None →
  modifyMessage msg w
  = Panic (mkWorld (gw w)
      (trace w ++ match (modifyMessageTengo (Gateway.TengoModifyMessage (gw w)) msg).1 with
                  | Some e => [Logf "error" "TengoModifyMessage failed: %s" [AStr e]]
                  | None => []
                  end)).
Proof.
  intros Hnone. rewrite modifyMessage_hook. cbv zeta.
  unfold afterHook, mbind, M_bind, bind, getGw.
  cbn [config.Message.with_Text config.Message.Account gw].
  by rewrite modifyMessageTengo_Account, Hnone.
Qed.

End ModifyMessageFacts.

(** ** The cache, once more *)

Section CanonicalFacts.
Context {O E : Type}.

(** X29. The type assertion of line 73 never meets a nil value:
    [FindCanonicalMsgID] returns a string for every cache, protocol and
    ID, because [Peek] finds every key that [Keys] lists. *)
Theorem FindCanonicalMsgID_never_panics (g : Gateway.t O E) (protocol mID : string) :
  is_Some (FindCanonicalMsgID g protocol mID).
Proof.
  unfold FindCanonicalMsgID. destruct (lru.Contains _ _); [by eexists|].
  by apply canonicalLoop_is_Some.
Qed.

End CanonicalFacts.

(** * The sample deployment, run *)

#[local] Existing Instance sample.caseMap.
#[local] Existing Instance sample.events.
#[local] Existing Instance sample.words.
#[local] Existing Instance sample.noEmoji.
#[local] Existing Instance sample.noScripts.
#[local] Existing Instance sample.handlers.

(** Closes a goal between closed terms by evaluation. *)
Ltac run := vm_compute; reflexivity.

(** Divides a conjunction into its conjuncts, and nothing else. *)
Ltac conjuncts := repeat match goal with |- _ ∧ _ => split end.

Lemma sample_world1_built :
  mapChannelConfigs (sample.calls sample.config1) (sample.fresh sample.config1)
  = Normal tt sample.world1.
Proof. run. Qed.

Lemma sample_world2_built :
  mapChannelConfigs (sample.calls sample.config2) (sample.fresh sample.config2)
  = Normal tt sample.world2.
Proof. run. Qed.

Lemma sample_rangesOver g : rangesOver g (sample.order g).
Proof. unfold rangesOver. conjuncts; reflexivity. Qed.

Lemma sample_gw1_keyedByID : keyedByID (Gateway.Channels sample.gw1).
Proof.
  apply (mapChannelConfigs_keyedByID (sample.calls sample.config1)
           (sample.fresh sample.config1)); [|exact sample_world1_built].
  intros key ch Hin. simpl in Hin. rewrite lookup_empty in Hin. discriminate Hin.
Qed.

(** C1 on [gw1]: "#Chat" of irc.a is listed under in, "#chat" under out. *)
Lemma mapChannelConfig_merges_to_inout_witness :
  ∃ ch, Gateway.Channels sample.gw1 !! "#chatirc.a" = Some ch ∧
        config.ChannelInfo.Direction ch = "inout".
Proof.
  destruct (mapChannelConfig_merges_to_inout (sample.calls sample.config1)
              (sample.fresh sample.config1) sample.world1) as [Hmerge _].
  - run.
  - apply (Hmerge (config.Gateway.In sample.config1) "in" (sample.entry "irc.a" "#Chat" false)
                  (config.Gateway.Out sample.config1) "out" (sample.entry "irc.a" "#chat" false)).
    + apply elem_of_cons. left. reflexivity.
    + apply elem_of_cons. right. apply elem_of_cons. left. reflexivity.
    + apply elem_of_cons. right. apply elem_of_cons. left. reflexivity.
    + apply elem_of_cons. left. reflexivity.
    + run.
    + discriminate.
Defined.

(** C2 on [gw1]: "#news" of irc.a is out only. *)
Lemma getDestChannel_out_only_source_witness :
  getDestChannel (sample.order sample.gw1) sample.gw1
    (sample.message "irc.a" "#news" "gw1") sample.slack = [].
Proof.
  apply (getDestChannel_out_only_source _ _ _ _ "#newsirc.a"
           (sample.descriptor sample.gw1 "#newsirc.a")).
  - apply sample_rangesOver.
  - run.
  - run.
  - run.
  - run.
Defined.

(** C2 as stated fails: the descriptor of discord.x with the empty channel
    name is out only and has the ID of the join/leave message's channel, and
    the message is resolved to the two IRC channels. *)
Lemma getDestChannel_join_leave_from_out_only :
  let d := sample.descriptor sample.gw1 "discord.x" in
  rangesOver sample.gw1 (sample.order sample.gw1) ∧
  Gateway.Channels sample.gw1 !! "discord.x" = Some d ∧
  config.ChannelInfo.ID d = getChannelID sample.joinLeave ∧
  strings.Contains (config.ChannelInfo.Direction d) "in" = false ∧
  config.ChannelInfo.ID <$>
    getDestChannel (sample.order sample.gw1) sample.gw1 sample.joinLeave sample.irc
  = ["#chatirc.a"; "#newsirc.a"].
Proof.
  split; [apply sample_rangesOver|]. conjuncts; run.
Qed.

(** C3 on [gw2]: "#x" of irc.a mirrors "#x" of slack.b. *)
Lemma getDestChannel_same_channel_witness :
  let msg := sample.message "slack.b" "#x" "gw2" in
  let d := sample.descriptor sample.gw2 "#xirc.a" in
  config.Message.Channel msg = config.ChannelInfo.Name d ∧
  config.Message.Account msg ≠ bridge.Bridge.Account sample.irc.
Proof.
  intros msg d.
  apply (getDestChannel_same_channel (sample.order sample.gw2) sample.gw2 msg sample.irc
           "#xirc.a" d).
  - apply sample_rangesOver.
  - run.
  - run.
  - run.
  - assert (getDestChannel (sample.order sample.gw2) sample.gw2 msg sample.irc
            = [sample.descriptor sample.gw2 "#xslack.b"; d]) as ->
      by run.
    apply elem_of_cons. right. apply elem_of_cons. left. reflexivity.
Defined.

(** C3 as stated fails: the mirrored descriptor of irc.a is in the result
    for the destination irc.a, whose account is the descriptor's own. *)
Lemma getDestChannel_same_channel_own_account :
  let msg := sample.message "slack.b" "#x" "gw2" in
  let d := sample.descriptor sample.gw2 "#xirc.a" in
  rangesOver sample.gw2 (sample.order sample.gw2) ∧
  isBridgeJoinLeave msg = false ∧
  Gateway.Channels sample.gw2 !! "#xirc.a" = Some d ∧
  config.ChannelInfo.SameChannel d !! config.Message.Gateway msg = Some true ∧
  d ∈ getDestChannel (sample.order sample.gw2) sample.gw2 msg sample.irc ∧
  ¬ (config.ChannelInfo.Name d = config.Message.Channel msg ∧
     config.ChannelInfo.Account d ≠ bridge.Bridge.Account sample.irc).
Proof.
  intros msg d. split; [apply sample_rangesOver|].
  split; [run|]. split; [run|].
  split; [run|]. split.
  - assert (getDestChannel (sample.order sample.gw2) sample.gw2 msg sample.irc
            = [sample.descriptor sample.gw2 "#xslack.b"; d]) as ->
      by run.
    apply elem_of_cons. right. apply elem_of_cons. left. reflexivity.
  - intros [_ Hne]. apply Hne. run.
Qed.

(** C4 on [gw1]: "general" of slack.b goes to "#news" of irc.a. *)
Lemma getDestChannel_other_channel_witness :
  let msg := sample.message "slack.b" "general" "gw1" in
  let d := sample.descriptor sample.gw1 "#newsirc.a" in
  strings.Contains (config.ChannelInfo.Direction d) "out" = true ∧
  config.ChannelInfo.Account d = bridge.Bridge.Account sample.irc ∧
  validGatewayDest sample.gw1 msg = true.
Proof.
  intros msg d.
  destruct (getDestChannel_other_channel (sample.order sample.gw1) sample.gw1 msg sample.irc
              "#newsirc.a" d) as [_ [Hin _]].
  - apply sample_rangesOver.
  - run.
  - run.
  - run.
  - apply Hin.
    assert (getDestChannel (sample.order sample.gw1) sample.gw1 msg sample.irc
            = [sample.descriptor sample.gw1 "#chatirc.a"; d]) as ->
      by run.
    apply elem_of_cons. right. apply elem_of_cons. left. reflexivity.
Defined.

(** C4 as stated fails: with no gateway named in the message, "#news" of
    irc.a, an out channel of the destination's account, is not in the
    result. *)
Lemma getDestChannel_gateway_unset :
  let msg := sample.message "slack.b" "general" "" in
  let d := sample.descriptor sample.gw1 "#newsirc.a" in
  rangesOver sample.gw1 (sample.order sample.gw1) ∧
  isBridgeJoinLeave msg = false ∧
  Gateway.Channels sample.gw1 !! "#newsirc.a" = Some d ∧
  default false (config.ChannelInfo.SameChannel d !! config.Message.Gateway msg) = false ∧
  strings.Contains (config.ChannelInfo.Direction d) "out" = true ∧
  config.ChannelInfo.Account d = bridge.Bridge.Account sample.irc ∧
  config.Message.Gateway msg = "" ∧
  d ∉ getDestChannel (sample.order sample.gw1) sample.gw1 msg sample.irc.
Proof.
  intros msg d. split; [apply sample_rangesOver|].
  repeat (split; [run|]).
  assert (getDestChannel (sample.order sample.gw1) sample.gw1 msg sample.irc = []) as ->
    by run.
  apply not_elem_of_nil.
Qed.

(** C10 on [gw1]: "random" of slack.b is not configured. *)
Lemma getDestChannel_unconfigured_source_witness :
  getDestChannel (sample.order sample.gw1) sample.gw1
    (sample.message "slack.b" "random" "gw1") sample.irc = [].
Proof.
  apply getDestChannel_unconfigured_source.
  - apply sample_gw1_keyedByID.
  - run.
  - intros key c Hc Hid.
    rewrite <- (sample_gw1_keyedByID _ _ Hc), Hid in Hc.
    vm_compute in Hc. discriminate Hc.
Defined.

(** C5 on [gw1]: a text message of "general" is not sent back to it. *)
Lemma SendMessage_self_echo_witness :
  SendMessage (sample.message "slack.b" "general" "gw1") sample.slack
    (sample.descriptor sample.gw1 "generalslack.b") "" sample.world1
  = Normal (("", None), sample.message "slack.b" "general" "gw1") sample.world1.
Proof.
  apply (proj1 (SendMessage_self_echo _ _ _ _ _)).
  - discriminate.
  - run.
Defined.

(** C6 on [gw1]: the reply to "m1" goes to "#news" as a reply to "77". *)
Lemma SendMessage_ParentID_witness :
  config.Message.ParentID <$>
    outgoing (trace (finalWorld (SendMessage sample.reply sample.irc
      (sample.descriptor sample.gw1 "#newsirc.a") "m1" sample.world1)))
  = ["77"].
Proof.
  destruct (SendMessage sample.reply sample.irc
              (sample.descriptor sample.gw1 "#newsirc.a") "m1" sample.world1)
    as [[r rmsg'] w'| w' | code w'] eqn:Hrun;
    [| vm_compute in Hrun; discriminate Hrun | vm_compute in Hrun; discriminate Hrun].
  assert (config.Message.Event sample.reply = config.EventAvatarDownload ↔
          config.ChannelInfo.ID (sample.descriptor sample.gw1 "#newsirc.a")
          = getChannelID sample.reply) as Hgo
    by (split; intros Hx; vm_compute in Hx; discriminate Hx).
  destruct (SendMessage_ParentID _ _ _ _ _ _ _ _ Hgo Hrun) as (m & Hsent & Hfound & _).
  assert (outgoing (trace sample.world1) = []) as Hnone by run.
  assert (rmsg' = config.Message.with_Protocol "slack"
            (config.Message.with_Avatar "https://example.org/bob.png" sample.reply)) as ->.
  { vm_compute in Hrun. injection Hrun as _ <- _. reflexivity. }
  cbn [finalWorld]. rewrite Hsent, Hnone. cbn [app fmap list_fmap]. f_equal.
  etrans; [apply Hfound; vm_compute; discriminate | run].
Defined.

(** C6 as stated fails: the lookup for the reply to "p9" finds nothing and
    the original has a parent, yet the copy handed to [Send] carries the
    canonical parent "p9", not the marker. *)
Lemma SendMessage_ParentID_falls_back_to_canonical :
  destMsgID (Gateway.Messages sample.gw1) "slack p9" sample.irc
    (sample.descriptor sample.gw1 "#newsirc.a") = "" ∧
  config.Message.ParentID sample.lostReply = "p9" ∧
  config.Message.ParentID <$>
    outgoing (trace (finalWorld (SendMessage sample.lostReply sample.irc
      (sample.descriptor sample.gw1 "#newsirc.a") "p9" sample.world1)))
  = ["p9"].
Proof. conjuncts; run. Qed.

(** C7 on [gw1]: the IRC message "77" leads back to the entry "slack m1",
    from whose key no "irc " is removed. *)
Lemma FindCanonicalMsgID_cases_witness :
  FindCanonicalMsgID sample.gw1 "irc" "77" = Some "slack m1".
Proof.
  destruct (FindCanonicalMsgID_cases sample.gw1 "irc" "77") as (_ & Hlisted & _).
  apply (Hlisted eq_refl [] "slack m1" [BrMsgID.mk sample.irc "irc 77" "#newsirc.a"] []).
  - run.
  - apply not_elem_of_nil.
  - intros key v Hin. destruct (not_elem_of_nil _ Hin).
  - apply elem_of_cons. left. reflexivity.
Defined.

(** C7 as stated fails: "irc msg42" is a key of the cache, and
    [FindCanonicalMsgID("irc", "irc msg42")] is the empty string, not
    "msg42"; it is the raw ID "msg42" that gives "msg42". *)
Lemma FindCanonicalMsgID_composite_argument :
  lru.Contains (Gateway.Messages sample.gw3) "irc msg42" = true ∧
  FindCanonicalMsgID sample.gw3 "irc" "irc msg42" = Some "" ∧
  FindCanonicalMsgID sample.gw3 "irc" "msg42" = Some "msg42".
Proof. conjuncts; run. Qed.

(** C8 with no script file to read: the message comes back as it was. *)
Lemma modifyMessage_hook_failure_witness :
  modifyMessageTengo "hook.tengo" (sample.message "slack.b" "general" "gw1")
  = (Some "open hook.tengo: no such file or directory",
     sample.message "slack.b" "general" "gw1").
Proof.
  apply (modifyMessage_hook_failure "hook.tengo" (sample.message "slack.b" "general" "gw1")
           "open hook.tengo: no such file or directory").
  apply ReadFails; [discriminate | reflexivity].
Defined.

(** C9 on [gw1]: the text and the ID of the original after the dispatch to
    "#news". *)
Lemma SendMessage_original_witness :
  (λ r, (config.Message.Text r.2, config.Message.ID r.2)) <$>
    returned (SendMessage sample.reply sample.irc
      (sample.descriptor sample.gw1 "#newsirc.a") "m1" sample.world1)
  = Some ("hello", "m2").
Proof.
  destruct (SendMessage sample.reply sample.irc
              (sample.descriptor sample.gw1 "#newsirc.a") "m1" sample.world1)
    as [[r rmsg'] w'| w' | code w'] eqn:Hrun;
    [| vm_compute in Hrun; discriminate Hrun | vm_compute in Hrun; discriminate Hrun].
  destruct (SendMessage_original _ _ _ _ _ _ _ _ Hrun) as ((Htext & _ & _ & _ & _ & _ & Hid & _) & _).
  simpl. rewrite Htext, Hid. reflexivity.
Defined.

(** C9 as stated fails: the original goes in with no avatar and no
    protocol, and comes out with the destination's icon URL and the
    protocol of its bridge. *)
Lemma SendMessage_writes_original :
  config.Message.Avatar sample.reply = "" ∧
  config.Message.Protocol sample.reply = "" ∧
  (λ r, (config.Message.Avatar r.2, config.Message.Protocol r.2)) <$>
    returned (SendMessage sample.reply sample.irc
      (sample.descriptor sample.gw1 "#newsirc.a") "m1" sample.world1)
  = Some ("https://example.org/bob.png", "slack").
Proof. conjuncts; run. Qed.

(** * The further properties on the sample deployment *)

(** Divides the membership [H] in a list written out into its cases. *)
Ltac members H :=
  repeat (apply elem_of_cons in H as [H|H]);
  try (apply elem_of_nil in H; destruct H).

Lemma sample_fresh_wellKeyed cfg : wellKeyed (Gateway.Channels (gw (sample.fresh cfg))).
Proof. intros key ch Hin. simpl in Hin. rewrite lookup_empty in Hin. discriminate Hin. Qed.

Lemma sample_backwards_rangesOver g : rangesOver g (sampleMore.backwards g).
Proof.
  unfold rangesOver, sampleMore.backwards. cbn [atJoinLeave atSource atDest].
  conjuncts; [apply reverse_Permutation | reflexivity | apply reverse_Permutation].
Qed.

(** X1 on [gw1]: the descriptor of "#news" of irc.a. *)
Lemma mapChannelConfigs_wellKeyed_witness :
  let d := sample.descriptor sample.gw1 "#newsirc.a" in
  config.ChannelInfo.ID d = "#newsirc.a" ∧
  "#newsirc.a" = config.ChannelInfo.Name d +:+ config.ChannelInfo.Account d.
Proof.
  intros d.
  apply (mapChannelConfigs_wellKeyed (sample.calls sample.config1)
           (sample.fresh sample.config1) sample.world1
           (sample_fresh_wellKeyed sample.config1) sample_world1_built "#newsirc.a" d).
  run.
Defined.


(** X3 on a list with "#x" of irc.a twice: the flag is the second entry's. *)
Lemma mapChannelConfig_SameChannel_last_entry_witness :
  let br := sample.entry "irc.a" "#X" false in
  let w' := finalWorld (mapChannelConfig sampleMore.twice "inout" (sample.fresh sample.config2)) in
  ∃ ch, Gateway.Channels (gw w') !! entryID br = Some ch ∧
        config.ChannelInfo.SameChannel ch !! Gateway.Name (gw w')
        = Some (config.Bridge.SameChannel br).
Proof.
  intros br w'.
  apply (mapChannelConfig_SameChannel_last_entry [sample.entry "irc.a" "#x" true] br
           [sample.entry "slack.b" "#x" true] "inout" (sample.fresh sample.config2) w').
  - intros b Hb. members Hb. subst b. intros Hx. vm_compute in Hx. discriminate Hx.
  - run.
Defined.

(** X4 on [gw1]: "general" of slack.b is listed under in only. *)
Lemma mapChannelConfigs_direction_kept_witness :
  ∃ ch, Gateway.Channels sample.gw1 !! "generalslack.b" = Some ch ∧
        config.ChannelInfo.Direction ch = "in".
Proof.
  apply (mapChannelConfigs_direction_kept (sample.calls sample.config1) "generalslack.b" "in"
           (sample.fresh sample.config1) sample.world1).
  - reflexivity.
  - intros cfg d' br Hc Hb Hid.
    unfold sample.calls, sample.config1 in Hc.
    cbn [config.Gateway.In config.Gateway.Out config.Gateway.InOut] in Hc.
    members Hc; injection Hc as -> ->; [reflexivity|..];
      members Hb; subst br; vm_compute in Hid; discriminate Hid.
  - exists (config.Gateway.In sample.config1), "in", (sample.entry "slack.b" "general" false).
    split; [apply elem_of_cons; left; reflexivity|].
    split; [apply elem_of_cons; left; reflexivity|run].
  - exact sample_world1_built.
Defined.

(** X5 on [gw1], when the channels of [config2] are added to its map: the
    descriptor of "#news" of irc.a is as it was. *)
Lemma mapChannelConfigs_frame_witness :
  let w' := finalWorld (mapChannelConfigs (sample.calls sample.config2) sample.world1) in
  Gateway.Channels (gw w') !! "#newsirc.a" = Gateway.Channels (gw sample.world1) !! "#newsirc.a".
Proof.
  intros w'.
  destruct (mapChannelConfigs_frame (sample.calls sample.config2) sample.world1 w')
    as [_ Hfree]; [run|].
  apply Hfree. intros cfg d br Hc Hb Hid.
  unfold sample.calls, sample.config2 in Hc.
  cbn [config.Gateway.In config.Gateway.Out config.Gateway.InOut] in Hc.
  members Hc; injection Hc as -> ->; members Hb; subst br; vm_compute in Hid;
    discriminate Hid.
Defined.

(** X6 on [gw1], visited forwards and backwards. *)
Lemma getDestChannel_order_independent_witness :
  let msg := sample.message "slack.b" "general" "gw1" in
  getDestChannel (sample.order sample.gw1) sample.gw1 msg sample.irc
  ≡ₚ getDestChannel (sampleMore.backwards sample.gw1) sample.gw1 msg sample.irc.
Proof.
  intros msg.
  apply (getDestChannel_order_independent (sample.order sample.gw1)
           (sampleMore.backwards sample.gw1) sample.gw1 msg sample.irc).
  - apply sample_rangesOver.
  - apply sample_backwards_rangesOver.
Defined.

(** X7 on [gw1]. *)
Lemma getDestChannel_NoDup_witness :
  NoDup (getDestChannel (sample.order sample.gw1) sample.gw1
           (sample.message "slack.b" "general" "gw1") sample.irc).
Proof.
  apply (getDestChannel_NoDup (sample.order sample.gw1) sample.gw1
           (sample.message "slack.b" "general" "gw1") sample.irc).
  - exact sample_gw1_keyedByID.
  - apply sample_rangesOver.
Defined.

(** X8 on [gw1]: the join/leave of discord.x reaches "#news" of irc.a. *)
Lemma getDestChannel_bridge_join_leave_witness :
  sample.descriptor sample.gw1 "#newsirc.a"
  ∈ getDestChannel (sample.order sample.gw1) sample.gw1 sample.joinLeave sample.irc.
Proof.
  apply (getDestChannel_bridge_join_leave (sample.order sample.gw1) sample.gw1
           sample.joinLeave sample.irc (sample.descriptor sample.gw1 "#newsirc.a")).
  - apply sample_rangesOver.
  - run.
  - split; [exists "#newsirc.a"; run|]. conjuncts; run.
Defined.

(** X9 on [gw1]: the cache has no entry for the message "m9" of Slack, and
    the entry of "m1" has no identity on Discord. *)
Lemma getDestMsgID_not_found_witness :
  let channel := sample.descriptor sample.gw1 "#newsirc.a" in
  getDestMsgID "slack m9" sample.irc channel sample.world1 = Normal "" sample.world1 ∧
  returned (getDestMsgID "slack m1" sample.discord
              (sample.descriptor sample.gw1 "discord.x") sample.world1) = Some "".
Proof.
  intros channel. split.
  - apply (getDestMsgID_not_found "slack m9" sample.irc channel sample.world1). run.
  - apply (getDestMsgID_not_found "slack m1" sample.discord
             (sample.descriptor sample.gw1 "discord.x") sample.world1) with [sampleMore.onIRC].
    + run.
    + intros id Hid. members Hid. subst id. run.
Defined.

(** X10 on [gw1]: the message "m1" of Slack is "77" on "#news" of irc.a. *)
Lemma getDestMsgID_found_witness :
  returned (getDestMsgID "slack m1" sample.irc (sample.descriptor sample.gw1 "#newsirc.a")
              sample.world1) = Some "77".
Proof.
  apply (getDestMsgID_found "slack m1" sample.irc (sample.descriptor sample.gw1 "#newsirc.a")
           sample.world1 [] sampleMore.onIRC [] "77").
  - run.
  - intros i Hi. members Hi.
  - run.
  - run.
Defined.

(** X11 on [gw1] with an entry of "msg42" after that of "m1": the
    lookup of "m1" makes it the newest. *)
Lemma getDestMsgID_recency_witness :
  let w := mkWorld (Gateway.with_Messages (sample.cache ++ [("irc msg42", [])]) sample.gw1) [] in
  ∃ a w', getDestMsgID "slack m1" sample.irc (sample.descriptor sample.gw1 "#newsirc.a") w
          = Normal a w' ∧
    lru.Keys (Gateway.Messages (gw w'))
    = filter (λ key, key ≠ "slack m1") (lru.Keys (Gateway.Messages (gw w))) ++ ["slack m1"] ∧
    (∀ key, lru.Peek (Gateway.Messages (gw w')) key
            = lru.Peek (Gateway.Messages (gw w)) key) ∧
    Gateway.Channels (gw w') = Gateway.Channels (gw w) ∧
    Gateway.Bridges (gw w') = Gateway.Bridges (gw w) ∧
    Gateway.Name (gw w') = Gateway.Name (gw w) ∧
    trace w' = trace w.
Proof.
  intros w.
  apply (getDestMsgID_recency "slack m1" sample.irc (sample.descriptor sample.gw1 "#newsirc.a")
           w [sampleMore.onIRC]).
  run.
Defined.

(** X12 on [gw1]: "77" of IRC leads back to the key of "m1". *)
Lemma FindCanonicalMsgID_of_getDestMsgID_witness :
  destMsgID (Gateway.Messages sample.gw1) "slack m1" sample.irc
    (sample.descriptor sample.gw1 "#newsirc.a") = "77" ∧
  FindCanonicalMsgID sample.gw1 "irc" "77" = Some "slack m1".
Proof.
  destruct (FindCanonicalMsgID_of_getDestMsgID sample.gw1 sample.irc
              (sample.descriptor sample.gw1 "#newsirc.a")
              [] "slack m1" [] sampleMore.onIRC [] [] "77") as (Hraw & Hcanon & _).
  - run.
  - intros Hx. members Hx.
  - intros i Hi. members Hi.
  - run.
  - run.
  - intros k v Hx. members Hx.
  - run.
  - split; [exact Hraw|]. etrans; [exact Hcanon|]. run.
Defined.

(** X13 on [gw1]: a message of xmpp.z, an account without a bridge. *)
Lemma SendMessage_unknown_account_witness :
  ∃ w', SendMessage sampleMore.stranger sample.irc
          (sample.descriptor sample.gw1 "#newsirc.a") "" sample.world1 = Panic w' ∧
    gw w' = gw sample.world1 ∧
    outgoing (trace w') = outgoing (trace sample.world1) ∧
    relayed (trace w') = relayed (trace sample.world1).
Proof.
  apply (SendMessage_unknown_account sampleMore.stranger sample.irc
           (sample.descriptor sample.gw1 "#newsirc.a") "" sample.world1).
  - split; intros Hx; vm_compute in Hx; discriminate Hx.
  - run.
Defined.

(** X14 on [gw1] with a pair of ReplaceNicks for Slack. *)
Lemma SendMessage_returns_Send_witness :
  ∃ m rmsg' w',
    SendMessage sample.reply sample.irc (sample.descriptor sample.gw1 "#newsirc.a") "m1"
      sampleMore.renamed
    = Normal (bridge.Bridge.Send sample.irc m, rmsg') w' ∧
    outgoing (trace w') = outgoing (trace sampleMore.renamed) ++ [m].
Proof.
  apply (SendMessage_returns_Send sample.reply sample.irc
           (sample.descriptor sample.gw1 "#newsirc.a") "m1" sampleMore.renamed
           sampleMore.renaming).
  - split; intros Hx; vm_compute in Hx; discriminate Hx.
  - run.
  - intros outer Hx.
    change (bridge.Bridge.GetStringSlice2D sampleMore.renaming "ReplaceNicks")
      with [["bob"; "rob"]] in Hx.
    members Hx. subst outer. simpl. lia.
Defined.

(** X15 on [gw1]: the copy of the reply that goes to "#news" of irc.a. *)
Lemma SendMessage_outgoing_copy_witness :
  let channel := sample.descriptor sample.gw1 "#newsirc.a" in
  let rmsg' := sampleMore.dispatched.2 in
  let w' := finalWorld sampleMore.dispatch in
  ∃ m, outgoing (trace w') = outgoing (trace sample.world1) ++ [m] ∧
    config.Message.Channel m =
      (if bool_decide (bridge.Bridge.Protocol sample.irc = apiProtocol)
       then config.Message.Channel sample.reply else config.ChannelInfo.Name channel) ∧
    config.Message.ID m =
      destMsgID (Gateway.Messages (gw sample.world1))
        (config.Message.Protocol rmsg' +:+ " " +:+ config.Message.ID sample.reply)
        sample.irc channel ∧
    config.Message.Avatar m = config.Message.Avatar rmsg' ∧
    config.Message.Text m = config.Message.Text sample.reply ∧
    config.Message.Account m = config.Message.Account sample.reply ∧
    config.Message.Event m = config.Message.Event sample.reply ∧
    config.Message.Protocol m = config.Message.Protocol sample.reply ∧
    config.Message.Gateway m = config.Message.Gateway sample.reply ∧
    config.Message.Extra m = config.Message.Extra sample.reply.
Proof.
  intros channel rmsg' w'.
  apply (SendMessage_outgoing_copy sample.reply sample.irc channel "m1" sample.world1
           sampleMore.dispatched.1 rmsg' w').
  - split; intros Hx; vm_compute in Hx; discriminate Hx.
  - run.
Defined.

(** X16 on [gw1]: the reply sent to the Mattermost plugin is on its
    stream. *)
Lemma SendMessage_plugin_relay_witness :
  let w' := finalWorld sampleMore.toPlugin in
  ∃ m, outgoing (trace w') = outgoing (trace sample.world1) ++ [m] ∧
    (bridge.Bridge.Account sampleMore.plugin = "mattermost.plugin" →
     relayed (trace w') = relayed (trace sample.world1) ++ [m]) ∧
    (bridge.Bridge.Account sampleMore.plugin ≠ "mattermost.plugin" →
     relayed (trace w') = relayed (trace sample.world1)).
Proof.
  intros w'.
  apply (SendMessage_plugin_relay sample.reply sampleMore.plugin sampleMore.town "m1"
           sample.world1 (default ("", None) (fst <$> returned sampleMore.toPlugin))
           (default sample.reply (snd <$> returned sampleMore.toPlugin)) w').
  - split; intros Hx; vm_compute in Hx; discriminate Hx.
  - run.
Defined.

(** X17 on [gw1]: the dispatch of the reply leaves the channel map. *)
Lemma SendMessage_gateway_frame_witness :
  Gateway.Channels (gw (finalWorld sampleMore.dispatch)) = Gateway.Channels (gw sample.world1).
Proof.
  apply (SendMessage_gateway_frame sample.reply sample.irc
           (sample.descriptor sample.gw1 "#newsirc.a") "m1" sample.world1
           sampleMore.dispatched (finalWorld sampleMore.dispatch)).
  run.
Defined.

(** X18 on [gw1]: the name "al-ice_99" of Slack goes to an IRC with
    StripNick as "alice99". *)
Lemma modifyUsername_StripNick_witness :
  let out := modifyUsername sampleMore.fromAlice sampleMore.stripping sample.world1 in
  let msg' := (default ("", sampleMore.fromAlice) (returned out)).2 in
  config.Message.Username msg' = "alice99" ∧
  list_ascii_of_string (config.Message.Username msg')
  = List.filter isAlnum (list_ascii_of_string (config.Message.Username sampleMore.fromAlice)).
Proof.
  intros out msg'. split; [run|].
  apply (modifyUsername_StripNick sampleMore.fromAlice sampleMore.stripping sample.world1
           (default ("", sampleMore.fromAlice) (returned out)).1 msg' (finalWorld out)
           sample.slack).
  - reflexivity.
  - run.
  - reflexivity.
  - run.
Defined.

(** X19 on a username whose first letter has two bytes: the cut is after
    the letter. *)
Lemma noPingIndex_within_witness :
  let username := sampleMore.accented in
  noPingIndex username = 2 ∧
  1 ≤ noPingIndex username ≤ String.length username ∧
  noPingIndex username ≤ 4 ∧
  String.substring 0 (noPingIndex username) username
  +:+ String.substring (noPingIndex username)
        (String.length username - noPingIndex username) username
  = username.
Proof.
  intros username. split; [reflexivity|].
  apply (noPingIndex_within username). discriminate.
Defined.

(** X20 on a message without avatar that goes to IRC and then to a
    bridge whose icon URL is another. *)
Lemma modifyAvatar_first_wins_witness :
  let msg := sample.message "slack.b" "general" "gw1" in
  let other := sampleMore.iconic in
  (modifyAvatar msg sample.irc).1 = "https://example.org/bob.png" ∧
  (modifyAvatar (modifyAvatar msg sample.irc).2 other).1 = "https://example.org/bob.png".
Proof.
  intros msg other.
  destruct (modifyAvatar_first_wins msg sample.irc other) as (_ & Hset & Hkept).
  split.
  - etrans; [apply Hset; reflexivity|]. run.
  - rewrite Hkept; [run|]. intros Hx. vm_compute in Hx. discriminate Hx.
Defined.

(** X21 on the words engine: after the pair that renames "bob", an
    expression that does not compile and a list of one string. *)
Lemma replaceLoop_stops_at_bad_regexp_witness :
  replaceLoop "slack.b" ([["bob"; "rob"]] ++ ["("; "x"] :: [["solo"]]) "bob" sample.world1
  = Normal "rob" (mkWorld (gw sample.world1)
      (trace sample.world1
       ++ [Logf "error" "regexp in %s failed: %s"
             [AStr "slack.b"; AStr "error parsing regexp"]])).
Proof.
  apply (replaceLoop_stops_at_bad_regexp "slack.b" [["bob"; "rob"]] "(" "x" [] [["solo"]]
           "error parsing regexp" "bob" sample.world1 "rob" sample.world1).
  - intros outer Hx. members Hx. subst outer.
    exists "bob", "rob", [], "bob". split; reflexivity.
  - reflexivity.
  - run.
Defined.

(** X22 on [gw1], visited backwards: the bridge of irc.a gets the
    descriptor of "#news". *)
Lemma mapChannelsToBridge_lookup_witness :
  let channels := Gateway.Channels sample.gw1 in
  mapChannelsToBridge (reverse (map_to_list channels)) "irc.a" ∅ !! "#newsirc.a"
  = match channels !! "#newsirc.a" with
    | Some channel =>
        if bool_decide ("irc.a" = config.ChannelInfo.Account channel)
        then Some channel else (∅ : gmap string (config.ChannelInfo.t unit)) !! "#newsirc.a"
    | None => (∅ : gmap string (config.ChannelInfo.t unit)) !! "#newsirc.a"
    end.
Proof.
  intros channels.
  apply (mapChannelsToBridge_lookup channels (reverse (map_to_list channels)) "irc.a" ∅
           "#newsirc.a").
  apply reverse_Permutation.
Defined.

(** X23 on a bridge that refuses two connections: connected at the third
    call, with the error of [Disconnect] in the log. *)
Lemma reconnectBridge_success_witness :
  (reconnect.reconnectBridge sampleMore.flaky "irc.a" 5).2 = true ∧
  (reconnect.reconnectBridge sampleMore.flaky "irc.a" 5).1
  = [reconnect.CallDisconnect;
     reconnect.Log "error" "Disconnect() %s failed: %s" ["irc.a"; "broken pipe"];
     reconnect.Sleep 5;
     reconnect.Log "info" "Reconnecting %s" ["irc.a"]; reconnect.CallConnect;
     reconnect.Log "error" "Reconnection failed: %s. Trying again in 60 seconds"
       ["connection refused"];
     reconnect.Sleep 60;
     reconnect.Log "info" "Reconnecting %s" ["irc.a"]; reconnect.CallConnect;
     reconnect.Log "error" "Reconnection failed: %s. Trying again in 60 seconds"
       ["connection refused"];
     reconnect.Sleep 60;
     reconnect.Log "info" "Reconnecting %s" ["irc.a"]; reconnect.CallConnect;
     reconnect.ResetJoined; reconnect.CallJoinChannels] ∧
  reconnect.actions (reconnect.reconnectBridge sampleMore.flaky "irc.a" 5).1
  = [reconnect.CallDisconnect; reconnect.Sleep 5]
    ++ List.concat (replicate 2 [reconnect.CallConnect; reconnect.Sleep 60])
    ++ [reconnect.CallConnect; reconnect.ResetJoined; reconnect.CallJoinChannels].
Proof.
  apply (reconnectBridge_success sampleMore.flaky "irc.a" 2 5).
  - intros k Hk. destruct k as [|[|k]]; [eexists; reflexivity..|lia].
  - reflexivity.
  - lia.
Defined.

(** X24 on a bridge that refuses every connection, after three calls. *)
Lemma reconnectBridge_retries_forever_witness :
  (reconnect.reconnectBridge sampleMore.down "irc.a" 3).2 = false ∧
  reconnect.actions (reconnect.reconnectBridge sampleMore.down "irc.a" 3).1
  = [reconnect.CallDisconnect; reconnect.Sleep 5]
    ++ List.concat (replicate 3 [reconnect.CallConnect; reconnect.Sleep 60]).
Proof.
  apply (reconnectBridge_retries_forever sampleMore.down "irc.a" 3).
  intros k. eexists. reflexivity.
Defined.

(** X27 on [gw1]: a message of Slack that names no gateway. *)
Lemma modifyMessage_stamps_gateway_witness :
  let msg := sample.message "slack.b" "general" "" in
  let out := modifyMessage msg sample.world1 in
  validGatewayDest (gw (finalWorld out)) (default msg (returned out)) = true.
Proof.
  intros msg out.
  apply (modifyMessage_stamps_gateway msg sample.world1).
  - intros m w0 m' w1 [= _ <-]. reflexivity.
  - run.
  - intros Hx. vm_compute in Hx. discriminate Hx.
Defined.

(** X28 on [gw1]: a message of xmpp.z; no hook is configured, and the
    world is as it was. *)
Lemma modifyMessage_unknown_account_witness :
  modifyMessage sampleMore.stranger sample.world1 = Panic sample.world1.
Proof.
  etrans; [apply (modifyMessage_unknown_account sampleMore.stranger sample.world1); run|].
  run.
Defined.
